(** * The TypeScript-to-ES6 class lowering pass (src/compiler/transforms/es6.ts)

    A shallow embedding of the class lowering transform: constructor
    synthesis, property-name resolution and decorator lowering, together
    with the properties of the pass that its specification states.

    The syntax tree, the visitor context and the helpers of the compiler
    that live outside es6.ts are modelled in the first half of the file;
    the functions of es6.ts follow, in the order of the source. *)

From Stdlib Require Import ZArith.
From stdpp Require Import gmap strings list pretty.

Set Warnings "-register-all".
Local Open Scope Z_scope.

(** ** Syntax kinds, node flags *)

(** The members of the [SyntaxKind] enumeration that the pass looks at. *)
Module SyntaxKind.
Inductive t :=
  | PublicKeyword | PrivateKeyword | ProtectedKeyword
  | AbstractKeyword | AsyncKeyword | ConstKeyword | DeclareKeyword
  | StaticKeyword | ExportKeyword | DefaultKeyword
  | ExtendsKeyword | ImplementsKeyword
  | Decorator | InterfaceDeclaration | TypeAliasDeclaration
  | ClassDeclaration | ClassExpression
  | HeritageClause | ExpressionWithTypeArguments
  | Constructor | PropertyDeclaration | IndexSignature
  | MethodDeclaration | GetAccessor | SetAccessor
  | SemicolonClassElement | MissingDeclaration.

Definition eqb (a b : t) : bool :=
  match a, b with
  | PublicKeyword, PublicKeyword | PrivateKeyword, PrivateKeyword
  | ProtectedKeyword, ProtectedKeyword | AbstractKeyword, AbstractKeyword
  | AsyncKeyword, AsyncKeyword | ConstKeyword, ConstKeyword
  | DeclareKeyword, DeclareKeyword | StaticKeyword, StaticKeyword
  | ExportKeyword, ExportKeyword | DefaultKeyword, DefaultKeyword
  | ExtendsKeyword, ExtendsKeyword | ImplementsKeyword, ImplementsKeyword
  | Decorator, Decorator | InterfaceDeclaration, InterfaceDeclaration
  | TypeAliasDeclaration, TypeAliasDeclaration
  | ClassDeclaration, ClassDeclaration | ClassExpression, ClassExpression
  | HeritageClause, HeritageClause
  | ExpressionWithTypeArguments, ExpressionWithTypeArguments
  | Constructor, Constructor | PropertyDeclaration, PropertyDeclaration
  | IndexSignature, IndexSignature | MethodDeclaration, MethodDeclaration
  | GetAccessor, GetAccessor | SetAccessor, SetAccessor
  | SemicolonClassElement, SemicolonClassElement
  | MissingDeclaration, MissingDeclaration => true
  | _, _ => false
  end.
End SyntaxKind.

(** Modelled from the spec: the bits of the [NodeFlags] bitset that the pass
    tests (static, ambient, accessibility, let).  The enumeration is declared
    in types.ts, outside this file; the values are those of the compiler the
    pass belongs to.  Only their being distinct bits matters below. *)
Module NodeFlags.
Definition Export : Z := 1.
Definition Ambient : Z := 2.
Definition Public : Z := 16.
Definition Private : Z := 32.
Definition Protected : Z := 64.
Definition Static : Z := 128.
Definition Abstract : Z := 256.
Definition Async : Z := 512.
Definition Let : Z := 16384.
Definition Const : Z := 32768.
Definition AccessibilityModifier : Z := Z.lor Public (Z.lor Private Protected).
End NodeFlags.

(** Modelled from the spec: the two precomputed marks "this node requires
    lowering" and "some descendant requires lowering" ([TransformFlags],
    declared outside this file). *)
Module TransformFlags.
Definition ThisNodeNeedsTransformToES6 : Z := 1.
Definition SubtreeNeedsTransformToES6 : Z := 2.
End TransformFlags.

(** JavaScript truthiness of [flags & mask]. *)
Definition hasFlag (flags mask : Z) : bool := negb (Z.land flags mask =? 0).

(** ** Syntax tree

    Nodes are records of the children the pass reads.  The node types that
    contain expressions and statements are declared over the two types
    [E] and [S] and tied together below.  [id] is the identity of a parsed
    node (the compiler's node id): the pass compares nodes by reference and
    keys its registries by node. *)

Definition TypeNode := nat.

Record CommentRange := { pos : nat; end_ : nat }.

Module Modifier.
Record t := make { kind : SyntaxKind.t; transformFlags : Z }.
End Modifier.

Module Decorator.
Record t (E : Type) := make { expression : E }.
#[global] Arguments make {E}.
#[global] Arguments expression {E}.
End Decorator.

(** [DeclarationName]: an identifier, a literal, a computed property name or
    a binding pattern. *)
Inductive DeclarationName_ (E : Type) :=
  | NameIdentifier (text : string)
  | NameStringLiteral (text : string)
  | NameNumericLiteral (text : string)
  | ComputedPropertyName (id : nat) (expression : E)
  | ObjectBindingPattern (tag : nat)
  | ArrayBindingPattern (tag : nat).
#[global] Arguments NameIdentifier {E}.
#[global] Arguments NameStringLiteral {E}.
#[global] Arguments NameNumericLiteral {E}.
#[global] Arguments ComputedPropertyName {E}.
#[global] Arguments ObjectBindingPattern {E}.
#[global] Arguments ArrayBindingPattern {E}.

Module ParameterDeclaration.
Record t (E : Type) := make {
  decorators : option (list (Decorator.t E));
  flags : Z;
  dotDotDotToken : bool;
  name : DeclarationName_ E;
  initializer : option E }.
#[global] Arguments make {E}.
#[global] Arguments decorators {E}.
#[global] Arguments flags {E}.
#[global] Arguments dotDotDotToken {E}.
#[global] Arguments name {E}.
#[global] Arguments initializer {E}.
End ParameterDeclaration.

Module ExpressionWithTypeArguments.
Record t (E : Type) := make {
  transformFlags : Z;
  expression : E;
  typeArguments : option (list TypeNode) }.
#[global] Arguments make {E}.
#[global] Arguments transformFlags {E}.
#[global] Arguments expression {E}.
#[global] Arguments typeArguments {E}.
End ExpressionWithTypeArguments.

Module HeritageClause.
Record t (E : Type) := make {
  flags : Z;
  token : SyntaxKind.t;
  types : list (ExpressionWithTypeArguments.t E) }.
#[global] Arguments make {E}.
#[global] Arguments flags {E}.
#[global] Arguments token {E}.
#[global] Arguments types {E}.
End HeritageClause.

(** A class element: constructor, method, accessor, property declaration,
    index signature, and so on, told apart by [kind] as in the source.
    [leadingCommentRanges] and [trailingCommentRanges] are the ranges that
    [factory.attachCommentRanges] stores on a node; [original] is the
    back-reference to the node a synthesized node stands for. *)
Module ClassElement.
Record t (E S : Type) := make {
  kind : SyntaxKind.t;
  id : nat;
  flags : Z;
  decorators : option (list (Decorator.t E));
  modifiers : option (list Modifier.t);
  name : option (DeclarationName_ E);
  typeParameters : option (list TypeNode);
  parameters : list (ParameterDeclaration.t E);
  type : option TypeNode;
  body : option (list S);
  initializer : option E;
  original : option nat;
  leadingCommentRanges : option (list CommentRange);
  trailingCommentRanges : option (list CommentRange) }.
#[global] Arguments make {E S}.
#[global] Arguments kind {E S}.
#[global] Arguments id {E S}.
#[global] Arguments flags {E S}.
#[global] Arguments decorators {E S}.
#[global] Arguments modifiers {E S}.
#[global] Arguments name {E S}.
#[global] Arguments typeParameters {E S}.
#[global] Arguments parameters {E S}.
#[global] Arguments type {E S}.
#[global] Arguments body {E S}.
#[global] Arguments initializer {E S}.
#[global] Arguments original {E S}.
#[global] Arguments leadingCommentRanges {E S}.
#[global] Arguments trailingCommentRanges {E S}.
End ClassElement.

(** A class declaration or class expression. *)
Module ClassLikeDeclaration.
Record t (E S : Type) := make {
  kind : SyntaxKind.t;
  id : nat;
  flags : Z;
  decorators : option (list (Decorator.t E));
  modifiers : option (list Modifier.t);
  name : option string;
  typeParameters : option (list TypeNode);
  heritageClauses : option (list (HeritageClause.t E));
  members : list (ClassElement.t E S) }.
#[global] Arguments make {E S}.
#[global] Arguments kind {E S}.
#[global] Arguments id {E S}.
#[global] Arguments flags {E S}.
#[global] Arguments decorators {E S}.
#[global] Arguments modifiers {E S}.
#[global] Arguments name {E S}.
#[global] Arguments typeParameters {E S}.
#[global] Arguments heritageClauses {E S}.
#[global] Arguments members {E S}.
End ClassLikeDeclaration.

(** Expressions and statements.  The constructors are the node kinds that the
    pass builds or inspects; [OtherExpression] and [OtherStatement] stand for
    every other kind, which the pass only hands to the generic visitor.
    [AbsentExpression] is [undefined] in an expression slot: the pass can
    build a node one of whose children is absent (see
    [getExpressionForPropertyName]). *)
Inductive Expression :=
  | Identifier (text : string)
  | ThisKeyword
  | SuperKeyword
  | StringLiteral (text : string)
  | NumericLiteral (text : string)
  | CallExpression (expression : Expression) (arguments : list Expression)
  | SpreadElementExpression (expression : Expression)
  | PropertyAccessExpression (expression : Expression) (name : Expression)
  | ElementAccessExpression (expression : Expression) (argumentExpression : Expression)
  | AssignmentExpression (left : Expression) (right : Expression)
  | ArrayLiteralExpression (elements : list Expression)
  | AbsentExpression
  | ClassExpressionNode (node : ClassLikeDeclaration.t Expression Statement)
  | OtherExpression (tag : nat)
with Statement :=
  | ExpressionStatement (expression : Expression) (original : option nat)
  | VariableStatement (name : Expression) (initializer : Expression)
      (flags : Z) (original : option nat)
  | ClassDeclarationStatement (node : ClassLikeDeclaration.t Expression Statement)
  | OtherStatement (tag : nat).

Abbreviation Decorator := (Decorator.t Expression).
Abbreviation DeclarationName := (DeclarationName_ Expression).
Abbreviation ParameterDeclaration := (ParameterDeclaration.t Expression).
Abbreviation ExpressionWithTypeArguments := (ExpressionWithTypeArguments.t Expression).
Abbreviation HeritageClause := (HeritageClause.t Expression).
Abbreviation ClassElement := (ClassElement.t Expression Statement).
Abbreviation ClassLikeDeclaration := (ClassLikeDeclaration.t Expression Statement).
Abbreviation Block := (list Statement).

(** ** The outcome of a transform and the visitor context *)

(** A transform returns a value, or aborts the pass through [Debug.fail]. *)
Inductive Result (A : Type) :=
  | Ok (a : A)
  | DebugFail (message : string).
#[global] Arguments Ok {A}.
#[global] Arguments DebugFail {A}.

(** Modelled from the spec: the configuration of the pass, one boolean that
    controls the emission of the metadata calls
    ([compilerOptions.emitDecoratorMetadata]). *)
Record CompilerOptions := { emitDecoratorMetadata : bool }.

(** Modelled from the spec: the transform context ([VisitorContext], declared
    outside this file): the stack of statement buffers, of which [statements]
    is the innermost and [enclosingStatements] the suspended ones; the
    registry of generated names, stable per original node; the registry of
    hoisted locals; the comment ranges, looked up by node; the
    configuration. *)
Record VisitorContext := {
  statements : list Statement;
  enclosingStatements : list (list Statement);
  generatedNames : gmap nat string;
  tempCount : nat;
  hoistedVariableDeclarations : list Expression;
  compilerOptions : CompilerOptions;
  leadingCommentRangesOf : nat → bool → option (list CommentRange);
  trailingCommentRangesOf : nat → option (list CommentRange) }.

(** The pass threads the context through every call and can abort. *)
Definition M (A : Type) : Type := VisitorContext → Result (A * VisitorContext).

Definition ret {A} (a : A) : M A := λ context, Ok (a, context).

Definition bind {A B} (m : M A) (k : A → M B) : M B :=
  λ context,
    match m context with
    | Ok (a, context') => k a context'
    | DebugFail message => DebugFail message
    end.

Definition fail {A} (message : string) : M A := λ _, DebugFail message.

Declare Scope transform_scope.
Delimit Scope transform_scope with transform.
Notation "'let*' x ':=' m 'in' k" := (bind m (λ x, k))
  (at level 10, x name, m at level 100, k at level 200) : transform_scope.
Notation "m '>>' k" := (bind m (λ _, k))
  (at level 100, k at level 200, right associativity) : transform_scope.
Local Open Scope transform_scope.

Definition gets {A} (f : VisitorContext → A) : M A := λ context, Ok (f context, context).
Definition modify (f : VisitorContext → VisitorContext) : M unit :=
  λ context, Ok (tt, f context).

(** [forEachM f l]: a [for ... of] loop whose body is [f]. *)
Fixpoint forEachM {A} (f : A → M unit) (l : list A) : M unit :=
  match l with
  | [] => ret tt
  | x :: l' => f x >> forEachM f l'
  end.

(** [mapM f l]: the array of the results of [f], left to right. *)
Fixpoint mapM {A B} (f : A → M B) (l : list A) : M (list B) :=
  match l with
  | [] => ret []
  | x :: l' => let* y := f x in let* ys := mapM f l' in ret (y :: ys)
  end.

Definition withStatements (context : VisitorContext) (ss : list Statement)
    (stack : list (list Statement)) : VisitorContext :=
  {| statements := ss;
     enclosingStatements := stack;
     generatedNames := generatedNames context;
     tempCount := tempCount context;
     hoistedVariableDeclarations := hoistedVariableDeclarations context;
     compilerOptions := compilerOptions context;
     leadingCommentRangesOf := leadingCommentRangesOf context;
     trailingCommentRangesOf := trailingCommentRangesOf context |}.

(** Modelled from the spec: [context.pushStatements].  Entering a
    statement-producing scope suspends the current buffer and starts an
    empty one. *)
Definition pushStatements : M unit :=
  modify (λ context,
    withStatements context [] (statements context :: enclosingStatements context)).

(** Modelled from the spec: [context.popStatements].  Leaving the scope
    resumes the buffer suspended last. *)
Definition popStatements : M unit :=
  modify (λ context,
    match enclosingStatements context with
    | ss :: stack => withStatements context ss stack
    | [] => withStatements context [] []
    end).

(** Modelled from the spec: [context.getStatements], the statements
    accumulated in the current buffer. *)
Definition getStatements : M (list Statement) := gets statements.

(** Modelled from the spec: [context.emitStatements]: emission targets the
    current buffer. *)
Definition emitStatements (ss : list Statement) : M unit :=
  modify (λ context,
    withStatements context (statements context ++ ss) (enclosingStatements context)).

(** Modelled from the spec: [context.emitStatement]. *)
Definition emitStatement (s : Statement) : M unit := emitStatements [s].

(** Modelled from the spec: [context.emitExpressionStatement], which emits the
    expression as a statement. *)
Definition emitExpressionStatement (e : Expression) : M unit :=
  emitStatement (ExpressionStatement e None).

(** Modelled from the spec: [context.emitAssignmentStatement], which emits
    [left = right] as a statement. *)
Definition emitAssignmentStatement (left right : Expression) : M unit :=
  emitStatement (ExpressionStatement (AssignmentExpression left right) None).

(** Modelled from the spec: the naming scheme of the name generator: the text
    of the [n]-th generated name. *)
Definition tempName (n : nat) : string := "_" +:+ pretty n.

(** Modelled from the spec: [context.nodeHasGeneratedName], whether a name is
    registered for the node. *)
Definition nodeHasGeneratedName (nodeId : nat) : M bool :=
  gets (λ context, bool_decide (is_Some (generatedNames context !! nodeId))).

(** Modelled from the spec: [context.getGeneratedNameForNode], "a stable
    unique identifier per original node": the name registered for the node, or
    else a new one, which is then registered. *)
Definition getGeneratedNameForNode (nodeId : nat) : M string :=
  λ context,
    match generatedNames context !! nodeId with
    | Some text => Ok (text, context)
    | None =>
        let text := tempName (tempCount context) in
        Ok (text,
            {| statements := statements context;
               enclosingStatements := enclosingStatements context;
               generatedNames := <[nodeId := text]> (generatedNames context);
               tempCount := S (tempCount context);
               hoistedVariableDeclarations := hoistedVariableDeclarations context;
               compilerOptions := compilerOptions context;
               leadingCommentRangesOf := leadingCommentRangesOf context;
               trailingCommentRangesOf := trailingCommentRangesOf context |})
    end.

(** Modelled from the spec: [context.createUniqueIdentifier], a "hint-scoped
    unique identifier". *)
Definition createUniqueIdentifier (hint : string) : M Expression :=
  λ context,
    Ok (Identifier (hint +:+ tempName (tempCount context)),
        {| statements := statements context;
           enclosingStatements := enclosingStatements context;
           generatedNames := generatedNames context;
           tempCount := S (tempCount context);
           hoistedVariableDeclarations := hoistedVariableDeclarations context;
           compilerOptions := compilerOptions context;
           leadingCommentRangesOf := leadingCommentRangesOf context;
           trailingCommentRangesOf := trailingCommentRangesOf context |}).

(** Modelled from the spec: [context.hoistVariableDeclaration], the registry
    of generated locals "for later declaration at enclosing-scope top". *)
Definition hoistVariableDeclaration (name : Expression) : M unit :=
  modify (λ context,
    {| statements := statements context;
       enclosingStatements := enclosingStatements context;
       generatedNames := generatedNames context;
       tempCount := tempCount context;
       hoistedVariableDeclarations := hoistedVariableDeclarations context ++ [name];
       compilerOptions := compilerOptions context;
       leadingCommentRangesOf := leadingCommentRangesOf context;
       trailingCommentRangesOf := trailingCommentRangesOf context |}).

(** Modelled from the spec: [context.getLeadingCommentRanges], the comment-
    range lookup keyed by node; an absent node has none. *)
Definition getLeadingCommentRanges (node : option ClassElement)
    (onlyPinnedOrTripleSlashComments : bool) : M (option (list CommentRange)) :=
  gets (λ context,
    match node with
    | Some n => leadingCommentRangesOf context (ClassElement.id n)
                  onlyPinnedOrTripleSlashComments
    | None => None
    end).

(** Modelled from the spec: [context.getTrailingCommentRanges]. *)
Definition getTrailingCommentRanges (node : option ClassElement)
    : M (option (list CommentRange)) :=
  gets (λ context,
    match node with
    | Some n => trailingCommentRangesOf context (ClassElement.id n)
    | None => None
    end).

(** ** Helpers of the compiler used by the pass

    These are declared in the compiler's utilities and core libraries, not in
    es6.ts; the specification names what they decide. *)

(** Modelled from the spec: the type guard [isConstructor] of the compiler. *)
Definition isConstructor (member : ClassElement) : bool :=
  SyntaxKind.eqb (ClassElement.kind member) SyntaxKind.Constructor.

(** Modelled from the spec: the type guard [isMethodDeclaration] of the
    compiler. *)
Definition isMethodDeclaration (member : ClassElement) : bool :=
  SyntaxKind.eqb (ClassElement.kind member) SyntaxKind.MethodDeclaration.

(** Modelled from the spec: the type guard [isPropertyDeclaration] of the
    compiler. *)
Definition isPropertyDeclaration (member : ClassElement) : bool :=
  SyntaxKind.eqb (ClassElement.kind member) SyntaxKind.PropertyDeclaration.

(** Modelled from the spec: the type guard [isAccessor] of the compiler: a get
    or a set accessor. *)
Definition isAccessor (member : ClassElement) : bool :=
  SyntaxKind.eqb (ClassElement.kind member) SyntaxKind.GetAccessor
  || SyntaxKind.eqb (ClassElement.kind member) SyntaxKind.SetAccessor.

(** Modelled from the spec: the type guard [isIdentifier] of the compiler. *)
Definition isIdentifier (name : DeclarationName) : bool :=
  match name with NameIdentifier _ => true | _ => false end.

(** Modelled from the spec: the type guard [isComputedPropertyName] of the
    compiler. *)
Definition isComputedPropertyName (name : DeclarationName) : bool :=
  match name with ComputedPropertyName _ _ => true | _ => false end.

(** Modelled from the spec: the type guard [isStringLiteral] of the compiler. *)
Definition isStringLiteral (name : DeclarationName) : bool :=
  match name with NameStringLiteral _ => true | _ => false end.

(** Modelled from the spec: the type guard [isPropertyName] of the compiler:
    an identifier, a literal or a computed property name. *)
Definition isPropertyName (name : DeclarationName) : bool :=
  match name with
  | NameIdentifier _ | NameStringLiteral _ | NameNumericLiteral _
  | ComputedPropertyName _ _ => true
  | ObjectBindingPattern _ | ArrayBindingPattern _ => false
  end.

(** Modelled from the spec: the "non-nameable (pattern-like)" forms of a
    declaration name. *)
Definition isBindingPattern (name : DeclarationName) : bool :=
  match name with
  | ObjectBindingPattern _ | ArrayBindingPattern _ => true
  | _ => false
  end.

(** A name node read as an expression (the source's unchecked cast
    [<Identifier>name]). *)
Definition nameExpression (name : DeclarationName) : Expression :=
  match name with
  | NameIdentifier text => Identifier text
  | NameStringLiteral text => StringLiteral text
  | NameNumericLiteral text => NumericLiteral text
  | ComputedPropertyName _ expression => expression
  | ObjectBindingPattern tag | ArrayBindingPattern tag => OtherExpression tag
  end.

(** Modelled from the spec: [concatenate] of the core library ("their leading
    comments are concatenated"): the other array when one is absent or empty. *)
Definition concatenate {A} (array1 array2 : option (list A)) : option (list A) :=
  match array2 with
  | None | Some [] => array1
  | Some l2 =>
      match array1 with
      | None | Some [] => array2
      | Some l1 => Some (l1 ++ l2)
      end
  end.

(** Modelled from the spec: [getFirstConstructorWithBody], the class's
    constructor with a body, if it has one (the first such member). *)
Definition getFirstConstructorWithBody (node : ClassLikeDeclaration)
    : option ClassElement :=
  List.find (λ member, isConstructor member && bool_decide (is_Some (ClassElement.body member)))
    (ClassLikeDeclaration.members node).

(** Modelled from the spec: [getClassExtendsHeritageClauseElement], the
    declared base type of a class: the first type of its extends clause. *)
Definition getClassExtendsHeritageClauseElement (node : ClassLikeDeclaration)
    : option ExpressionWithTypeArguments :=
  match ClassLikeDeclaration.heritageClauses node with
  | Some clauses =>
      match List.find (λ clause,
              SyntaxKind.eqb (HeritageClause.token clause) SyntaxKind.ExtendsKeyword)
              clauses with
      | Some clause => head (HeritageClause.types clause)
      | None => None
      end
  | None => None
  end.

(** Modelled from the spec: which members are decoratable (properties, and
    methods and accessors with a body; not constructors), and when a node is
    decorated (it has decorators of its own; a method or an accessor also
    needs a body).  The members handled here are members of the class being
    lowered, so the check of the parent's kind is left out. *)
Definition nodeCanBeDecorated (member : ClassElement) : bool :=
  match ClassElement.kind member with
  | SyntaxKind.PropertyDeclaration => true
  | SyntaxKind.GetAccessor | SyntaxKind.SetAccessor | SyntaxKind.MethodDeclaration =>
      bool_decide (is_Some (ClassElement.body member))
  | _ => false
  end.

(** Modelled from the spec: [nodeIsDecorated], which the source applies to
    members and to parameters: the node has decorators of its own (a method or
    an accessor also needs a body). *)
Class NodeIsDecorated (N : Type) := nodeIsDecorated : N → bool.

#[global] Instance parameterIsDecorated : NodeIsDecorated ParameterDeclaration :=
  λ parameter, bool_decide (is_Some (ParameterDeclaration.decorators parameter)).

#[global] Instance memberIsDecorated : NodeIsDecorated ClassElement :=
  λ member,
    match ClassElement.kind member with
    | SyntaxKind.PropertyDeclaration =>
        bool_decide (is_Some (ClassElement.decorators member))
    | SyntaxKind.GetAccessor | SyntaxKind.SetAccessor | SyntaxKind.MethodDeclaration =>
        bool_decide (is_Some (ClassElement.body member))
        && bool_decide (is_Some (ClassElement.decorators member))
    | _ => false
    end.

(** Modelled from the spec: a member has "a decorated parameter" when it is
    a method or a set accessor one of whose parameters is decorated. *)
Definition childIsDecorated (member : ClassElement) : bool :=
  match ClassElement.kind member with
  | SyntaxKind.MethodDeclaration | SyntaxKind.SetAccessor =>
      existsb nodeIsDecorated (ClassElement.parameters member)
  | _ => false
  end.

(** Modelled from the spec: [nodeOrChildIsDecorated]: the member has
    decorators of its own or a decorated parameter. *)
Definition nodeOrChildIsDecorated (member : ClassElement) : bool :=
  nodeIsDecorated member || childIsDecorated member.

(** Modelled from the spec: the text by which two property names are compared;
    a computed name has none. *)
Definition getPropertyNameForPropertyNameNode (name : option DeclarationName)
    : option string :=
  match name with
  | Some (NameIdentifier text) | Some (NameStringLiteral text)
  | Some (NameNumericLiteral text) => Some text
  | _ => None
  end.

(** Modelled from the spec: [hasDynamicName]: the name of the member is
    computed. *)
Definition hasDynamicName (member : ClassElement) : bool :=
  match ClassElement.name member with
  | Some name => isComputedPropertyName name
  | None => false
  end.

(** Modelled from the spec: the result of [getAllAccessorDeclarations]. *)
Record AllAccessorDeclarations := {
  firstAccessor : option ClassElement;
  secondAccessor : option ClassElement;
  getAccessor : option ClassElement;
  setAccessor : option ClassElement }.

(** Modelled from the spec: the kind test of a get accessor. *)
Definition isGetAccessor (member : ClassElement) : bool :=
  SyntaxKind.eqb (ClassElement.kind member) SyntaxKind.GetAccessor.

(** Modelled from the spec: the kind test of a set accessor. *)
Definition isSetAccessor (member : ClassElement) : bool :=
  SyntaxKind.eqb (ClassElement.kind member) SyntaxKind.SetAccessor.

(** Modelled from the spec: the accessors that pair with [accessor]: those of
    the same staticness whose name has the same text. *)
Definition pairsWith (accessor member : ClassElement) : bool :=
  isAccessor member
  && Bool.eqb (hasFlag (ClassElement.flags member) NodeFlags.Static)
              (hasFlag (ClassElement.flags accessor) NodeFlags.Static)
  && bool_decide (getPropertyNameForPropertyNameNode (ClassElement.name member)
                  = getPropertyNameForPropertyNameNode (ClassElement.name accessor)).

(** Modelled from the spec: [getAllAccessorDeclarations], the get/set pair an
    accessor belongs to.  [firstAccessor] and [secondAccessor] are the first
    and the second declared accessor of the pair, [getAccessor] and
    [setAccessor] its first getter and its first setter.  An accessor with a
    computed name is alone in its pair. *)
Definition getAllAccessorDeclarations (declarations : list ClassElement)
    (accessor : ClassElement) : AllAccessorDeclarations :=
  if hasDynamicName accessor then
    {| firstAccessor := Some accessor;
       secondAccessor := None;
       getAccessor := if isGetAccessor accessor then Some accessor else None;
       setAccessor := if isSetAccessor accessor then Some accessor else None |}
  else
    let matching := List.filter (pairsWith accessor) declarations in
    {| firstAccessor := matching !! 0%nat;
       secondAccessor := matching !! 1%nat;
       getAccessor := List.find isGetAccessor matching;
       setAccessor := List.find isSetAccessor matching |}.

(** ** The node factory

    Modelled from the spec: the node factory ("construct, update and clone
    nodes, attach comment ranges"), declared outside this file.  A created
    node has [id] 0 (none assigned); an updated node keeps what the update
    does not replace. *)

(** Modelled from the spec: [factory.createIdentifier]. *)
Definition createIdentifier (text : string) : Expression := Identifier text.

(** Modelled from the spec: [factory.createThisKeyword]. *)
Definition createThisKeyword : Expression := ThisKeyword.

(** Modelled from the spec: [factory.createStringLiteral]. *)
Definition createStringLiteral (text : string) : Expression := StringLiteral text.

(** Modelled from the spec: [factory.createNumericLiteral2], the literal of a
    number. *)
Definition createNumericLiteral2 (value : nat) : Expression := NumericLiteral (pretty value).

(** Modelled from the spec: [factory.createPropertyAccessExpression2]. *)
Definition createPropertyAccessExpression2 (expression name : Expression) : Expression :=
  PropertyAccessExpression expression name.

(** Modelled from the spec: [factory.createCallExpression2]. *)
Definition createCallExpression2 (expression : Expression) (arguments : list Expression)
    : Expression :=
  CallExpression expression arguments.

(** Modelled from the spec: [factory.createSpreadElementExpression]. *)
Definition createSpreadElementExpression (expression : Expression) : Expression :=
  SpreadElementExpression expression.

(** Modelled from the spec: [factory.createArrayLiteralExpression]. *)
Definition createArrayLiteralExpression (elements : list Expression) : Expression :=
  ArrayLiteralExpression elements.

(** Modelled from the spec: [factory.createAssignmentExpression]. *)
Definition createAssignmentExpression (left right : Expression) : Expression :=
  AssignmentExpression left right.

(** Modelled from the spec: [factory.createExpressionStatement]. *)
Definition createExpressionStatement (expression : Expression) : Statement :=
  ExpressionStatement expression None.

(** An absent node in an expression slot. *)
Definition orAbsent (e : option Expression) : Expression := default AbsentExpression e.

(** Modelled from the spec: [factory.createRestParameter], a variadic
    parameter. *)
Definition createRestParameter (name : DeclarationName) : ParameterDeclaration :=
  {| ParameterDeclaration.decorators := None;
     ParameterDeclaration.flags := 0;
     ParameterDeclaration.dotDotDotToken := true;
     ParameterDeclaration.name := name;
     ParameterDeclaration.initializer := None |}.

(** Modelled from the spec: [factory.createMemberAccessForPropertyName]:
    [target.name] for an identifier, [target[expression]] otherwise. *)
Definition createMemberAccessForPropertyName (target : Expression) (name : DeclarationName)
    : Expression :=
  match name with
  | NameIdentifier text => PropertyAccessExpression target (Identifier text)
  | _ => ElementAccessExpression target (nameExpression name)
  end.

(** Modelled from the spec: [factory.updateComputedPropertyName]. *)
Definition updateComputedPropertyName (name : DeclarationName) (expression : Expression)
    : DeclarationName :=
  match name with
  | ComputedPropertyName id _ => ComputedPropertyName id expression
  | _ => name
  end.

(** Modelled from the spec: [factory.createClassExpression2], a class
    expression with a name, one heritage clause and members. *)
Definition createClassExpression2 (name : option Expression)
    (heritageClause : option HeritageClause) (members : list ClassElement) : Expression :=
  ClassExpressionNode
    {| ClassLikeDeclaration.kind := SyntaxKind.ClassExpression;
       ClassLikeDeclaration.id := 0;
       ClassLikeDeclaration.flags := 0;
       ClassLikeDeclaration.decorators := None;
       ClassLikeDeclaration.modifiers := None;
       ClassLikeDeclaration.name :=
         match name with Some (Identifier text) => Some text | _ => None end;
       ClassLikeDeclaration.typeParameters := None;
       ClassLikeDeclaration.heritageClauses := (λ clause, [clause]) <$> heritageClause;
       ClassLikeDeclaration.members := members |}.

(** Modelled from the spec: [factory.createVariableStatement2], the
    declaration of one binding. *)
Definition createVariableStatement2 (name initializer : Expression) (flags : Z) : Statement :=
  VariableStatement name initializer flags None.

(** Modelled from the spec: the assignment [node.original = original] to a
    created statement. *)
Definition setOriginal (s : Statement) (original : nat) : Statement :=
  match s with
  | ExpressionStatement e _ => ExpressionStatement e (Some original)
  | VariableStatement n i f _ => VariableStatement n i f (Some original)
  | _ => s
  end.

(** Modelled from the spec: [factory.updateClassDeclaration]. *)
Definition updateClassDeclaration (node : ClassLikeDeclaration)
    (decorators : option (list Decorator)) (modifiers : option (list Modifier.t))
    (name : option string) (typeParameters : option (list TypeNode))
    (heritageClauses : option (list HeritageClause)) (members : list ClassElement)
    : ClassLikeDeclaration :=
  {| ClassLikeDeclaration.kind := ClassLikeDeclaration.kind node;
     ClassLikeDeclaration.id := ClassLikeDeclaration.id node;
     ClassLikeDeclaration.flags := ClassLikeDeclaration.flags node;
     ClassLikeDeclaration.decorators := decorators;
     ClassLikeDeclaration.modifiers := modifiers;
     ClassLikeDeclaration.name := name;
     ClassLikeDeclaration.typeParameters := typeParameters;
     ClassLikeDeclaration.heritageClauses := heritageClauses;
     ClassLikeDeclaration.members := members |}.

(** Modelled from the spec: the update of a function-like class element
    (constructor, method or accessor), common to the four [factory.update...]
    functions below. *)
Definition updateFunctionLike (node : ClassElement)
    (decorators : option (list Decorator)) (modifiers : option (list Modifier.t))
    (name : option DeclarationName) (typeParameters : option (list TypeNode))
    (parameters : list ParameterDeclaration) (type : option TypeNode)
    (body : option Block) : ClassElement :=
  {| ClassElement.kind := ClassElement.kind node;
     ClassElement.id := ClassElement.id node;
     ClassElement.flags := ClassElement.flags node;
     ClassElement.decorators := decorators;
     ClassElement.modifiers := modifiers;
     ClassElement.name := name;
     ClassElement.typeParameters := typeParameters;
     ClassElement.parameters := parameters;
     ClassElement.type := type;
     ClassElement.body := body;
     ClassElement.initializer := ClassElement.initializer node;
     ClassElement.original := ClassElement.original node;
     ClassElement.leadingCommentRanges := ClassElement.leadingCommentRanges node;
     ClassElement.trailingCommentRanges := ClassElement.trailingCommentRanges node |}.

(** Modelled from the spec: [factory.updateConstructor]. *)
Definition updateConstructor (node : ClassElement)
    (decorators : option (list Decorator)) (modifiers : option (list Modifier.t))
    (parameters : list ParameterDeclaration) (type : option TypeNode) (body : Block)
    : ClassElement :=
  updateFunctionLike node decorators modifiers (ClassElement.name node)
    (ClassElement.typeParameters node) parameters type (Some body).

(** Modelled from the spec: [factory.updateMethodDeclaration]. *)
Definition updateMethodDeclaration := updateFunctionLike.

(** Modelled from the spec: [factory.updateGetAccessor]. *)
Definition updateGetAccessor (node : ClassElement)
    (decorators : option (list Decorator)) (modifiers : option (list Modifier.t))
    (name : option DeclarationName) (parameters : list ParameterDeclaration)
    (type : option TypeNode) (body : option Block) : ClassElement :=
  updateFunctionLike node decorators modifiers name (ClassElement.typeParameters node)
    parameters type body.

(** Modelled from the spec: [factory.updateSetAccessor]. *)
Definition updateSetAccessor := updateGetAccessor.

(** Modelled from the spec: [factory.createConstructor]. *)
Definition createConstructor
    (decorators : option (list Decorator)) (modifiers : option (list Modifier.t))
    (parameters : list ParameterDeclaration) (type : option TypeNode) (body : Block)
    : ClassElement :=
  {| ClassElement.kind := SyntaxKind.Constructor;
     ClassElement.id := 0;
     ClassElement.flags := 0;
     ClassElement.decorators := decorators;
     ClassElement.modifiers := modifiers;
     ClassElement.name := None;
     ClassElement.typeParameters := None;
     ClassElement.parameters := parameters;
     ClassElement.type := type;
     ClassElement.body := Some body;
     ClassElement.initializer := None;
     ClassElement.original := None;
     ClassElement.leadingCommentRanges := None;
     ClassElement.trailingCommentRanges := None |}.

(** Modelled from the spec: [factory.createNode(SyntaxKind.MissingDeclaration,
    location)] followed by [missing.original = node], "an empty placeholder
    carrying a back-reference to the original". *)
Definition createMissingDeclaration (node : ClassElement) : ClassElement :=
  {| ClassElement.kind := SyntaxKind.MissingDeclaration;
     ClassElement.id := 0;
     ClassElement.flags := 0;
     ClassElement.decorators := None;
     ClassElement.modifiers := None;
     ClassElement.name := None;
     ClassElement.typeParameters := None;
     ClassElement.parameters := [];
     ClassElement.type := None;
     ClassElement.body := None;
     ClassElement.initializer := None;
     ClassElement.original := Some (ClassElement.id node);
     ClassElement.leadingCommentRanges := None;
     ClassElement.trailingCommentRanges := None |}.

(** Modelled from the spec: [factory.cloneNode]: a clone has the children of
    the node it is cloned from. *)
Definition cloneNode (node : ClassElement) : ClassElement := node.

(** Modelled from the spec: [factory.attachCommentRanges], which stores the
    comment ranges on the node. *)
Definition attachCommentRanges (node : ClassElement)
    (leadingCommentRanges trailingCommentRanges : option (list CommentRange))
    : ClassElement :=
  {| ClassElement.kind := ClassElement.kind node;
     ClassElement.id := ClassElement.id node;
     ClassElement.flags := ClassElement.flags node;
     ClassElement.decorators := ClassElement.decorators node;
     ClassElement.modifiers := ClassElement.modifiers node;
     ClassElement.name := ClassElement.name node;
     ClassElement.typeParameters := ClassElement.typeParameters node;
     ClassElement.parameters := ClassElement.parameters node;
     ClassElement.type := ClassElement.type node;
     ClassElement.body := ClassElement.body node;
     ClassElement.initializer := ClassElement.initializer node;
     ClassElement.original := ClassElement.original node;
     ClassElement.leadingCommentRanges := leadingCommentRanges;
     ClassElement.trailingCommentRanges := trailingCommentRanges |}.

(** Modelled from the spec: [factory.updateHeritageClause]. *)
Definition updateHeritageClause (node : HeritageClause)
    (types : list ExpressionWithTypeArguments) : HeritageClause :=
  {| HeritageClause.flags := HeritageClause.flags node;
     HeritageClause.token := HeritageClause.token node;
     HeritageClause.types := types |}.

(** Modelled from the spec: [factory.updateExpressionWithTypeArguments]. *)
Definition updateExpressionWithTypeArguments (node : ExpressionWithTypeArguments)
    (expression : Expression) (typeArguments : option (list TypeNode))
    : ExpressionWithTypeArguments :=
  {| ExpressionWithTypeArguments.transformFlags := ExpressionWithTypeArguments.transformFlags node;
     ExpressionWithTypeArguments.expression := expression;
     ExpressionWithTypeArguments.typeArguments := typeArguments |}.

(** [foldM f l a]: a loop over [l] that updates a local variable. *)
Fixpoint foldM {A B} (f : B → A → M B) (l : list A) (b : B) : M B :=
  match l with
  | [] => ret b
  | x :: l' => let* b' := f b x in foldM f l' b'
  end.

(** Modelled from the spec: the declaration-name binding of the context, the
    identifier by which a declaration is referred to: its own name, or a
    generated one when it has none. *)
Definition getDeclarationNameOfClass (node : ClassLikeDeclaration) : M Expression :=
  match ClassLikeDeclaration.name node with
  | Some text => ret (Identifier text)
  | None =>
      let* text := getGeneratedNameForNode (ClassLikeDeclaration.id node) in
      ret (createIdentifier text)
  end.

(** Modelled from the spec: [context.getDeclarationName] at a class member:
    its own name. *)
Definition getDeclarationName (container : ClassElement) : option DeclarationName :=
  ClassElement.name container.

(** Modelled from the spec: the owner of a member in lowered decorator code,
    "the public class binding for static members, a conventional prototype
    reference for instance members". *)
Definition getClassMemberPrefix (node : ClassLikeDeclaration) (member : ClassElement)
    : M Expression :=
  let* name := getDeclarationNameOfClass node in
  if hasFlag (ClassElement.flags member) NodeFlags.Static
  then ret name
  else ret (createPropertyAccessExpression2 name (createIdentifier "prototype")).

(** ** The generic visitor

    The generic descent into the children of a node ([accept], [visitNodes]
    and the typed [visit...] functions) is generated code outside es6.ts.  It
    is a parameter of the development: [visitExpression e] stands for
    [visitExpression(context, e, transformNode)], [visitStatement s] for what
    [visitNodes(context, _, transformNode, visitStatement)] contributes for
    the statement [s] (nothing when [s] is elided), and so on; the [accept...]
    fields stand for [accept(context, node, transformNode)] at a modifier, a
    class element and a base-type expression.

    A visit is a function of the visited node alone.  In the source a visit
    re-enters the pass with the context, so that a class nested in an
    initializer, a parameter, a body or a decorator expression is lowered
    during the visit and can hoist locals and register names.  That re-entry
    is not part of the development: what is proved about a context is proved
    of the steps of the pass at the class at hand, for visits that leave the
    context alone. *)
Class Visitor := {
  visitExpression : Expression → Expression;
  visitStatement : Statement → list Statement;
  visitBlock : Block → Block;
  visitParameter : ParameterDeclaration → ParameterDeclaration;
  acceptModifier : Modifier.t → option Modifier.t;
  acceptClassElement : ClassElement → option ClassElement;
  acceptExpressionWithTypeArguments :
    ExpressionWithTypeArguments → option ExpressionWithTypeArguments }.

(** The visitor of a tree in which nothing is marked for lowering: every
    node is returned as it is. *)
Definition identityVisitor : Visitor :=
  {| visitExpression := λ e, e;
     visitStatement := λ s, [s];
     visitBlock := λ b, b;
     visitParameter := λ p, p;
     acceptModifier := Some;
     acceptClassElement := Some;
     acceptExpressionWithTypeArguments := Some |}.

(** Modelled from the spec: [needsTransform], the test of a precomputed mark. *)
Definition needsTransform (transformFlags mask : Z) : bool := hasFlag transformFlags mask.

(** Modelled from the spec: [visitNodeArrayOfClassElement], the results of
    the callback over the members, elided members left out ("callers must
    filter absent results rather than insert placeholders"). *)
Definition visitNodeArrayOfClassElement (members : list ClassElement)
    (callback : ClassElement → M (option ClassElement)) : M (list ClassElement) :=
  let* results := mapM callback members in
  ret (omap id results).

Section Transform.
Context {visitor : Visitor}.

Definition visitNodes (bodyStatements : list Statement) : list Statement :=
  flat_map visitStatement bodyStatements.

Definition visitNodeArrayOfParameter (parameters : list ParameterDeclaration)
    : list ParameterDeclaration :=
  map visitParameter parameters.

(** [transformNode], for a node kind with transform flags [transformFlags],
    worker [worker] and generic descent [accept]. *)
Definition transformNode {N} (transformFlags : N → Z) (worker accept : N → option N)
    (node : N) : option N :=
  if needsTransform (transformFlags node) TransformFlags.ThisNodeNeedsTransformToES6
  then worker node
  else if needsTransform (transformFlags node) TransformFlags.SubtreeNeedsTransformToES6
  then accept node
  else Some node.

(** [transformNodeWorker] at a modifier token. *)
Definition transformNodeWorkerOfModifier (node : Modifier.t) : option Modifier.t :=
  match Modifier.kind node with
  | SyntaxKind.PublicKeyword | SyntaxKind.PrivateKeyword | SyntaxKind.ProtectedKeyword
  | SyntaxKind.AbstractKeyword | SyntaxKind.AsyncKeyword | SyntaxKind.ConstKeyword
  | SyntaxKind.DeclareKeyword => None
  | _ => acceptModifier node
  end.

Definition transformExpressionWithTypeArguments (node : ExpressionWithTypeArguments)
    : ExpressionWithTypeArguments :=
  updateExpressionWithTypeArguments node (ExpressionWithTypeArguments.expression node) None.

Definition transformHeritageClause (node : HeritageClause) : option HeritageClause :=
  if SyntaxKind.eqb (HeritageClause.token node) SyntaxKind.ExtendsKeyword then
    Some (updateHeritageClause node
            (omap (transformNode ExpressionWithTypeArguments.transformFlags
                     (λ n, Some (transformExpressionWithTypeArguments n))
                     acceptExpressionWithTypeArguments)
                  (HeritageClause.types node)))
  else None.

(** [transformNodeWorker] at a heritage clause. *)
Definition transformNodeWorkerOfHeritageClause (node : HeritageClause)
    : option HeritageClause :=
  if hasFlag (HeritageClause.flags node) NodeFlags.Ambient then None
  else transformHeritageClause node.

Definition transformPropertyName (container : ClassElement) (isPerInstance : bool)
    : M DeclarationName :=
  let name := getDeclarationName container in
  match name with
  | Some (ComputedPropertyName nameId nameExpr as name) =>
      let* hasGeneratedName := nodeHasGeneratedName nameId in
      if negb isPerInstance && hasGeneratedName then
        let* text := getGeneratedNameForNode nameId in
        ret (NameIdentifier text)
      else
        let expression := visitExpression nameExpr in
        let* expression :=
          (if negb isPerInstance && nodeCanBeDecorated container
              && nodeIsDecorated container
           then
             let* text := getGeneratedNameForNode nameId in
             let generatedName := createIdentifier text in
             hoistVariableDeclaration generatedName >>
             ret (createAssignmentExpression generatedName expression)
           else ret expression) in
        ret (updateComputedPropertyName name expression)
  | Some name =>
      if isPropertyName name then ret name
      else fail "Binding patterns cannot be used as property names."
  | None => fail "Binding patterns cannot be used as property names."
  end.

Definition getExpressionForPropertyName (container : ClassElement)
    : M (option Expression) :=
  let* name := transformPropertyName container false in
  match name with
  | ComputedPropertyName _ expression => ret (Some expression)
  | NameStringLiteral text => ret (Some (createStringLiteral text))
  | _ => ret None
  end.

Definition getInitializedProperties (node : ClassLikeDeclaration) (isStatic : bool)
    : option (list ClassElement) :=
  fold_left
    (λ (properties : option (list ClassElement)) member,
       if isPropertyDeclaration member
          && Bool.eqb isStatic (hasFlag (ClassElement.flags member) NodeFlags.Static)
          && bool_decide (is_Some (ClassElement.initializer member))
       then Some (default [] properties ++ [member])
       else properties)
    (ClassLikeDeclaration.members node) None.

Definition getParametersWithPropertyAssignments (node : ClassElement)
    : option (list ParameterDeclaration) :=
  fold_left
    (λ (parameters : option (list ParameterDeclaration)) parameter,
       if isIdentifier (ParameterDeclaration.name parameter)
          && hasFlag (ParameterDeclaration.flags parameter) NodeFlags.AccessibilityModifier
       then Some (default [] parameters ++ [parameter])
       else parameters)
    (ClassElement.parameters node) None.

Definition findInitialSuperCall (ctor : ClassElement) : option Statement :=
  match ClassElement.body ctor with
  | Some (ExpressionStatement (CallExpression SuperKeyword _) _ as statement :: _) =>
      Some statement
  | _ => None
  end.

Definition transformPropertyDeclaration (node : ClassLikeDeclaration)
    (property : ClassElement) : M Expression :=
  let isStatic := hasFlag (ClassElement.flags property) NodeFlags.Static in
  let* target :=
    (if isStatic then getDeclarationNameOfClass node else ret createThisKeyword) in
  let* name := transformPropertyName property (negb isStatic) in
  ret (createAssignmentExpression
         (createMemberAccessForPropertyName target name)
         (orAbsent (visitExpression <$> ClassElement.initializer property))).

Definition emitPropertyDeclarations (node : ClassLikeDeclaration)
    (properties : list ClassElement) : M unit :=
  forEachM
    (λ property,
       let* propertyAssignment := transformPropertyDeclaration node property in
       let propertyStatement := createExpressionStatement propertyAssignment in
       let propertyStatement := setOriginal propertyStatement (ClassElement.id property) in
       emitStatement propertyStatement)
    properties.

Definition bodyStatementsOf (ctor : ClassElement) : list Statement :=
  default [] (ClassElement.body ctor).

(** [transformConstructor].  One case is settled by the model and not by
    the source: when the constructor is not rewritten, a bodyless overload
    carries pinned comments and the class has no constructor with a body,
    the source hands [undefined] to [factory.cloneNode] and
    [factory.attachCommentRanges] (lines 200 to 204), and what the factory
    does then is not in the source.  Here no constructor is returned. *)
Definition transformConstructor (node : ClassLikeDeclaration) (hasBaseType : bool)
    : M (option ClassElement) :=
  let ctor := getFirstConstructorWithBody node in
  let parameterPropertyAssignments := ctor ≫= getParametersWithPropertyAssignments in
  let instancePropertyAssignments := getInitializedProperties node false in
  let trailingCommentRanges : option (list CommentRange) := None in
  let* leadingCommentRanges :=
    foldM
      (λ leadingCommentRanges member,
         if isConstructor member && negb (bool_decide (is_Some (ClassElement.body member)))
         then
           let* leadingCommentRangesOfMember := getLeadingCommentRanges (Some member) true in
           ret (concatenate leadingCommentRanges leadingCommentRangesOfMember)
         else ret leadingCommentRanges)
      (ClassLikeDeclaration.members node) None in
  if negb (bool_decide (is_Some parameterPropertyAssignments))
     && negb (bool_decide (is_Some instancePropertyAssignments))
  then
    match leadingCommentRanges with
    | Some _ =>
        let* ofCtor := getLeadingCommentRanges ctor false in
        let leadingCommentRanges := concatenate leadingCommentRanges ofCtor in
        let ctor := cloneNode <$> ctor in
        ret ((λ c, attachCommentRanges c leadingCommentRanges trailingCommentRanges)
               <$> ctor)
    | None => ret ctor
    end
  else
    pushStatements >>
    let parameters :=
      match ctor with
      | Some c => visitNodeArrayOfParameter (ClassElement.parameters c)
      | None =>
          if hasBaseType then [createRestParameter (NameIdentifier "args")] else []
      end in
    let* emitted :=
      match ctor with
      | Some c =>
          let* ofCtor := getLeadingCommentRanges ctor false in
          let leadingCommentRanges := concatenate leadingCommentRanges ofCtor in
          let* trailingCommentRanges := getTrailingCommentRanges ctor in
          let* superCall :=
            (if hasBaseType then
               let superCall := findInitialSuperCall c in
               match superCall with
               | Some statement => emitStatement statement >> ret superCall
               | None => ret superCall
               end
             else ret None) in
          match parameterPropertyAssignments with
          | Some assignments =>
              forEachM
                (λ parameter,
                   emitAssignmentStatement
                     (createPropertyAccessExpression2 createThisKeyword
                        (nameExpression (ParameterDeclaration.name parameter)))
                     (nameExpression (ParameterDeclaration.name parameter)))
                assignments
          | None => ret tt
          end >>
          ret (superCall, leadingCommentRanges, trailingCommentRanges)
      | None =>
          (if hasBaseType then
             emitExpressionStatement
               (createCallExpression2 SuperKeyword
                  [createSpreadElementExpression (createIdentifier "args")])
           else ret tt) >>
          ret (None, leadingCommentRanges, trailingCommentRanges)
      end in
    let '(superCall, leadingCommentRanges, trailingCommentRanges) := emitted in
    match instancePropertyAssignments with
    | Some properties => emitPropertyDeclarations node properties
    | None => ret tt
    end >>
    match ctor with
    | Some c =>
        let bodyStatements :=
          if bool_decide (is_Some superCall)
          then bodyStatementsOf c
          else drop 1 (bodyStatementsOf c) in
        emitStatements (visitNodes bodyStatements)
    | None => ret tt
    end >>
    let* statements := getStatements in
    let body := statements in
    popStatements >>
    let ctor :=
      match ctor with
      | Some c => updateConstructor c None None parameters None body
      | None => createConstructor None None parameters None body
      end in
    ret (Some (attachCommentRanges ctor leadingCommentRanges trailingCommentRanges)).

Definition visitNodeArrayOfModifier (modifiers : option (list Modifier.t))
    (callback : Modifier.t → option Modifier.t) : option (list Modifier.t) :=
  match modifiers with
  | Some nodes => Some (omap callback nodes)
  | None => None
  end.

Definition transformModifier : Modifier.t → option Modifier.t :=
  transformNode Modifier.transformFlags transformNodeWorkerOfModifier acceptModifier.

Definition transformMethodDeclaration (node : ClassElement) : M ClassElement :=
  match ClassElement.body node with
  | None => ret (createMissingDeclaration node)
  | Some _ =>
      let modifiers := visitNodeArrayOfModifier (ClassElement.modifiers node) transformModifier in
      let* name := transformPropertyName node false in
      let parameters := visitNodeArrayOfParameter (ClassElement.parameters node) in
      let body := visitBlock <$> ClassElement.body node in
      ret (updateMethodDeclaration node None modifiers (Some name) None parameters None body)
  end.

Definition transformGetAccessor (node : ClassElement) : M ClassElement :=
  let modifiers := visitNodeArrayOfModifier (ClassElement.modifiers node) transformModifier in
  let* name := transformPropertyName node false in
  let parameters := visitNodeArrayOfParameter (ClassElement.parameters node) in
  let body := visitBlock <$> ClassElement.body node in
  ret (updateGetAccessor node None modifiers (Some name) parameters None body).

Definition transformSetAccessor (node : ClassElement) : M ClassElement :=
  let modifiers := visitNodeArrayOfModifier (ClassElement.modifiers node) transformModifier in
  let* name := transformPropertyName node false in
  let parameters := visitNodeArrayOfParameter (ClassElement.parameters node) in
  let body := visitBlock <$> ClassElement.body node in
  ret (updateSetAccessor node None modifiers (Some name) parameters None body).

(** [transformNodeWorker] at a class element.  The kinds that the source
    elides, and that a class element can have, are elided; the kinds with a
    transform of their own are dispatched to it; every other kind goes to
    the generic descent. *)
Definition transformNodeWorker (node : ClassElement) : M (option ClassElement) :=
  if hasFlag (ClassElement.flags node) NodeFlags.Ambient then ret None
  else
    match ClassElement.kind node with
    | SyntaxKind.Constructor => ret None
    | SyntaxKind.PropertyDeclaration => ret None
    | SyntaxKind.IndexSignature => ret None
    | SyntaxKind.MethodDeclaration =>
        let* result := transformMethodDeclaration node in ret (Some result)
    | SyntaxKind.GetAccessor =>
        let* result := transformGetAccessor node in ret (Some result)
    | SyntaxKind.SetAccessor =>
        let* result := transformSetAccessor node in ret (Some result)
    | _ => ret (acceptClassElement node)
    end.

Definition shouldEmitTypeMetadata (kind : SyntaxKind.t) : bool :=
  match kind with
  | SyntaxKind.MethodDeclaration | SyntaxKind.GetAccessor | SyntaxKind.SetAccessor
  | SyntaxKind.PropertyDeclaration => true
  | _ => false
  end.

Definition shouldEmitReturnTypeMetadata (kind : SyntaxKind.t) : bool :=
  match kind with
  | SyntaxKind.MethodDeclaration => true
  | _ => false
  end.

Definition shouldEmitParamTypesMetadata (kind : SyntaxKind.t) : bool :=
  match kind with
  | SyntaxKind.ClassDeclaration | SyntaxKind.MethodDeclaration
  | SyntaxKind.SetAccessor => true
  | _ => false
  end.

Definition metadataCall (tag : string) : Expression :=
  createCallExpression2 (createIdentifier "__metadata") [createStringLiteral tag].

(** [emitSerializedTypeMetadata], at a node of kind [kind]; the result is
    the array [expressions] after the pushes. *)
Definition emitSerializedTypeMetadata (kind : SyntaxKind.t) (expressions : list Expression)
    : list Expression :=
  let expressions :=
    if shouldEmitTypeMetadata kind
    then expressions ++ [metadataCall "design:type"] else expressions in
  let expressions :=
    if shouldEmitParamTypesMetadata kind
    then expressions ++ [metadataCall "design:paramtypes"] else expressions in
  let expressions :=
    if shouldEmitReturnTypeMetadata kind
    then expressions ++ [metadataCall "design:returntype"] else expressions in
  expressions.

Definition paramCall (parameterIndex : nat) (decorator : Decorator) : Expression :=
  createCallExpression2 (createIdentifier "__param")
    [createNumericLiteral2 parameterIndex;
     visitExpression (Decorator.expression decorator)].

(** The loop of [emitDecoratorsOfParameters], from index [parameterIndex]
    on; the result is the array [expressions] after the pushes. *)
Fixpoint emitDecoratorsOfParametersFrom (parameterIndex : nat)
    (parameters : list ParameterDeclaration) (expressions : list Expression)
    : list Expression :=
  match parameters with
  | [] => expressions
  | parameter :: rest =>
      let expressions :=
        if nodeIsDecorated parameter then
          fold_left
            (λ expressions decorator, expressions ++ [paramCall parameterIndex decorator])
            (default [] (ParameterDeclaration.decorators parameter))
            expressions
        else expressions in
      emitDecoratorsOfParametersFrom (S parameterIndex) rest expressions
  end.

Definition emitDecoratorsOfParameters (parameters : list ParameterDeclaration)
    (expressions : list Expression) : list Expression :=
  emitDecoratorsOfParametersFrom 0 parameters expressions.

(** The loop that pushes the visited expression of each decorator. *)
Definition pushDecoratorExpressions (decorators : option (list Decorator))
    (decoratorExpressions : list Expression) : list Expression :=
  match decorators with
  | Some ds =>
      fold_left
        (λ expressions decorator,
           expressions ++ [visitExpression (Decorator.expression decorator)])
        ds decoratorExpressions
  | None => decoratorExpressions
  end.

(** Reference equality of a member and an optional member. *)
Definition sameNode (member : ClassElement) (other : option ClassElement) : bool :=
  match other with
  | Some o => Nat.eqb (ClassElement.id member) (ClassElement.id o)
  | None => false
  end.

Definition hasBody (member : ClassElement) : bool :=
  bool_decide (is_Some (ClassElement.body member)).

(** The first part of [emitDecoratorsOfMember]: the decorators and the
    parameters that the member is lowered with, or nothing where the
    source returns early. *)
Definition decoratorsAndParametersOfMember (node : ClassLikeDeclaration)
    (member : ClassElement)
    : option (option (list Decorator) * option (list ParameterDeclaration)) :=
  if isAccessor member && hasBody member then
    let accessors := getAllAccessorDeclarations (ClassLikeDeclaration.members node) member in
    if negb (sameNode member (firstAccessor accessors)) then None
    else
      let decorators := firstAccessor accessors ≫= ClassElement.decorators in
      let decorators :=
        match decorators, secondAccessor accessors with
        | None, Some second => ClassElement.decorators second
        | _, _ => decorators
        end in
      let parameters :=
        match setAccessor accessors with
        | Some setter => Some (ClassElement.parameters setter)
        | None => None
        end in
      Some (decorators, parameters)
  else
    let decorators := ClassElement.decorators member in
    let parameters :=
      if isMethodDeclaration member && hasBody member
      then Some (ClassElement.parameters member)
      else None in
    Some (decorators, parameters).

(** [emitDecoratorsOfMember].  The [__decorate] call holds the array
    [decorateCallArguments] itself, so the descriptor pushed onto the array
    afterwards is its fourth argument. *)
Definition emitDecoratorsOfMember (node : ClassLikeDeclaration) (member : ClassElement)
    : M unit :=
  match decoratorsAndParametersOfMember node member with
  | None => ret tt
  | Some (decorators, parameters) =>
      let decoratorExpressions := pushDecoratorExpressions decorators [] in
      let decoratorExpressions :=
        match parameters with
        | Some ps => emitDecoratorsOfParameters ps decoratorExpressions
        | None => decoratorExpressions
        end in
      let* emitDecoratorMetadata := gets (λ context, emitDecoratorMetadata (compilerOptions context)) in
      let decoratorExpressions :=
        if emitDecoratorMetadata
        then emitSerializedTypeMetadata (ClassLikeDeclaration.kind node) decoratorExpressions
        else decoratorExpressions in
      let* prefix := getClassMemberPrefix node member in
      let* name := getExpressionForPropertyName member in
      let decorateCallArguments :=
        [createArrayLiteralExpression decoratorExpressions; prefix; orAbsent name] in
      if negb (isPropertyDeclaration member) then
        let* descriptorName := getExpressionForPropertyName member in
        let decorateCallArguments :=
          decorateCallArguments ++
          [createCallExpression2
             (createPropertyAccessExpression2
                (createIdentifier "Object") (createIdentifier "getOwnPropertyDescriptor"))
             [prefix; orAbsent descriptorName]] in
        let expression :=
          createCallExpression2 (createIdentifier "__decorate") decorateCallArguments in
        let* definedName := getExpressionForPropertyName member in
        let expression :=
          createCallExpression2
            (createPropertyAccessExpression2
               (createIdentifier "Object") (createIdentifier "defineProperty"))
            [prefix; orAbsent definedName; expression] in
        emitExpressionStatement expression
      else
        let expression :=
          createCallExpression2 (createIdentifier "__decorate") decorateCallArguments in
        emitExpressionStatement expression
  end.

Definition emitDecoratorsOfMembers (node : ClassLikeDeclaration) (isStatic : bool)
    : M unit :=
  forEachM
    (λ member,
       if negb (Bool.eqb isStatic (hasFlag (ClassElement.flags member) NodeFlags.Static))
       then ret tt
       else if negb (nodeCanBeDecorated member) || negb (nodeOrChildIsDecorated member)
       then ret tt
       else emitDecoratorsOfMember node member)
    (ClassLikeDeclaration.members node).

Definition emitDecoratorsOfConstructor (node : ClassLikeDeclaration) : M unit :=
  let decorators := ClassLikeDeclaration.decorators node in
  let constructor := getFirstConstructorWithBody node in
  let hasDecoratedParameters :=
    match constructor with
    | Some c => existsb nodeIsDecorated (ClassElement.parameters c)
    | None => false
    end in
  if negb (bool_decide (is_Some decorators)) && negb hasDecoratedParameters then ret tt
  else
    let decoratorExpressions := pushDecoratorExpressions decorators [] in
    let decoratorExpressions :=
      match constructor with
      | Some c => emitDecoratorsOfParameters (ClassElement.parameters c) decoratorExpressions
      | None => decoratorExpressions
      end in
    let* emitDecoratorMetadata := gets (λ context, emitDecoratorMetadata (compilerOptions context)) in
    let decoratorExpressions :=
      if emitDecoratorMetadata
      then emitSerializedTypeMetadata (ClassLikeDeclaration.kind node) decoratorExpressions
      else decoratorExpressions in
    let* target := getDeclarationNameOfClass node in
    let* argument := getDeclarationNameOfClass node in
    emitAssignmentStatement target
      (createCallExpression2 (createIdentifier "__decorate")
         [createArrayLiteralExpression decoratorExpressions; argument]).

Definition emitDecoratorsOfClass (node : ClassLikeDeclaration) : M unit :=
  emitDecoratorsOfMembers node false >>
  emitDecoratorsOfMembers node true >>
  emitDecoratorsOfConstructor node.

Definition transformClassDeclaration (node : ClassLikeDeclaration)
    : M (option ClassLikeDeclaration) :=
  let baseTypeNode := getClassExtendsHeritageClauseElement node in
  let modifiers :=
    visitNodeArrayOfModifier (ClassLikeDeclaration.modifiers node)
      transformNodeWorkerOfModifier in
  let heritageClauses :=
    match ClassLikeDeclaration.heritageClauses node with
    | Some clauses => Some (omap transformNodeWorkerOfHeritageClause clauses)
    | None => None
    end in
  let* ctor := transformConstructor node (bool_decide (is_Some baseTypeNode)) in
  let* visited := mapM transformNodeWorker (ClassLikeDeclaration.members node) in
  let members := omap id visited in
  let members :=
    match ctor with
    | Some c => c :: members
    | None => members
    end in
  match ClassLikeDeclaration.decorators node with
  | Some _ =>
      let* declarationName := getDeclarationNameOfClass node in
      let* internalName :=
        match ClassLikeDeclaration.name node with
        | Some text => let* unique := createUniqueIdentifier text in ret (Some unique)
        | None => ret None
        end in
      let newNode :=
        createVariableStatement2 declarationName
          (createClassExpression2 internalName (heritageClauses ≫= head) members)
          NodeFlags.Let in
      let newNode := setOriginal newNode (ClassLikeDeclaration.id node) in
      emitStatement newNode
  | None =>
      let newNode :=
        updateClassDeclaration node None modifiers (ClassLikeDeclaration.name node)
          None heritageClauses members in
      ret tt
  end >>
  let staticPropertyAssignments := getInitializedProperties node true in
  match staticPropertyAssignments with
  | Some properties => emitPropertyDeclarations node properties
  | None => ret tt
  end >>
  emitDecoratorsOfClass node >>
  ret None.
End Transform.

(** ** Vocabulary of the properties *)

(** A parameter property: an identifier-named parameter with an accessibility
    modifier. *)
Definition isParameterProperty (parameter : ParameterDeclaration) : bool :=
  isIdentifier (ParameterDeclaration.name parameter)
  && hasFlag (ParameterDeclaration.flags parameter) NodeFlags.AccessibilityModifier.

(** A field of the static or of the instance group that has an initializer. *)
Definition isInitializedProperty (isStatic : bool) (member : ClassElement) : bool :=
  isPropertyDeclaration member
  && Bool.eqb isStatic (hasFlag (ClassElement.flags member) NodeFlags.Static)
  && bool_decide (is_Some (ClassElement.initializer member)).

Definition initializedInstanceFields (node : ClassLikeDeclaration) : list ClassElement :=
  List.filter (isInitializedProperty false) (ClassLikeDeclaration.members node).

(** The statement [this.<name> = <name>] of a parameter property. *)
Definition parameterPropertyAssignment (parameter : ParameterDeclaration) : Statement :=
  ExpressionStatement
    (AssignmentExpression
       (PropertyAccessExpression ThisKeyword
          (nameExpression (ParameterDeclaration.name parameter)))
       (nameExpression (ParameterDeclaration.name parameter)))
    None.

(** The statement [super(...args)] of a synthesized constructor. *)
Definition forwardingSuperCall : Statement :=
  ExpressionStatement
    (CallExpression SuperKeyword [SpreadElementExpression (Identifier "args")]) None.

(** A member whose name is an identifier, a literal or a computed name. *)
Definition hasPropertyName (member : ClassElement) : bool :=
  match ClassElement.name member with
  | Some name => isPropertyName name
  | None => false
  end.

(** The statements that the pass emits for trailing code are expression
    statements. *)
Definition isExpressionStatement (statement : Statement) : bool :=
  match statement with
  | ExpressionStatement _ _ => true
  | _ => false
  end.

(** [sameBuffers context context']: from [context] to [context'] the
    statement buffers and the configuration did not change. *)
Definition sameBuffers (context context' : VisitorContext) : Prop :=
  statements context' = statements context
  ∧ enclosingStatements context' = enclosingStatements context
  ∧ compilerOptions context' = compilerOptions context.

(** An array that is created on its first push: absent while empty. *)
Definition lazyArray {A} (l : list A) : option (list A) :=
  match l with
  | [] => None
  | _ => Some l
  end.

(** The message of the one hard failure of the pass. *)
Definition bindingPatternMessage : string :=
  "Binding patterns cannot be used as property names.".

(** The leading comment ranges that the bodyless constructor overloads of a
    class contribute. *)
Definition overloadCommentRanges (context : VisitorContext) (node : ClassLikeDeclaration)
    : option (list CommentRange) :=
  fold_left
    (λ ranges member,
       if isConstructor member && negb (bool_decide (is_Some (ClassElement.body member)))
       then concatenate ranges (leadingCommentRangesOf context (ClassElement.id member) true)
       else ranges)
    (ClassLikeDeclaration.members node) None.

Section Vocabulary.
Context {visitor : Visitor}.

(** The name of an instance field in the synthesized constructor: a computed
    name has its expression visited. *)
Definition instanceFieldName (name : DeclarationName) : DeclarationName :=
  match name with
  | ComputedPropertyName id expression => ComputedPropertyName id (visitExpression expression)
  | _ => name
  end.

(** The statement [this.<field> = <transformed initializer>] of an instance
    field. *)
Definition instanceFieldStatement (property : ClassElement) : Statement :=
  ExpressionStatement
    (AssignmentExpression
       (createMemberAccessForPropertyName ThisKeyword
          (instanceFieldName (default (NameIdentifier "") (ClassElement.name property))))
       (orAbsent (visitExpression <$> ClassElement.initializer property)))
    (Some (ClassElement.id property)).

(** The initial base-constructor call that constructor synthesis emits first:
    that of the existing constructor, when the class has a base type. *)
Definition superCallPrefix (ctor : ClassElement) (hasBaseType : bool) : list Statement :=
  if hasBaseType then option_list (findInitialSuperCall ctor) else [].

(** The statements of the existing body that constructor synthesis visits
    and emits last (lines 259-263 of the source): the whole body when an
    initial base-constructor call was emitted, the body without its first
    statement otherwise. *)
Definition reemittedBodyStatements (ctor : ClassElement) (hasBaseType : bool)
    : list Statement :=
  match superCallPrefix ctor hasBaseType with
  | [] => drop 1 (bodyStatementsOf ctor)
  | _ => bodyStatementsOf ctor
  end.

(** The body of the synthesized constructor, in closed form. *)
Definition synthesizedBody (node : ClassLikeDeclaration) (hasBaseType : bool)
    : list Statement :=
  match getFirstConstructorWithBody node with
  | Some ctor =>
      superCallPrefix ctor hasBaseType
      ++ (parameterPropertyAssignment
            <$> List.filter isParameterProperty (ClassElement.parameters ctor))
      ++ (instanceFieldStatement <$> initializedInstanceFields node)
      ++ visitNodes (reemittedBodyStatements ctor hasBaseType)
  | None =>
      (if hasBaseType then [forwardingSuperCall] else [])
      ++ (instanceFieldStatement <$> initializedInstanceFields node)
  end.

(** The parameters of the synthesized constructor. *)
Definition synthesizedParameters (node : ClassLikeDeclaration) (hasBaseType : bool)
    : list ParameterDeclaration :=
  match getFirstConstructorWithBody node with
  | Some ctor => visitNodeArrayOfParameter (ClassElement.parameters ctor)
  | None => if hasBaseType then [createRestParameter (NameIdentifier "args")] else []
  end.

(** The synthesized constructor, in closed form. *)
Definition synthesizedConstructor (context : VisitorContext) (node : ClassLikeDeclaration)
    (hasBaseType : bool) : ClassElement :=
  match getFirstConstructorWithBody node with
  | Some ctor =>
      attachCommentRanges
        (updateConstructor ctor None None (synthesizedParameters node hasBaseType) None
           (synthesizedBody node hasBaseType))
        (concatenate (overloadCommentRanges context node)
           (leadingCommentRangesOf context (ClassElement.id ctor) false))
        (trailingCommentRangesOf context (ClassElement.id ctor))
  | None =>
      attachCommentRanges
        (createConstructor None None (synthesizedParameters node hasBaseType) None
           (synthesizedBody node hasBaseType))
        (overloadCommentRanges context node) None
  end.

(** The [__param] wrappers of a parameter list whose first index is
    [start]: one call [__param(index, decorator)] per decorator, by ascending
    parameter index, the decorators of one parameter in source order.  The
    call is written out here, independently of the code that builds it. *)
Definition parameterDecoratorWrappers (start : nat) (parameters : list ParameterDeclaration)
    : list Expression :=
  concat (imap (λ i parameter,
                  (λ decorator,
                     CallExpression (Identifier "__param")
                       [NumericLiteral (pretty (start + i)%nat);
                        visitExpression (Decorator.expression decorator)])
                    <$> default [] (ParameterDeclaration.decorators parameter))
               parameters).

(** The visited expressions of a decorator list, in source order. *)
Definition decoratorExpressionsOf (decorators : option (list Decorator)) : list Expression :=
  (λ decorator, visitExpression (Decorator.expression decorator)) <$> default [] decorators.

(** The members that [emitDecoratorsOfMembers] lowers in the group
    [isStatic]. *)
Definition isLoweredMember (isStatic : bool) (member : ClassElement) : bool :=
  Bool.eqb isStatic (hasFlag (ClassElement.flags member) NodeFlags.Static)
  && nodeCanBeDecorated member && nodeOrChildIsDecorated member.

(** [EmittedBy node context trace context']: lowering the decorators of the
    members listed in [trace], one after the other from [context], ends in
    [context'], and each member appended the statements paired with it to
    the current buffer. *)
Inductive EmittedBy (node : ClassLikeDeclaration)
    : VisitorContext → list (ClassElement * list Statement) → VisitorContext → Prop :=
  | EmittedBy_nil context : EmittedBy node context [] context
  | EmittedBy_cons context context1 context2 member out trace :
      emitDecoratorsOfMember node member context = Ok (tt, context1) →
      statements context1 = statements context ++ out →
      EmittedBy node context1 trace context2 →
      EmittedBy node context ((member, out) :: trace) context2.
End Vocabulary.

(** No parameter of a constructor of the class has an accessibility
    modifier. *)
Definition noAccessibilityQualifiedParameter (node : ClassLikeDeclaration) : bool :=
  forallb
    (λ member,
       negb (isConstructor member)
       || forallb (λ parameter,
                     negb (hasFlag (ParameterDeclaration.flags parameter)
                             NodeFlags.AccessibilityModifier))
                  (ClassElement.parameters member))
    (ClassLikeDeclaration.members node).

(** No instance field of the class has an initializer. *)
Definition noInitializedInstanceField (node : ClassLikeDeclaration) : bool :=
  forallb (λ member, negb (isInitializedProperty false member))
    (ClassLikeDeclaration.members node).

(** ** Sample inputs *)

Definition emptyContext : VisitorContext :=
  {| statements := [];
     enclosingStatements := [];
     generatedNames := ∅;
     tempCount := 0;
     hoistedVariableDeclarations := [];
     compilerOptions := {| emitDecoratorMetadata := false |};
     leadingCommentRangesOf := λ _ _, None;
     trailingCommentRangesOf := λ _, None |}.

Definition sampleMember (kind : SyntaxKind.t) (id : nat) (flags : Z)
    (decorators : option (list Decorator)) (name : option DeclarationName)
    (parameters : list ParameterDeclaration) (body : option Block)
    (initializer : option Expression) : ClassElement :=
  {| ClassElement.kind := kind;
     ClassElement.id := id;
     ClassElement.flags := flags;
     ClassElement.decorators := decorators;
     ClassElement.modifiers := None;
     ClassElement.name := name;
     ClassElement.typeParameters := None;
     ClassElement.parameters := parameters;
     ClassElement.type := None;
     ClassElement.body := body;
     ClassElement.initializer := initializer;
     ClassElement.original := None;
     ClassElement.leadingCommentRanges := None;
     ClassElement.trailingCommentRanges := None |}.

Definition sampleParameter (flags : Z) (decorators : option (list Decorator))
    (name : string) : ParameterDeclaration :=
  {| ParameterDeclaration.decorators := decorators;
     ParameterDeclaration.flags := flags;
     ParameterDeclaration.dotDotDotToken := false;
     ParameterDeclaration.name := NameIdentifier name;
     ParameterDeclaration.initializer := None |}.

Definition sampleClass (id : nat) (decorators : option (list Decorator)) (name : string)
    (heritageClauses : option (list HeritageClause)) (members : list ClassElement)
    : ClassLikeDeclaration :=
  {| ClassLikeDeclaration.kind := SyntaxKind.ClassDeclaration;
     ClassLikeDeclaration.id := id;
     ClassLikeDeclaration.flags := 0;
     ClassLikeDeclaration.decorators := decorators;
     ClassLikeDeclaration.modifiers := None;
     ClassLikeDeclaration.name := Some name;
     ClassLikeDeclaration.typeParameters := None;
     ClassLikeDeclaration.heritageClauses := heritageClauses;
     ClassLikeDeclaration.members := members |}.

Definition callStatement (callee : string) : Statement :=
  ExpressionStatement (CallExpression (Identifier callee) []) None.

Definition superStatement : Statement :=
  ExpressionStatement (CallExpression SuperKeyword []) None.

Definition decorator (name : string) : Decorator := Decorator.make (Identifier name).

Definition extendsClause (base : string) : HeritageClause :=
  {| HeritageClause.flags := 0;
     HeritageClause.token := SyntaxKind.ExtendsKeyword;
     HeritageClause.types :=
       [{| ExpressionWithTypeArguments.transformFlags := 0;
           ExpressionWithTypeArguments.expression := Identifier base;
           ExpressionWithTypeArguments.typeArguments := None |}] |}.

(** [class C { constructor(public x) { foo(); bar(); } }] *)
Definition classWithParameterProperty : ClassLikeDeclaration :=
  sampleClass 1 None "C" None
    [sampleMember SyntaxKind.Constructor 2 0 None None
       [sampleParameter NodeFlags.Public None "x"]
       (Some [callStatement "foo"; callStatement "bar"]) None].

(** [class D extends B { constructor(public x) { super(); bar(); } }] *)
Definition derivedClassWithParameterProperty : ClassLikeDeclaration :=
  sampleClass 1 None "D" (Some [extendsClause "B"])
    [sampleMember SyntaxKind.Constructor 2 0 None None
       [sampleParameter NodeFlags.Public None "x"]
       (Some [superStatement; callStatement "bar"]) None].

(** [class C { static x = 1; }] *)
Definition classWithStaticField : ClassLikeDeclaration :=
  sampleClass 1 None "C" None
    [sampleMember SyntaxKind.PropertyDeclaration 2 NodeFlags.Static None
       (Some (NameIdentifier "x")) [] None (Some (NumericLiteral "1"))].

(** [class C { /*! c */ constructor(); constructor() { foo(); } }] and a
    context in which the overload carries one pinned leading comment. *)
Definition classWithConstructorOverload : ClassLikeDeclaration :=
  sampleClass 1 None "C" None
    [sampleMember SyntaxKind.Constructor 2 0 None None [] None None;
     sampleMember SyntaxKind.Constructor 3 0 None None [] (Some [callStatement "foo"]) None].

Definition contextWithOverloadComment : VisitorContext :=
  {| statements := [];
     enclosingStatements := [];
     generatedNames := ∅;
     tempCount := 0;
     hoistedVariableDeclarations := [];
     compilerOptions := {| emitDecoratorMetadata := false |};
     leadingCommentRangesOf :=
       λ id onlyPinned,
         if Nat.eqb id 2 && onlyPinned then Some [{| pos := 10; end_ := 20 |}] else None;
     trailingCommentRangesOf := λ _, None |}.

(** [class D extends B { x = 1; }] *)
Definition derivedClassWithField : ClassLikeDeclaration :=
  sampleClass 1 None "D" (Some [extendsClause "B"])
    [sampleMember SyntaxKind.PropertyDeclaration 2 0 None
       (Some (NameIdentifier "x")) [] None (Some (NumericLiteral "1"))].

(** [class C { @m static [f()]() {} }] *)
Definition decoratedComputedMethod : ClassElement :=
  sampleMember SyntaxKind.MethodDeclaration 3 NodeFlags.Static (Some [decorator "m"])
    (Some (ComputedPropertyName 7 (CallExpression (Identifier "f") []))) [] (Some []) None.

(** [class C { get x() {} @d set x(@q v) {} }] *)
Definition sampleGetter : ClassElement :=
  sampleMember SyntaxKind.GetAccessor 2 0 None (Some (NameIdentifier "x")) [] (Some []) None.

Definition sampleSetter : ClassElement :=
  sampleMember SyntaxKind.SetAccessor 3 0 (Some [decorator "d"]) (Some (NameIdentifier "x"))
    [sampleParameter 0 (Some [decorator "q"]) "v"] (Some []) None.

Definition classWithAccessorPair : ClassLikeDeclaration :=
  sampleClass 1 None "C" None [sampleGetter; sampleSetter].

(** [class C { @a static s; @b m() {} @c static t() {} @d p; }], with a
    class decorator [@e]. *)
Definition classWithMixedDecorators : ClassLikeDeclaration :=
  sampleClass 1 (Some [decorator "e"]) "C" None
    [sampleMember SyntaxKind.PropertyDeclaration 2 NodeFlags.Static (Some [decorator "a"])
       (Some (NameStringLiteral "s")) [] None None;
     sampleMember SyntaxKind.MethodDeclaration 3 0 (Some [decorator "b"])
       (Some (NameStringLiteral "m")) [] (Some []) None;
     sampleMember SyntaxKind.MethodDeclaration 4 NodeFlags.Static (Some [decorator "c"])
       (Some (NameStringLiteral "t")) [] (Some []) None;
     sampleMember SyntaxKind.PropertyDeclaration 5 0 (Some [decorator "d"])
       (Some (NameStringLiteral "p")) [] None None].

(** A member whose name is a binding pattern. *)
Definition patternNamedMember : ClassElement :=
  sampleMember SyntaxKind.PropertyDeclaration 2 0 None (Some (ObjectBindingPattern 0))
    [] None None.

(** [@e class C { constructor(@p a, b, @q @r c) {} }] *)
Definition classWithDecoratedParameters : ClassLikeDeclaration :=
  sampleClass 1 (Some [decorator "e"]) "C" None
    [sampleMember SyntaxKind.Constructor 2 0 None None
       [sampleParameter 0 (Some [decorator "p"]) "a";
        sampleParameter 0 None "b";
        sampleParameter 0 (Some [decorator "q"; decorator "r"]) "c"]
       (Some []) None].

(** ** Vocabulary of the further properties *)

From Stdlib Require Import Sorted.

(** [class D extends B { f = 1; constructor(public a, private b) { super(a); init(); } }] *)
Definition derivedClassWithParameterProperties : ClassLikeDeclaration :=
  sampleClass 1 None "D" (Some [extendsClause "B"])
    [sampleMember SyntaxKind.PropertyDeclaration 2 0 None
       (Some (NameIdentifier "f")) [] None (Some (NumericLiteral "1"));
     sampleMember SyntaxKind.Constructor 3 0 None None
       [sampleParameter NodeFlags.Public None "a";
        sampleParameter NodeFlags.Private None "b"]
       (Some [ExpressionStatement (CallExpression SuperKeyword [Identifier "a"]) None;
              callStatement "init"])
       None].

(** The members whose name the pass resolves: methods with a body and
    accessors. *)
Definition isLoweredFunction (member : ClassElement) : bool :=
  (isMethodDeclaration member && hasBody member) || isAccessor member.

(** [methodWithBody] and [bodylessMethod]: sample members. *)
Definition methodWithBody : ClassElement :=
  sampleMember SyntaxKind.MethodDeclaration 3 0 (Some [decorator "m"])
    (Some (NameIdentifier "run")) [sampleParameter 0 None "a"] (Some [callStatement "foo"])
    None.

Definition bodylessMethod : ClassElement :=
  sampleMember SyntaxKind.MethodDeclaration 4 0 None
    (Some (ObjectBindingPattern 0)) [] None None.

(** The condition under which the source rewrites the constructor (line 199):
    there are parameter property assignments or instance property
    assignments. *)
Definition constructorIsSynthesized (node : ClassLikeDeclaration) : bool :=
  bool_decide (is_Some (getFirstConstructorWithBody node
                        ≫= getParametersWithPropertyAssignments))
  || bool_decide (is_Some (getInitializedProperties node false)).

(** [class C { x = 1; }] *)
Definition classWithField : ClassLikeDeclaration :=
  sampleClass 1 None "C" None
    [sampleMember SyntaxKind.PropertyDeclaration 2 0 None
       (Some (NameIdentifier "x")) [] None (Some (NumericLiteral "1"))].

(** The decorators of a parameter list, each with the index of its
    parameter, the first index being [start]. *)
Fixpoint indexedParameterDecoratorsFrom (start : nat) (parameters : list ParameterDeclaration)
    : list (nat * Decorator) :=
  match parameters with
  | [] => []
  | parameter :: rest =>
      ((λ decorator, (start, decorator))
         <$> default [] (ParameterDeclaration.decorators parameter))
      ++ indexedParameterDecoratorsFrom (S start) rest
  end.

Definition indexedParameterDecorators (parameters : list ParameterDeclaration)
    : list (nat * Decorator) :=
  indexedParameterDecoratorsFrom 0 parameters.

(** The three metadata calls, in the order of the source. *)
Definition allMetadataCalls : list Expression :=
  [CallExpression (Identifier "__metadata") [StringLiteral "design:type"];
   CallExpression (Identifier "__metadata") [StringLiteral "design:paramtypes"];
   CallExpression (Identifier "__metadata") [StringLiteral "design:returntype"]].


(** No member of the class is lowered by [emitDecoratorsOfMembers], the
    class has no decorators and its constructor no decorated parameter. *)
Definition hasNoDecorators (node : ClassLikeDeclaration) : bool :=
  forallb (λ member, negb (nodeCanBeDecorated member && nodeOrChildIsDecorated member))
    (ClassLikeDeclaration.members node)
  && negb (bool_decide (is_Some (ClassLikeDeclaration.decorators node)))
  && negb (existsb nodeIsDecorated
             (default [] (ClassElement.parameters <$> getFirstConstructorWithBody node))).

(** The reassignment that ends the lowering of a decorated class:
    [binding = __decorate([list], binding)]. *)
Definition classDecoratorStatement (binding : Expression) (list : list Expression)
    : Statement :=
  ExpressionStatement
    (AssignmentExpression binding
       (CallExpression (Identifier "__decorate") [ArrayLiteralExpression list; binding]))
    None.

(** [@d class C extends B { run() { foo(); } }] *)
Definition decoratedDerivedClass : ClassLikeDeclaration :=
  sampleClass 1 (Some [decorator "d"]) "C" (Some [extendsClause "B"])
    [sampleMember SyntaxKind.MethodDeclaration 2 0 None
       (Some (NameIdentifier "run")) [] (Some [callStatement "foo"]) None].

(** ** Class expressions *)

(** Modelled from the spec: [context.declareLocal], "a fresh temporary": a
    new generated name, registered for declaration in the enclosing scope. *)
Definition declareLocal : M Expression :=
  λ context,
    let name := Identifier (tempName (tempCount context)) in
    Ok (name,
        {| statements := statements context;
           enclosingStatements := enclosingStatements context;
           generatedNames := generatedNames context;
           tempCount := S (tempCount context);
           hoistedVariableDeclarations := hoistedVariableDeclarations context ++ [name];
           compilerOptions := compilerOptions context;
           leadingCommentRangesOf := leadingCommentRangesOf context;
           trailingCommentRangesOf := trailingCommentRangesOf context |}).

(** Modelled from the spec: [factory.updateClassExpression]. *)
Definition updateClassExpression := updateClassDeclaration.

(** What [transformClassExpression] returns: a class expression, or
    [factory.createParenthesizedExpression(factory.inlineExpressions(elements))],
    "a single parenthesized sequence expression"; each element of the
    sequence is listed with the [original] assigned to it, if any. *)
Inductive LeftHandSideExpression :=
  | ClassExpressionOf (node : ClassLikeDeclaration)
  | ParenthesizedSequence (elements : list (Expression * option nat)).

Section ClassExpressionTransform.
Context {visitor : Visitor}.

Definition transformPropertyDeclarations (node : ClassLikeDeclaration)
    (properties : list ClassElement) : M (list (Expression * option nat)) :=
  foldM
    (λ expressions property,
       let* propertyAssignment := transformPropertyDeclaration node property in
       let propertyAssignment := (propertyAssignment, Some (ClassElement.id property)) in
       ret (expressions ++ [propertyAssignment]))
    properties [].

Definition transformClassExpression (node : ClassLikeDeclaration)
    : M LeftHandSideExpression :=
  if bool_decide (is_Some (ClassLikeDeclaration.decorators node))
  then ret (ClassExpressionOf node)
  else
    let baseTypeNode := getClassExtendsHeritageClauseElement node in
    let modifiers :=
      visitNodeArrayOfModifier (ClassLikeDeclaration.modifiers node)
        transformNodeWorkerOfModifier in
    let heritageClauses :=
      match ClassLikeDeclaration.heritageClauses node with
      | Some clauses => Some (omap transformNodeWorkerOfHeritageClause clauses)
      | None => None
      end in
    let* ctor := transformConstructor node (bool_decide (is_Some baseTypeNode)) in
    let* visited := mapM transformNodeWorker (ClassLikeDeclaration.members node) in
    let members := omap id visited in
    let members :=
      match ctor with
      | Some c => c :: members
      | None => members
      end in
    let newNode :=
      updateClassExpression node None modifiers (ClassLikeDeclaration.name node)
        None heritageClauses members in
    let staticPropertyAssignments := getInitializedProperties node true in
    match staticPropertyAssignments with
    | Some properties =>
        let* tempVariable := declareLocal in
        let assignment :=
          createAssignmentExpression tempVariable (ClassExpressionNode newNode) in
        let* propertyAssignments := transformPropertyDeclarations node properties in
        ret (ParenthesizedSequence
               ([(assignment, None)] ++ propertyAssignments ++ [(tempVariable, None)]))
    | None => ret (ClassExpressionOf newNode)
    end.
End ClassExpressionTransform.

(** The statement that initializes the static field [property] of the
    class named [className]: [C.<name> = <initializer>] for an identifier
    name, [C[<literal>] = <initializer>] for a string or a numeric name. *)
Definition staticFieldStatement {visitor : Visitor} (className : string)
    (property : ClassElement) : Statement :=
  ExpressionStatement
    (AssignmentExpression
       match ClassElement.name property with
       | Some (NameIdentifier text) =>
           PropertyAccessExpression (Identifier className) (Identifier text)
       | Some (NameStringLiteral text) =>
           ElementAccessExpression (Identifier className) (StringLiteral text)
       | Some (NameNumericLiteral text) =>
           ElementAccessExpression (Identifier className) (NumericLiteral text)
       | _ => AbsentExpression
       end
       match ClassElement.initializer property with
       | Some initializer => visitExpression initializer
       | None => AbsentExpression
       end)
    (Some (ClassElement.id property)).

(** [class C { static x = 1; y = 0; static "y z" = 2; }] *)
Definition classWithStaticFields : ClassLikeDeclaration :=
  sampleClass 1 None "C" None
    [sampleMember SyntaxKind.PropertyDeclaration 2 NodeFlags.Static None
       (Some (NameIdentifier "x")) [] None (Some (NumericLiteral "1"));
     sampleMember SyntaxKind.PropertyDeclaration 3 0 None
       (Some (NameIdentifier "y")) [] None (Some (NumericLiteral "0"));
     sampleMember SyntaxKind.PropertyDeclaration 4 NodeFlags.Static None
       (Some (NameStringLiteral "y z")) [] None (Some (NumericLiteral "2"))].

(** ** Heritage clauses and modifiers *)

(** The heritage clauses that survive the pass: the [extends] clauses that
    are not ambient. *)
Definition isLoweredClause (clause : HeritageClause) : bool :=
  SyntaxKind.eqb (HeritageClause.token clause) SyntaxKind.ExtendsKeyword
  && negb (hasFlag (HeritageClause.flags clause) NodeFlags.Ambient).

(** A base type without its type arguments. *)
Definition withoutTypeArguments (type : ExpressionWithTypeArguments)
    : ExpressionWithTypeArguments :=
  {| ExpressionWithTypeArguments.transformFlags :=
       ExpressionWithTypeArguments.transformFlags type;
     ExpressionWithTypeArguments.expression := ExpressionWithTypeArguments.expression type;
     ExpressionWithTypeArguments.typeArguments := None |}.




(** * Properties of the pass *)

(** ** Running a transform *)

Lemma bind_inv {A B} (m : M A) (k : A → M B) context b context' :
  bind m k context = Ok (b, context') →
  ∃ a context1, m context = Ok (a, context1) ∧ k a context1 = Ok (b, context').
Proof.
  unfold bind. destruct (m context) as [[a context1]|]; [eauto | discriminate].
Qed.

Lemma bool_decide_is_Some_None {A} : bool_decide (is_Some (@None A)) = false.
Proof. reflexivity. Qed.

Lemma bool_decide_is_Some_Some {A} (x : A) : bool_decide (is_Some (Some x)) = true.
Proof. reflexivity. Qed.

(** ** Property-name resolution *)

Section PropertyNameResolution.
Context {visitor : Visitor}.

Lemma getGeneratedNameForNode_registered nodeId text context :
  generatedNames context !! nodeId = Some text →
  getGeneratedNameForNode nodeId context = Ok (text, context).
Proof. intros H. unfold getGeneratedNameForNode. by rewrite H. Qed.

(** C9.  Property-name resolution returns a property name for every
    declaration whose name is an identifier, a literal or a computed name,
    and aborts the pass through [Debug.fail] exactly when the name is a
    binding pattern. *)
Theorem transformPropertyName_fails_exactly_on_patterns
    (container : ClassElement) (isPerInstance : bool) (context : VisitorContext)
    (name : DeclarationName) :
  ClassElement.name container = Some name →
  (isBindingPattern name = false →
     ∃ result context',
       transformPropertyName container isPerInstance context = Ok (result, context')
       ∧ isPropertyName result = true)
  ∧ (isBindingPattern name = true →
     transformPropertyName container isPerInstance context
     = DebugFail "Binding patterns cannot be used as property names.").
Proof.
  intros Hname. unfold transformPropertyName, getDeclarationName. rewrite Hname.
  destruct name as [text|text|text|nameId expression|tag|tag]; simpl;
    (split; intros Hpattern; try discriminate; try reflexivity).
  1-3: by eexists _, _.
  unfold bind at 1. unfold nodeHasGeneratedName, gets.
  destruct (generatedNames context !! nameId) as [text|] eqn:Hlookup.
  - destruct isPerInstance; simpl.
    + by eexists _, _.
    + unfold bind. rewrite (getGeneratedNameForNode_registered _ text) by done.
      by eexists _, _.
  - rewrite bool_decide_is_Some_None, andb_false_r.
    destruct (negb isPerInstance && nodeCanBeDecorated container
              && nodeIsDecorated container).
    + unfold bind, getGeneratedNameForNode. rewrite Hlookup. simpl. by eexists _, _.
    + by eexists _, _.
Qed.
End PropertyNameResolution.

Lemma tempName_inj (a b : nat) : tempName a = tempName b → a = b.
Proof.
  unfold tempName. simpl. intros H. injection H as H. by apply (inj pretty).
Qed.

Section SingleEvaluation.
Context {visitor : Visitor}.

(** What [transformPropertyName] itself does at a decorated member that is
    not resolved per instance and has a computed name: the first resolution
    hoists one new generated local and returns the computed name whose
    expression assigns the visited name expression to that local; every
    later resolution of the same name node, in any context whose registry
    extends the one just reached, returns the generated identifier. *)
Lemma computed_name_resolved_once
    (container : ClassElement) (nameId : nat) (expression : Expression)
    (context : VisitorContext) :
  ClassElement.name container = Some (ComputedPropertyName nameId expression) →
  nodeCanBeDecorated container = true →
  nodeIsDecorated container = true →
  generatedNames context !! nameId = None →
  let generated := tempName (tempCount context) in
  ∃ context1,
    transformPropertyName container false context
    = Ok (ComputedPropertyName nameId
            (AssignmentExpression (Identifier generated) (visitExpression expression)),
          context1)
    ∧ hoistedVariableDeclarations context1
      = hoistedVariableDeclarations context ++ [Identifier generated]
    ∧ generatedNames context1 = <[nameId := generated]> (generatedNames context)
    ∧ tempCount context1 = S (tempCount context)
    ∧ statements context1 = statements context
    ∧ ((∀ n text, generatedNames context !! n = Some text →
          ∃ k, (k < tempCount context)%nat ∧ text = tempName k) →
       ∀ n, generatedNames context !! n ≠ Some generated)
    ∧ ∀ (later : ClassElement) (expression' : Expression) (context2 : VisitorContext),
        ClassElement.name later = Some (ComputedPropertyName nameId expression') →
        generatedNames context1 ⊆ generatedNames context2 →
        transformPropertyName later false context2 = Ok (NameIdentifier generated, context2).
Proof.
  intros Hname Hcan Hdecorated Hfresh generated.
  eexists. split.
  { unfold transformPropertyName, getDeclarationName. rewrite Hname.
    unfold bind at 1. unfold nodeHasGeneratedName, gets. rewrite Hfresh.
    rewrite (bool_decide_is_Some_None (A:=string)). simpl. rewrite Hcan, Hdecorated. simpl.
    unfold bind, getGeneratedNameForNode. rewrite Hfresh. simpl. reflexivity. }
  simpl. repeat split.
  - intros Hbelow n Hn. destruct (Hbelow _ _ Hn) as (k & Hk & Heq).
    apply tempName_inj in Heq. lia.
  - intros later expression' context2 Hlater Hextends.
    assert (generatedNames context2 !! nameId = Some generated) as Hregistered.
    { eapply lookup_weaken; [|exact Hextends]. apply lookup_insert_eq. }
    unfold transformPropertyName, getDeclarationName. rewrite Hlater.
    unfold bind at 1. unfold nodeHasGeneratedName, gets. rewrite Hregistered.
    rewrite bool_decide_is_Some_Some. simpl.
    unfold bind. by rewrite (getGeneratedNameForNode_registered _ generated).
Qed.
End SingleEvaluation.

(** ** The loops of the pass as list functions *)

Lemma withStatements_same context :
  withStatements context (statements context) (enclosingStatements context) = context.
Proof. by destruct context. Qed.

Lemma forEachM_emit {A} (f : A → Statement) (l : list A) context :
  forEachM (λ x, emitStatement (f x)) l context
  = Ok (tt, withStatements context (statements context ++ map f l)
              (enclosingStatements context)).
Proof.
  revert context. induction l as [|x l IH]; intros context; simpl.
  - unfold ret. by rewrite app_nil_r, withStatements_same.
  - unfold bind at 1. unfold emitStatement, emitStatements, modify.
    rewrite IH. simpl. by rewrite <- app_assoc.
Qed.

Lemma fold_left_collect {A} (keep : A → bool) (l : list A) (collected : option (list A)) :
  fold_left (λ (acc : option (list A)) x, if keep x then Some (default [] acc ++ [x]) else acc)
    l collected
  = match List.filter keep l with
    | [] => collected
    | kept => Some (default [] collected ++ kept)
    end.
Proof.
  revert collected. induction l as [|x l IH]; intros collected; simpl; [done|].
  rewrite IH. destruct (keep x); simpl.
  - destruct (List.filter keep l); [done|]. by rewrite <- app_assoc.
  - done.
Qed.

Lemma lazyArray_is_Some {A} (l : list A) :
  bool_decide (is_Some (lazyArray l)) = negb (bool_decide (l = [])).
Proof. by destruct l. Qed.

Lemma lazyArray_match {A B} (f : list A → M B) (l : list A) (b : M B) :
  f [] = b →
  match lazyArray l with
  | Some l' => f l'
  | None => b
  end = f l.
Proof. intros <-. by destruct l. Qed.

Lemma lazyArray_forEachM {A} (f : A → M unit) (l : list A) :
  match lazyArray l with
  | Some l' => forEachM f l'
  | None => ret tt
  end = forEachM f l.
Proof. by destruct l. Qed.

Section Collect.
Context {visitor : Visitor}.

Lemma getInitializedProperties_filter node isStatic :
  getInitializedProperties node isStatic
  = lazyArray (List.filter (isInitializedProperty isStatic)
                 (ClassLikeDeclaration.members node)).
Proof.
  unfold getInitializedProperties.
  rewrite (fold_left_collect (isInitializedProperty isStatic)). simpl.
  by destruct (List.filter _ _).
Qed.

Lemma getParametersWithPropertyAssignments_filter ctor :
  getParametersWithPropertyAssignments ctor
  = lazyArray (List.filter isParameterProperty (ClassElement.parameters ctor)).
Proof.
  unfold getParametersWithPropertyAssignments.
  rewrite (fold_left_collect isParameterProperty). simpl.
  by destruct (List.filter _ _).
Qed.

Lemma leadingCommentRanges_loop node context :
  foldM
    (λ leadingCommentRanges member,
       if isConstructor member && negb (bool_decide (is_Some (ClassElement.body member)))
       then
         let* leadingCommentRangesOfMember := getLeadingCommentRanges (Some member) true in
         ret (concatenate leadingCommentRanges leadingCommentRangesOfMember)
       else ret leadingCommentRanges)
    (ClassLikeDeclaration.members node) None context
  = Ok (overloadCommentRanges context node, context).
Proof.
  unfold overloadCommentRanges.
  generalize (@None (list CommentRange)).
  induction (ClassLikeDeclaration.members node) as [|member members IH];
    intros ranges; simpl; [done|].
  unfold bind at 1.
  destruct (isConstructor member && negb (bool_decide (is_Some (ClassElement.body member))));
    simpl; apply IH.
Qed.

Lemma emit_parameterPropertyAssignments parameters context :
  forEachM
    (λ parameter,
       emitAssignmentStatement
         (createPropertyAccessExpression2 createThisKeyword
            (nameExpression (ParameterDeclaration.name parameter)))
         (nameExpression (ParameterDeclaration.name parameter)))
    parameters context
  = Ok (tt, withStatements context
              (statements context ++ (parameterPropertyAssignment <$> parameters))
              (enclosingStatements context)).
Proof. exact (forEachM_emit parameterPropertyAssignment parameters context). Qed.
End Collect.

(** ** Constructor synthesis in closed form *)

Section ConstructorSynthesis.
Context {visitor : Visitor}.

Lemma transformPropertyDeclaration_instance node property context :
  hasFlag (ClassElement.flags property) NodeFlags.Static = false →
  transformPropertyDeclaration node property context
  = if hasPropertyName property
    then Ok (AssignmentExpression
               (createMemberAccessForPropertyName ThisKeyword
                  (instanceFieldName
                     (default (NameIdentifier "") (ClassElement.name property))))
               (orAbsent (visitExpression <$> ClassElement.initializer property)),
             context)
    else DebugFail bindingPatternMessage.
Proof.
  intros Hstatic. unfold transformPropertyDeclaration. rewrite Hstatic. simpl.
  unfold bind at 1. unfold ret at 1. unfold bind at 1.
  unfold transformPropertyName, getDeclarationName, hasPropertyName.
  destruct (ClassElement.name property) as [[text|text|text|nameId expression|tag|tag]|];
    try reflexivity.
Qed.

Lemma emitPropertyDeclarations_instance node properties context :
  Forall (λ property, hasFlag (ClassElement.flags property) NodeFlags.Static = false)
    properties →
  emitPropertyDeclarations node properties context
  = if forallb hasPropertyName properties
    then Ok (tt, withStatements context
                   (statements context ++ (instanceFieldStatement <$> properties))
                   (enclosingStatements context))
    else DebugFail bindingPatternMessage.
Proof.
  intros Hinstance. revert context.
  induction Hinstance as [|property properties Hstatic _ IH]; intros context.
  - simpl. unfold ret. by rewrite app_nil_r, withStatements_same.
  - unfold emitPropertyDeclarations in *. simpl.
    unfold bind at 1. unfold bind at 1.
    rewrite transformPropertyDeclaration_instance by done.
    destruct (hasPropertyName property); simpl; [|done].
    rewrite IH. destruct (forallb hasPropertyName properties); [|done].
    simpl. by rewrite <- app_assoc.
Qed.

Lemma initializedInstanceFields_instance node :
  Forall (λ property, hasFlag (ClassElement.flags property) NodeFlags.Static = false)
    (initializedInstanceFields node).
Proof.
  apply Forall_forall. intros property Hin.
  apply list_elem_of_In, filter_In in Hin as [_ Hin]. unfold isInitializedProperty in Hin.
  destruct (hasFlag (ClassElement.flags property) NodeFlags.Static); [|done].
  by rewrite andb_false_r in Hin.
Qed.

(** Whenever a constructor is rewritten, the pass returns the synthesized
    constructor of the closed form and leaves the context as it found it,
    unless an initialized instance field has no property name, in which case
    it aborts. *)
Lemma transformConstructor_synthesized node hasBaseType context :
  (match getFirstConstructorWithBody node with
   | Some ctor => List.filter isParameterProperty (ClassElement.parameters ctor)
   | None => []
   end ≠ [] ∨ initializedInstanceFields node ≠ []) →
  transformConstructor node hasBaseType context
  = if forallb hasPropertyName (initializedInstanceFields node)
    then Ok (Some (synthesizedConstructor context node hasBaseType), context)
    else DebugFail bindingPatternMessage.
Proof.
  intros Hrewrite. unfold transformConstructor.
  unfold bind at 1. rewrite leadingCommentRanges_loop.
  rewrite getInitializedProperties_filter.
  fold (initializedInstanceFields node).
  unfold synthesizedConstructor, synthesizedBody, synthesizedParameters.
  pose proof (initializedInstanceFields_instance node) as Hinstance.
  destruct (getFirstConstructorWithBody node) as [ctor|] eqn:Hctor; simpl.
  - rewrite getParametersWithPropertyAssignments_filter.
    set (assignments := List.filter isParameterProperty (ClassElement.parameters ctor)) in *.
    set (fields := initializedInstanceFields node) in *.
    rewrite !lazyArray_is_Some.
    assert (negb (negb (bool_decide (assignments = [])))
            && negb (negb (bool_decide (fields = []))) = false) as ->.
    { rewrite !negb_involutive. destruct Hrewrite.
      - by rewrite bool_decide_eq_false_2.
      - rewrite (bool_decide_eq_false_2 (fields = [])) by done. apply andb_false_r. }
    rewrite !lazyArray_forEachM.
    unfold superCallPrefix, reemittedBodyStatements, superCallPrefix.
    rewrite (lazyArray_match (emitPropertyDeclarations node) fields (ret tt)) by done.
    unfold bind at 1. unfold pushStatements at 1, modify at 1.
    unfold bind at 1. unfold bind at 1. unfold getLeadingCommentRanges at 1, gets at 1.
    unfold bind at 1. unfold getTrailingCommentRanges at 1, gets at 1.
    unfold bind at 1.
    destruct hasBaseType; [destruct (findInitialSuperCall ctor) as [superCall|] eqn:Hsuper|];
      unfold bind, ret, emitStatement, emitStatements, modify, getStatements, gets,
        popStatements;
      rewrite emit_parameterPropertyAssignments;
      rewrite emitPropertyDeclarations_instance by done;
      (destruct (forallb hasPropertyName fields); [|done]); simpl;
      rewrite ?app_nil_l, <- ?app_assoc; simpl;
      by destruct context.
  - set (fields := initializedInstanceFields node) in *.
    rewrite lazyArray_is_Some.
    assert (bool_decide (fields = []) = false) as ->.
    { apply bool_decide_eq_false_2. by destruct Hrewrite. }
    simpl.
    rewrite (lazyArray_match (emitPropertyDeclarations node) fields (ret tt)) by done.
    unfold bind at 1. unfold pushStatements at 1, modify at 1.
    unfold bind at 1. unfold bind at 1.
    destruct hasBaseType;
      unfold bind, ret, emitExpressionStatement, emitStatement, emitStatements, modify,
        getStatements, gets, popStatements;
      rewrite emitPropertyDeclarations_instance by done;
      (destruct (forallb hasPropertyName fields); [|done]); simpl;
      by destruct context.
Qed.
End ConstructorSynthesis.

Section ConstructorClaims.
Context {visitor : Visitor}.

Lemma transformConstructor_fast_path node hasBaseType context :
  match getFirstConstructorWithBody node with
  | Some ctor => List.filter isParameterProperty (ClassElement.parameters ctor)
  | None => []
  end = [] →
  initializedInstanceFields node = [] →
  transformConstructor node hasBaseType context
  = Ok (match overloadCommentRanges context node with
        | Some ranges =>
            (λ ctor,
               attachCommentRanges ctor
                 (concatenate (Some ranges)
                    (leadingCommentRangesOf context (ClassElement.id ctor) false))
                 None)
              <$> getFirstConstructorWithBody node
        | None => getFirstConstructorWithBody node
        end, context).
Proof.
  intros Hparameters Hfields. unfold transformConstructor.
  unfold bind at 1. rewrite leadingCommentRanges_loop.
  rewrite getInitializedProperties_filter.
  fold (initializedInstanceFields node). rewrite Hfields.
  destruct (getFirstConstructorWithBody node) as [ctor|]; simpl.
  - rewrite getParametersWithPropertyAssignments_filter, Hparameters. simpl.
    by destruct (overloadCommentRanges context node).
  - by destruct (overloadCommentRanges context node).
Qed.

Lemma getFirstConstructorWithBody_member node ctor :
  getFirstConstructorWithBody node = Some ctor →
  In ctor (ClassLikeDeclaration.members node) ∧ isConstructor ctor = true.
Proof.
  intros Hfind. apply find_some in Hfind as [Hin Hctor].
  split; [done|]. by apply andb_prop in Hctor as [? _].
Qed.

Lemma noAccessibilityQualifiedParameter_no_property node :
  noAccessibilityQualifiedParameter node = true →
  match getFirstConstructorWithBody node with
  | Some ctor => List.filter isParameterProperty (ClassElement.parameters ctor)
  | None => []
  end = [].
Proof.
  intros Hnone. destruct (getFirstConstructorWithBody node) as [ctor|] eqn:Hctor; [|done].
  apply getFirstConstructorWithBody_member in Hctor as [Hin Hctor].
  unfold noAccessibilityQualifiedParameter in Hnone.
  rewrite forallb_forall in Hnone. specialize (Hnone _ Hin).
  rewrite Hctor in Hnone. simpl in Hnone. rewrite forallb_forall in Hnone.
  induction (ClassElement.parameters ctor) as [|parameter parameters IH]; [done|].
  simpl. unfold isParameterProperty at 1.
  rewrite (proj1 (negb_true_iff _) (Hnone parameter (or_introl eq_refl))).
  rewrite andb_false_r. apply IH. intros p Hp. apply Hnone. by right.
Qed.

Lemma noInitializedInstanceField_no_field node :
  noInitializedInstanceField node = true → initializedInstanceFields node = [].
Proof.
  unfold noInitializedInstanceField, initializedInstanceFields.
  induction (ClassLikeDeclaration.members node) as [|member members IH]; [done|].
  simpl. intros [Hmember Hmembers]%andb_prop.
  apply negb_true_iff in Hmember. rewrite Hmember. by apply IH.
Qed.

(** C3, as the code has it.  In a class none of whose constructor parameters
    has an accessibility modifier and none of whose instance fields has an
    initializer, constructor synthesis returns the constructor with a body
    unchanged (nothing if there is none) when the bodyless constructor
    overloads contribute no leading comment ranges; when they contribute
    some, it returns the constructor with those ranges, followed by its own
    leading ranges, attached. *)
Theorem fast_path_returns_constructor
    (node : ClassLikeDeclaration) (hasBaseType : bool) (context : VisitorContext) :
  noAccessibilityQualifiedParameter node = true →
  noInitializedInstanceField node = true →
  (overloadCommentRanges context node = None →
   transformConstructor node hasBaseType context
   = Ok (getFirstConstructorWithBody node, context))
  ∧ (∀ ranges ctor,
       overloadCommentRanges context node = Some ranges →
       getFirstConstructorWithBody node = Some ctor →
       transformConstructor node hasBaseType context
       = Ok (Some (attachCommentRanges ctor
                     (concatenate (Some ranges)
                        (leadingCommentRangesOf context (ClassElement.id ctor) false))
                     None),
             context)).
Proof.
  intros Hparameters%noAccessibilityQualifiedParameter_no_property
         Hfields%noInitializedInstanceField_no_field.
  split.
  - intros Hranges. rewrite transformConstructor_fast_path by done. by rewrite Hranges.
  - intros ranges ctor Hranges Hctor.
    rewrite transformConstructor_fast_path by done. by rewrite Hranges, Hctor.
Qed.
End ConstructorClaims.

Lemma fast_path_returns_constructor_witness :
  noAccessibilityQualifiedParameter classWithConstructorOverload = true
  ∧ noInitializedInstanceField classWithConstructorOverload = true
  ∧ transformConstructor (visitor := identityVisitor)
      classWithConstructorOverload false emptyContext
    = Ok (getFirstConstructorWithBody classWithConstructorOverload, emptyContext).
Proof.
  split; [reflexivity|]. split; [reflexivity|].
  apply (fast_path_returns_constructor (visitor := identityVisitor)
           classWithConstructorOverload false emptyContext);
    reflexivity.
Defined.

(** C3 as stated fails: the overload of [classWithConstructorOverload]
    carries a leading comment, and the constructor that comes back has that
    comment attached, so it is not the original node. *)
Lemma fast_path_attaches_overload_comments :
  noAccessibilityQualifiedParameter classWithConstructorOverload = true
  ∧ noInitializedInstanceField classWithConstructorOverload = true
  ∧ ∃ original,
      getFirstConstructorWithBody classWithConstructorOverload = Some original
      ∧ transformConstructor (visitor := identityVisitor)
          classWithConstructorOverload false contextWithOverloadComment
        = Ok (Some (attachCommentRanges original (Some [{| pos := 10; end_ := 20 |}]) None),
              contextWithOverloadComment)
      ∧ attachCommentRanges original (Some [{| pos := 10; end_ := 20 |}]) None ≠ original.
Proof.
  split; [reflexivity|]. split; [reflexivity|].
  eexists. split; [reflexivity|]. split; [vm_compute; reflexivity|]. discriminate.
Qed.

Section SynthesizedConstructorClaims.
Context {visitor : Visitor}.

(** C4.  A class with a declared base type, no constructor with a body and
    at least one initialized instance field: the synthesized constructor
    has the one rest parameter [...args], and its body is the call
    [super(...args)] followed by the field assignments, nothing else.  The
    pass aborts only if a field has no property name. *)
Theorem synthesized_constructor_forwards_rest_parameter
    (node : ClassLikeDeclaration) (context : VisitorContext)
    (baseTypeNode : ExpressionWithTypeArguments) :
  getClassExtendsHeritageClauseElement node = Some baseTypeNode →
  getFirstConstructorWithBody node = None →
  initializedInstanceFields node ≠ [] →
  match transformConstructor node
          (bool_decide (is_Some (getClassExtendsHeritageClauseElement node))) context with
  | Ok (result, context') =>
      context' = context
      ∧ ∃ ctor,
          result = Some ctor
          ∧ ClassElement.kind ctor = SyntaxKind.Constructor
          ∧ ClassElement.parameters ctor
            = [{| ParameterDeclaration.decorators := None;
                  ParameterDeclaration.flags := 0;
                  ParameterDeclaration.dotDotDotToken := true;
                  ParameterDeclaration.name := NameIdentifier "args";
                  ParameterDeclaration.initializer := None |}]
          ∧ ClassElement.body ctor
            = Some (ExpressionStatement
                      (CallExpression SuperKeyword
                         [SpreadElementExpression (Identifier "args")]) None
                    :: (instanceFieldStatement <$> initializedInstanceFields node))
  | DebugFail _ => forallb hasPropertyName (initializedInstanceFields node) = false
  end.
Proof.
  intros Hbase Hctor Hfields.
  rewrite transformConstructor_synthesized by (by right).
  destruct (forallb hasPropertyName (initializedInstanceFields node)); [|done].
  split; [done|]. eexists. split; [done|].
  unfold synthesizedConstructor, synthesizedParameters, synthesizedBody.
  rewrite Hctor, Hbase. by simpl.
Qed.

End SynthesizedConstructorClaims.

Lemma synthesized_constructor_forwards_rest_parameter_witness :
  getFirstConstructorWithBody derivedClassWithField = None
  ∧ initializedInstanceFields derivedClassWithField ≠ []
  ∧ match transformConstructor (visitor := identityVisitor) derivedClassWithField
            (bool_decide (is_Some (getClassExtendsHeritageClauseElement derivedClassWithField)))
            emptyContext with
    | Ok (result, _) =>
        ∃ ctor, result = Some ctor
          ∧ ClassElement.body ctor
            = Some [forwardingSuperCall;
                    ExpressionStatement
                      (AssignmentExpression
                         (PropertyAccessExpression ThisKeyword (Identifier "x"))
                         (NumericLiteral "1")) (Some 2%nat)]
    | DebugFail _ => False
    end.
Proof.
  split; [reflexivity|]. split; [discriminate|].
  pose proof (synthesized_constructor_forwards_rest_parameter (visitor := identityVisitor)
                derivedClassWithField emptyContext _ eq_refl eq_refl
                ltac:(discriminate)) as H.
  destruct (transformConstructor _ _ _) as [[result context']|message].
  - destruct H as (_ & ctor & -> & _ & _ & Hbody). by exists ctor.
  - discriminate H.
Defined.

(** C5, evaluated.  In the derived class
    [class D extends B { f = 1; constructor(public a, private b) { super(a); init(); } }]
    the body of the synthesized constructor is
    [{ super(a); this.a = a; this.b = b; this.f = 1; super(a); init(); }].
    There is one assignment per parameter property, in parameter order and
    before the field assignment, but the assignments are not after every
    base-constructor call: the call [super(a)] that the pass takes over from
    the original body (lines 260-262 of the source) comes after them. *)
Theorem parameter_property_assignment_precedes_base_call :
  ∃ synthesized context',
    transformConstructor (visitor := identityVisitor)
      derivedClassWithParameterProperties
      (bool_decide
         (is_Some (getClassExtendsHeritageClauseElement derivedClassWithParameterProperties)))
      emptyContext
    = Ok (Some synthesized, context')
    ∧ ClassElement.body synthesized
      = Some [ExpressionStatement (CallExpression SuperKeyword [Identifier "a"]) None;
              ExpressionStatement
                (AssignmentExpression
                   (PropertyAccessExpression ThisKeyword (Identifier "a"))
                   (Identifier "a")) None;
              ExpressionStatement
                (AssignmentExpression
                   (PropertyAccessExpression ThisKeyword (Identifier "b"))
                   (Identifier "b")) None;
              ExpressionStatement
                (AssignmentExpression
                   (PropertyAccessExpression ThisKeyword (Identifier "f"))
                   (NumericLiteral "1")) (Some 2%nat);
              ExpressionStatement (CallExpression SuperKeyword [Identifier "a"]) None;
              ExpressionStatement (CallExpression (Identifier "init") []) None].
Proof. eexists _, _. split; [vm_compute; reflexivity|]. reflexivity. Qed.

(** C1, evaluated.  The statements of the original body that end the
    synthesized constructor are chosen the wrong way round (lines 260-262 of
    the source).  Without an emitted base-constructor call the first
    statement of the body is dropped: [constructor(public x) { foo(); bar(); }]
    becomes [{ this.x = x; bar(); }].  With one, the call is emitted twice:
    [constructor(public x) { super(); bar(); }] in a derived class becomes
    [{ super(); this.x = x; super(); bar(); }]. *)
Theorem remaining_body_statements_inverted :
  (bodyStatementsOf <$> getFirstConstructorWithBody classWithParameterProperty
   = Some [callStatement "foo"; callStatement "bar"]
   ∧ ∃ synthesized,
       transformConstructor (visitor := identityVisitor)
         classWithParameterProperty false emptyContext
       = Ok (Some synthesized, emptyContext)
       ∧ ClassElement.body synthesized
         = Some [parameterPropertyAssignment (sampleParameter NodeFlags.Public None "x");
                 callStatement "bar"])
  ∧ (bodyStatementsOf <$> getFirstConstructorWithBody derivedClassWithParameterProperty
     = Some [superStatement; callStatement "bar"]
     ∧ ∃ synthesized,
         transformConstructor (visitor := identityVisitor)
           derivedClassWithParameterProperty true emptyContext
         = Ok (Some synthesized, emptyContext)
         ∧ ClassElement.body synthesized
           = Some [superStatement;
                   parameterPropertyAssignment (sampleParameter NodeFlags.Public None "x");
                   superStatement;
                   callStatement "bar"]).
Proof.
  split; (split; [reflexivity|]);
    eexists; (split; [vm_compute; reflexivity|]); reflexivity.
Qed.

Section ClassDeclaration.
Context {visitor : Visitor}.

(** The transform of a class declaration never returns a node: whatever it
    produces, it produces through the statements it emits. *)
Lemma transformClassDeclaration_returns_nothing node context result context' :
  transformClassDeclaration node context = Ok (result, context') → result = None.
Proof.
  unfold transformClassDeclaration. intros H.
  repeat (apply bind_inv in H as (? & ? & _ & H)).
  unfold ret in H. by injection H as <- _.
Qed.
End ClassDeclaration.

(** C2, evaluated.  For the undecorated [class C { static x = 1; }] the pass
    returns no node and emits the one statement [C.x = 1]: the class
    declaration that it builds is neither returned nor emitted. *)
Theorem undecorated_class_declaration_dropped :
  ClassLikeDeclaration.decorators classWithStaticField = None
  ∧ ∃ context',
      transformClassDeclaration (visitor := identityVisitor)
        classWithStaticField emptyContext
      = Ok (None, context')
      ∧ statements context'
        = [ExpressionStatement
             (AssignmentExpression
                (PropertyAccessExpression (Identifier "C") (Identifier "x"))
                (NumericLiteral "1"))
             (Some 2%nat)]
      ∧ enclosingStatements context' = [].
Proof.
  split; [reflexivity|].
  eexists. split; [vm_compute; reflexivity|]. split; reflexivity.
Qed.

(** ** Decorator lowering *)

Lemma fold_left_push {A B} (f : A → B) (l : list A) (pushed : list B) :
  fold_left (λ acc x, acc ++ [f x]) l pushed = pushed ++ (f <$> l).
Proof.
  revert pushed. induction l as [|x l IH]; intros pushed; simpl.
  - by rewrite app_nil_r.
  - rewrite IH. by rewrite <- app_assoc.
Qed.

Section DecoratorLists.
Context {visitor : Visitor}.

Lemma pushDecoratorExpressions_app decorators expressions :
  pushDecoratorExpressions decorators expressions
  = expressions ++ decoratorExpressionsOf decorators.
Proof.
  unfold pushDecoratorExpressions, decoratorExpressionsOf.
  destruct decorators as [ds|]; simpl.
  - apply (fold_left_push (λ decorator, visitExpression (Decorator.expression decorator))).
  - by rewrite app_nil_r.
Qed.

Lemma emitDecoratorsOfParametersFrom_app start parameters expressions :
  emitDecoratorsOfParametersFrom start parameters expressions
  = expressions ++ parameterDecoratorWrappers start parameters.
Proof.
  revert start expressions.
  induction parameters as [|parameter parameters IH]; intros start expressions; simpl.
  - by rewrite app_nil_r.
  - rewrite IH. unfold parameterDecoratorWrappers. simpl.
    rewrite Nat.add_0_r, app_assoc. f_equal.
    + unfold nodeIsDecorated, parameterIsDecorated.
      destruct (ParameterDeclaration.decorators parameter) as [ds|]; simpl.
      * apply (fold_left_push (paramCall start)).
      * by rewrite app_nil_r.
    + f_equal. apply imap_ext. intros i p _. simpl. by rewrite Nat.add_succ_r.
Qed.

Lemma emitSerializedTypeMetadata_app kind expressions :
  emitSerializedTypeMetadata kind expressions
  = expressions ++ emitSerializedTypeMetadata kind [].
Proof.
  unfold emitSerializedTypeMetadata.
  destruct (shouldEmitTypeMetadata kind), (shouldEmitParamTypesMetadata kind),
    (shouldEmitReturnTypeMetadata kind); simpl;
    rewrite <- ?app_assoc, ?app_nil_r; reflexivity.
Qed.

Lemma getDeclarationNameOfClass_stable node context binding context1 :
  getDeclarationNameOfClass node context = Ok (binding, context1) →
  getDeclarationNameOfClass node context1 = Ok (binding, context1).
Proof.
  unfold getDeclarationNameOfClass.
  destruct (ClassLikeDeclaration.name node) as [text|].
  - unfold ret. by intros [= <- <-].
  - unfold bind, getGeneratedNameForNode, ret.
    destruct (generatedNames context !! ClassLikeDeclaration.id node) as [text|] eqn:Hname.
    + intros [= <- <-]. by rewrite Hname.
    + intros [= <- <-]. simpl. by rewrite lookup_insert_eq.
Qed.

Lemma emitSerializedTypeMetadata_sublist kind :
  emitSerializedTypeMetadata kind [] `sublist_of` allMetadataCalls.
Proof.
  destruct kind; simpl;
    unfold allMetadataCalls, metadataCall, createCallExpression2, createIdentifier,
      createStringLiteral;
    repeat first [apply sublist_nil | apply sublist_skip | apply sublist_cons | done].
Qed.


(** Class-level decorator lowering in closed form. *)
Lemma emitDecoratorsOfConstructor_closed (node : ClassLikeDeclaration) (context : VisitorContext) :
  let decorators := ClassLikeDeclaration.decorators node in
  let parameters :=
    default [] (ClassElement.parameters <$> getFirstConstructorWithBody node) in
  let metadata :=
    if emitDecoratorMetadata (compilerOptions context)
    then emitSerializedTypeMetadata (ClassLikeDeclaration.kind node) []
    else [] in
  match getDeclarationNameOfClass node context with
  | Ok (binding, context1) =>
      emitDecoratorsOfConstructor node context
      = if negb (bool_decide (is_Some decorators)) && negb (existsb nodeIsDecorated parameters)
        then Ok (tt, context)
        else
          Ok (tt,
              withStatements context1
                (statements context1
                 ++ [ExpressionStatement
                       (AssignmentExpression binding
                          (CallExpression (Identifier "__decorate")
                             [ArrayLiteralExpression
                                (decoratorExpressionsOf decorators
                                 ++ parameterDecoratorWrappers 0 parameters
                                 ++ metadata);
                              binding]))
                       None])
                (enclosingStatements context1))
  | DebugFail _ => False
  end.
Proof.
  intros decorators parameters metadata.
  destruct (getDeclarationNameOfClass node context) as [[binding context1]|message]
    eqn:Hbinding.
  2: { unfold getDeclarationNameOfClass in Hbinding.
       destruct (ClassLikeDeclaration.name node); [discriminate|].
       unfold bind, getGeneratedNameForNode, ret in Hbinding.
       by destruct (generatedNames context !! ClassLikeDeclaration.id node). }
  unfold emitDecoratorsOfConstructor. fold decorators.
  assert (match getFirstConstructorWithBody node with
          | Some c => existsb nodeIsDecorated (ClassElement.parameters c)
          | None => false
          end = existsb nodeIsDecorated parameters) as ->.
  { unfold parameters. by destruct (getFirstConstructorWithBody node). }
  destruct (negb (bool_decide (is_Some decorators)) && negb (existsb nodeIsDecorated parameters));
    [done|].
  unfold bind at 1. unfold gets at 1.
  unfold bind at 1. rewrite Hbinding.
  unfold bind at 1. rewrite (getDeclarationNameOfClass_stable _ _ _ _ Hbinding).
  unfold emitAssignmentStatement, emitStatement, emitStatements, modify.
  do 5 f_equal.
  unfold createCallExpression2, createIdentifier, createArrayLiteralExpression.
  do 3 f_equal.
  rewrite pushDecoratorExpressions_app. simpl.
  assert (match getFirstConstructorWithBody node with
          | Some c =>
              emitDecoratorsOfParameters (ClassElement.parameters c)
                (decoratorExpressionsOf decorators)
          | None => decoratorExpressionsOf decorators
          end = decoratorExpressionsOf decorators ++ parameterDecoratorWrappers 0 parameters)
    as ->.
  { unfold parameters. destruct (getFirstConstructorWithBody node); simpl.
    - apply emitDecoratorsOfParametersFrom_app.
    - by rewrite app_nil_r. }
  unfold metadata. destruct (emitDecoratorMetadata (compilerOptions context)).
  - rewrite emitSerializedTypeMetadata_app. by rewrite <- app_assoc.
  - by rewrite app_nil_r.
Qed.

(** C6.  Class-level decorator lowering emits nothing when the class has no
    decorators and its constructor no decorated parameter.  Otherwise it
    emits the one statement [B = __decorate([list], B)], [B] being the public
    binding of the class, where the list is the visited class decorators in
    source order, then one call [__param(index, decorator)] per decorator of
    each constructor parameter by ascending index (source order within one
    parameter), then the metadata calls when they are enabled, which are
    among [__metadata("design:type")], [__metadata("design:paramtypes")]
    and [__metadata("design:returntype")], in this order. *)
Theorem class_decorators_lowered (node : ClassLikeDeclaration) (context : VisitorContext) :
  let decorators := ClassLikeDeclaration.decorators node in
  let parameters :=
    default [] (ClassElement.parameters <$> getFirstConstructorWithBody node) in
  let metadata :=
    if emitDecoratorMetadata (compilerOptions context)
    then emitSerializedTypeMetadata (ClassLikeDeclaration.kind node) []
    else [] in
  let classDecorators :=
    (λ decorator, visitExpression (Decorator.expression decorator))
      <$> default [] decorators in
  let parameterWrappers :=
    concat
      (imap (λ index parameter,
               (λ decorator,
                  CallExpression (Identifier "__param")
                    [NumericLiteral (pretty index);
                     visitExpression (Decorator.expression decorator)])
                 <$> default [] (ParameterDeclaration.decorators parameter))
            parameters) in
  metadata `sublist_of`
    [CallExpression (Identifier "__metadata") [StringLiteral "design:type"];
     CallExpression (Identifier "__metadata") [StringLiteral "design:paramtypes"];
     CallExpression (Identifier "__metadata") [StringLiteral "design:returntype"]]
  ∧ match getDeclarationNameOfClass node context with
    | Ok (binding, context1) =>
        emitDecoratorsOfConstructor node context
        = if negb (bool_decide (is_Some decorators))
             && negb (existsb nodeIsDecorated parameters)
          then Ok (tt, context)
          else
            Ok (tt,
                withStatements context1
                  (statements context1
                   ++ [ExpressionStatement
                         (AssignmentExpression binding
                            (CallExpression (Identifier "__decorate")
                               [ArrayLiteralExpression
                                  (classDecorators ++ parameterWrappers ++ metadata);
                                binding]))
                         None])
                  (enclosingStatements context1))
    | DebugFail _ => False
    end.
Proof.
  intros decorators parameters metadata classDecorators parameterWrappers. split.
  - unfold metadata. destruct (emitDecoratorMetadata (compilerOptions context)).
    + apply emitSerializedTypeMetadata_sublist.
    + apply sublist_nil_l.
  - exact (emitDecoratorsOfConstructor_closed node context).
Qed.
End DecoratorLists.

(** ** What decorator lowering changes in the context *)

Lemma sameBuffers_refl context : sameBuffers context context.
Proof. by repeat split. Qed.

Lemma sameBuffers_trans context1 context2 context3 :
  sameBuffers context1 context2 → sameBuffers context2 context3 →
  sameBuffers context1 context3.
Proof.
  intros (H1 & H2 & H3) (H4 & H5 & H6). repeat split; congruence.
Qed.

Lemma getGeneratedNameForNode_frame nodeId context :
  ∃ text context',
    getGeneratedNameForNode nodeId context = Ok (text, context')
    ∧ sameBuffers context context'.
Proof.
  unfold getGeneratedNameForNode.
  destruct (generatedNames context !! nodeId) as [text|];
    eexists _, _; (split; [reflexivity|]); by repeat split.
Qed.

Lemma getDeclarationNameOfClass_frame node context :
  ∃ binding context',
    getDeclarationNameOfClass node context = Ok (binding, context')
    ∧ sameBuffers context context'.
Proof.
  unfold getDeclarationNameOfClass.
  destruct (ClassLikeDeclaration.name node) as [text|].
  - eexists _, _. split; [reflexivity|]. apply sameBuffers_refl.
  - destruct (getGeneratedNameForNode_frame (ClassLikeDeclaration.id node) context)
      as (text & context' & Hrun & Hframe).
    unfold bind. rewrite Hrun. by eexists _, _.
Qed.

Lemma getClassMemberPrefix_frame node member context :
  ∃ prefix context',
    getClassMemberPrefix node member context = Ok (prefix, context')
    ∧ sameBuffers context context'.
Proof.
  unfold getClassMemberPrefix.
  destruct (getDeclarationNameOfClass_frame node context)
    as (binding & context' & Hrun & Hframe).
  unfold bind. rewrite Hrun.
  destruct (hasFlag (ClassElement.flags member) NodeFlags.Static); by eexists _, _.
Qed.

Section MemberDecorators.
Context {visitor : Visitor}.

Lemma transformPropertyName_cases container isPerInstance context :
  match transformPropertyName container isPerInstance context with
  | Ok (_, context') => sameBuffers context context' ∧ hasPropertyName container = true
  | DebugFail _ => hasPropertyName container = false
  end.
Proof.
  unfold transformPropertyName, getDeclarationName, hasPropertyName.
  destruct (ClassElement.name container) as [[text|text|text|nameId expression|tag|tag]|];
    simpl; try done; try (split; [apply sameBuffers_refl|done]).
  unfold bind at 1. unfold nodeHasGeneratedName, gets.
  destruct (negb isPerInstance && _).
  - destruct (getGeneratedNameForNode_frame nameId context) as (t & c & Hrun & Hframe).
    unfold bind. by rewrite Hrun.
  - destruct (negb isPerInstance && nodeCanBeDecorated container && nodeIsDecorated container).
    + destruct (getGeneratedNameForNode_frame nameId context) as (t & c & Hrun & Hframe).
      unfold bind. rewrite Hrun. simpl. split; [|done].
      destruct Hframe as (H1 & H2 & H3). by repeat split.
    + unfold bind. simpl. split; [apply sameBuffers_refl|done].
Qed.

Lemma getExpressionForPropertyName_cases container context :
  match getExpressionForPropertyName container context with
  | Ok (_, context') => sameBuffers context context' ∧ hasPropertyName container = true
  | DebugFail _ => hasPropertyName container = false
  end.
Proof.
  unfold getExpressionForPropertyName. unfold bind.
  pose proof (transformPropertyName_cases container false context) as H.
  destruct (transformPropertyName container false context) as [[name context']|message];
    [|done].
  by destruct name.
Qed.

(** Lowering the decorators of one member appends at most one statement to
    the current buffer, and aborts only at a member without a property
    name. *)
Lemma emitDecoratorsOfMember_cases node member context :
  match emitDecoratorsOfMember node member context with
  | Ok (_, context') =>
      ∃ out,
        statements context' = statements context ++ out
        ∧ enclosingStatements context' = enclosingStatements context
        ∧ compilerOptions context' = compilerOptions context
        ∧ length out
          = match decoratorsAndParametersOfMember node member with
            | Some _ => 1%nat
            | None => 0%nat
            end
        ∧ Forall (λ statement, isExpressionStatement statement = true) out
  | DebugFail _ => hasPropertyName member = false
  end.
Proof.
  unfold emitDecoratorsOfMember.
  destruct (decoratorsAndParametersOfMember node member) as [[decorators parameters]|].
  2: { exists []. rewrite app_nil_r. by repeat split. }
  unfold bind at 1. unfold gets at 1.
  destruct (getClassMemberPrefix_frame node member context)
    as (prefix & context1 & Hprefix & (F1 & F2 & F3)).
  unfold bind at 1. rewrite Hprefix.
  unfold bind at 1.
  pose proof (getExpressionForPropertyName_cases member context1) as H2.
  destruct (getExpressionForPropertyName member context1) as [[name context2]|]; [|done].
  destruct H2 as [(G1 & G2 & G3) _].
  destruct (negb (isPropertyDeclaration member)).
  - unfold bind at 1.
    pose proof (getExpressionForPropertyName_cases member context2) as H3.
    destruct (getExpressionForPropertyName member context2) as [[name3 context3]|]; [|done].
    destruct H3 as [(I1 & I2 & I3) _].
    unfold bind at 1.
    pose proof (getExpressionForPropertyName_cases member context3) as H4.
    destruct (getExpressionForPropertyName member context3) as [[name4 context4]|]; [|done].
    destruct H4 as [(J1 & J2 & J3) _].
    eexists [_]. simpl. rewrite J1, J2, J3, I1, I2, I3, G1, G2, G3, F1, F2, F3.
    repeat split. by repeat constructor.
  - eexists [_]. simpl. rewrite G1, G2, G3, F1, F2, F3.
    repeat split. by repeat constructor.
Qed.
End MemberDecorators.

Section GroupOrder.
Context {visitor : Visitor}.

Lemma emitDecoratorsOfConstructor_cases node context :
  ∃ context' out,
    emitDecoratorsOfConstructor node context = Ok (tt, context')
    ∧ statements context' = statements context ++ out
    ∧ (length out ≤ 1)%nat
    ∧ Forall (λ statement, isExpressionStatement statement = true) out.
Proof.
  pose proof (emitDecoratorsOfConstructor_closed node context) as H. simpl in H.
  destruct (getDeclarationNameOfClass_frame node context)
    as (binding & context1 & Hbinding & (F1 & F2 & F3)).
  rewrite Hbinding in H. rewrite H.
  destruct (negb _ && negb _).
  - exists context, []. rewrite app_nil_r. repeat split; [simpl; lia|constructor].
  - eexists _, [_]. split; [reflexivity|]. simpl. rewrite F1.
    repeat split; [lia|by repeat constructor].
Qed.

Lemma emitDecoratorsOfMembers_loop node isStatic members context :
  match
    forEachM
      (λ member,
         if negb (Bool.eqb isStatic (hasFlag (ClassElement.flags member) NodeFlags.Static))
         then ret tt
         else if negb (nodeCanBeDecorated member) || negb (nodeOrChildIsDecorated member)
         then ret tt
         else emitDecoratorsOfMember node member)
      members context
  with
  | Ok (_, context') =>
      ∃ trace,
        EmittedBy node context trace context'
        ∧ trace.*1 = List.filter (isLoweredMember isStatic) members
        ∧ statements context' = statements context ++ concat trace.*2
        ∧ Forall (λ entry, (length entry.2 ≤ 1)%nat) trace
        ∧ Forall (λ statement, isExpressionStatement statement = true) (concat trace.*2)
  | DebugFail _ => ∃ member, In member members ∧ hasPropertyName member = false
  end.
Proof.
  revert context. induction members as [|member members IH]; intros context; simpl.
  - exists []. simpl. rewrite app_nil_r. repeat split; constructor.
  - unfold bind at 1. unfold isLoweredMember at 1.
    destruct (Bool.eqb isStatic (hasFlag (ClassElement.flags member) NodeFlags.Static));
      simpl.
    2: { specialize (IH context). destruct (forEachM _ members context) as [[[] context']|].
         - done.
         - destruct IH as (m & Hin & Hm). eauto. }
    destruct (nodeCanBeDecorated member); simpl.
    2: { specialize (IH context). destruct (forEachM _ members context) as [[[] context']|].
         - done.
         - destruct IH as (m & Hin & Hm). eauto. }
    destruct (nodeOrChildIsDecorated member); simpl.
    2: { specialize (IH context). destruct (forEachM _ members context) as [[[] context']|].
         - done.
         - destruct IH as (m & Hin & Hm). eauto. }
    pose proof (emitDecoratorsOfMember_cases node member context) as Hmember.
    destruct (emitDecoratorsOfMember node member context) as [[[] context1]|] eqn:Hrun.
    2: { exists member. eauto. }
    destruct Hmember as (out & Hout & _ & _ & Hlength & Hkind).
    specialize (IH context1). destruct (forEachM _ members context1) as [[[] context']|].
    + destruct IH as (trace & Htrace & Hmembers & Hstatements & Hlengths & Hkinds).
      exists ((member, out) :: trace). repeat split.
      * by econstructor.
      * rewrite fmap_cons. simpl. by f_equal.
      * rewrite fmap_cons. simpl. by rewrite Hstatements, Hout, <- app_assoc.
      * constructor; [|done]. simpl. rewrite Hlength.
        destruct (decoratorsAndParametersOfMember _ _); lia.
      * rewrite fmap_cons. simpl. by apply Forall_app.
    + destruct IH as (m & Hin & Hm). eauto.
Qed.

Lemma decorators_of_class_emitted node context :
  match emitDecoratorsOfClass node context with
  | Ok (_, context') =>
      ∃ out,
        statements context' = statements context ++ out
        ∧ Forall (λ statement, isExpressionStatement statement = true) out
  | DebugFail _ => True
  end.
Proof.
  unfold emitDecoratorsOfClass, emitDecoratorsOfMembers.
  unfold bind at 1.
  pose proof (emitDecoratorsOfMembers_loop node false (ClassLikeDeclaration.members node)
                context) as Hinstance.
  destruct (forEachM _ _ context) as [[[] context1]|]; [|done].
  destruct Hinstance as (instanceTrace & _ & _ & Hi & _ & Hki).
  unfold bind at 1.
  pose proof (emitDecoratorsOfMembers_loop node true (ClassLikeDeclaration.members node)
                context1) as Hstatic.
  destruct (forEachM _ _ context1) as [[[] context2]|]; [|done].
  destruct Hstatic as (staticTrace & _ & _ & Hs & _ & Hks).
  destruct (emitDecoratorsOfConstructor_cases node context2)
    as (context' & classStatements & Hclass & Hc & _ & Hkc).
  rewrite Hclass.
  exists (concat instanceTrace.*2 ++ concat staticTrace.*2 ++ classStatements).
  split.
  - by rewrite Hc, Hs, Hi, <- !app_assoc.
  - by repeat apply Forall_app_2.
Qed.

(** C10.  The decorator-lowering statements of a class are the statements of
    the instance members that are lowered, in declaration order, then those
    of the static members, in declaration order, then the statement of the
    class itself, if any.  The pass aborts only at a member without a
    property name. *)
Theorem decorator_statements_grouped (node : ClassLikeDeclaration) (context : VisitorContext) :
  match emitDecoratorsOfClass node context with
  | Ok (_, context') =>
      ∃ context1 context2 instanceTrace staticTrace classStatements,
        EmittedBy node context instanceTrace context1
        ∧ instanceTrace.*1
          = List.filter (isLoweredMember false) (ClassLikeDeclaration.members node)
        ∧ EmittedBy node context1 staticTrace context2
        ∧ staticTrace.*1
          = List.filter (isLoweredMember true) (ClassLikeDeclaration.members node)
        ∧ emitDecoratorsOfConstructor node context2 = Ok (tt, context')
        ∧ statements context' = statements context2 ++ classStatements
        ∧ (length classStatements ≤ 1)%nat
        ∧ statements context'
          = statements context ++ concat instanceTrace.*2 ++ concat staticTrace.*2
            ++ classStatements
  | DebugFail _ =>
      ∃ member, In member (ClassLikeDeclaration.members node) ∧ hasPropertyName member = false
  end.
Proof.
  unfold emitDecoratorsOfClass, emitDecoratorsOfMembers.
  unfold bind at 1.
  pose proof (emitDecoratorsOfMembers_loop node false (ClassLikeDeclaration.members node)
                context) as Hinstance.
  destruct (forEachM _ _ context) as [[[] context1]|]; [|done].
  destruct Hinstance as (instanceTrace & Hi1 & Hi2 & Hi3 & _ & _).
  unfold bind at 1.
  pose proof (emitDecoratorsOfMembers_loop node true (ClassLikeDeclaration.members node)
                context1) as Hstatic.
  destruct (forEachM _ _ context1) as [[[] context2]|]; [|done].
  destruct Hstatic as (staticTrace & Hs1 & Hs2 & Hs3 & _ & _).
  destruct (emitDecoratorsOfConstructor_cases node context2)
    as (context' & classStatements & Hclass & Hc1 & Hc2 & _).
  rewrite Hclass.
  exists context1, context2, instanceTrace, staticTrace, classStatements.
  repeat split; try done.
  by rewrite Hc1, Hs3, Hi3, <- !app_assoc.
Qed.
End GroupOrder.

(** ** Accessor pairs *)





Section AccessorPairs.
Context {visitor : Visitor}.


End AccessorPairs.

(** ** The properties on sample classes *)

Lemma transformPropertyName_fails_exactly_on_patterns_witness :
  (∃ result context',
     transformPropertyName (visitor := identityVisitor)
       decoratedComputedMethod false emptyContext = Ok (result, context')
     ∧ isPropertyName result = true)
  ∧ transformPropertyName (visitor := identityVisitor) patternNamedMember true emptyContext
    = DebugFail "Binding patterns cannot be used as property names.".
Proof.
  split.
  - apply (transformPropertyName_fails_exactly_on_patterns (visitor := identityVisitor)
             decoratedComputedMethod false emptyContext _ eq_refl).
    reflexivity.
  - apply (transformPropertyName_fails_exactly_on_patterns (visitor := identityVisitor)
             patternNamedMember true emptyContext _ eq_refl).
    reflexivity.
Defined.



(** In [classWithAccessorPair] only the second-declared accessor is
    decorated.  The loop over the members skips the first accessor, which
    has no decorator of its own, and the second is skipped as not the first
    of its pair: no statement is emitted for the pair. *)
Example decorated_second_accessor_emits_nothing :
  emitDecoratorsOfMembers (visitor := identityVisitor)
    classWithAccessorPair false emptyContext
  = Ok (tt, emptyContext).
Proof. reflexivity. Qed.

(** The instance members of [classWithMixedDecorators] come first ([m], then
    [p]), then the static members ([s], then [t]), then the class. *)
Example decorator_statements_of_mixed_class :
  ∃ context',
    emitDecoratorsOfClass (visitor := identityVisitor)
      classWithMixedDecorators emptyContext = Ok (tt, context')
    ∧ (λ statement,
         match statement with
         | ExpressionStatement (CallExpression _ [owner; StringLiteral name; _]) _
         | ExpressionStatement (CallExpression _ [_; owner; StringLiteral name]) _ =>
             Some (owner, name)
         | _ => None
         end) <$> statements context'
      = [Some (PropertyAccessExpression (Identifier "C") (Identifier "prototype"), "m");
         Some (PropertyAccessExpression (Identifier "C") (Identifier "prototype"), "p");
         Some (Identifier "C", "s");
         Some (Identifier "C", "t");
         None].
Proof. eexists. split; [vm_compute; reflexivity|]. reflexivity. Qed.

(** The class-level statement of [classWithDecoratedParameters] is
    [C = __decorate([e, __param(0, p), __param(2, q), __param(2, r)], C)]. *)
Lemma class_decorators_lowered_witness :
  ∃ context',
    emitDecoratorsOfConstructor (visitor := identityVisitor)
      classWithDecoratedParameters emptyContext = Ok (tt, context')
    ∧ statements context'
      = [ExpressionStatement
           (AssignmentExpression (Identifier "C")
              (CallExpression (Identifier "__decorate")
                 [ArrayLiteralExpression
                    [Identifier "e";
                     CallExpression (Identifier "__param") [NumericLiteral "0"; Identifier "p"];
                     CallExpression (Identifier "__param") [NumericLiteral "2"; Identifier "q"];
                     CallExpression (Identifier "__param") [NumericLiteral "2"; Identifier "r"]];
                  Identifier "C"]))
           None].
Proof.
  destruct (class_decorators_lowered (visitor := identityVisitor)
              classWithDecoratedParameters emptyContext) as [_ H].
  change (getDeclarationNameOfClass classWithDecoratedParameters emptyContext)
    with (Ok (A := Expression * VisitorContext) (Identifier "C", emptyContext)) in H.
  cbv beta iota in H.
  eexists. split; [etransitivity; [exact H|]; vm_compute; reflexivity|]. reflexivity.
Defined.

(** C8, evaluated.  The method of [class C { @m static [f()]() {} }], once
    lowered, has the name [[_0 = f()]] and the local [_0] is hoisted; a later
    resolution of the name by [transformPropertyName] returns the identifier
    [_0].  The decorator statement does not use it:
    [getExpressionForPropertyName] (lines 453-461 of the source) has no case
    for an identifier and returns nothing, so the statement is
    [Object.defineProperty(C, undefined, __decorate([m], C, undefined,
    Object.getOwnPropertyDescriptor(C, undefined)))].  The name expression
    is in the output once, but the decorator-argument reference to its value
    is missing. *)
Theorem decorator_argument_drops_generated_name :
  ∃ method context1 context2,
    transformMethodDeclaration (visitor := identityVisitor)
      decoratedComputedMethod emptyContext = Ok (method, context1)
    ∧ ClassElement.name method
      = Some (ComputedPropertyName 7
                (AssignmentExpression (Identifier "_0")
                   (CallExpression (Identifier "f") [])))
    ∧ hoistedVariableDeclarations context1 = [Identifier "_0"]
    ∧ transformPropertyName (visitor := identityVisitor)
        decoratedComputedMethod false context1
      = Ok (NameIdentifier "_0", context1)
    ∧ getExpressionForPropertyName (visitor := identityVisitor)
        decoratedComputedMethod context1
      = Ok (None, context1)
    ∧ emitDecoratorsOfMember (visitor := identityVisitor)
        (sampleClass 1 None "C" None [decoratedComputedMethod])
        decoratedComputedMethod context1 = Ok (tt, context2)
    ∧ statements context2
      = [ExpressionStatement
           (CallExpression
              (PropertyAccessExpression (Identifier "Object") (Identifier "defineProperty"))
              [Identifier "C"; AbsentExpression;
               CallExpression (Identifier "__decorate")
                 [ArrayLiteralExpression [Identifier "m"]; Identifier "C"; AbsentExpression;
                  CallExpression
                    (PropertyAccessExpression (Identifier "Object")
                       (Identifier "getOwnPropertyDescriptor"))
                    [Identifier "C"; AbsentExpression]]])
           None].
Proof.
  eexists _, _, _. split; [vm_compute; reflexivity|]. split; [reflexivity|].
  split; [reflexivity|]. split; [reflexivity|]. split; [reflexivity|].
  split; [vm_compute; reflexivity|]. reflexivity.
Qed.

(** ** What the transform of a class declaration emits *)

Section UndecoratedClass.
Context {visitor : Visitor}.

Lemma transformConstructor_context node hasBaseType context result context' :
  transformConstructor node hasBaseType context = Ok (result, context') →
  context' = context.
Proof.
  destruct (match getFirstConstructorWithBody node with
            | Some ctor => List.filter isParameterProperty (ClassElement.parameters ctor)
            | None => []
            end) as [|parameter parameters] eqn:Hparameters;
    [destruct (initializedInstanceFields node) as [|field fields] eqn:Hfields|].
  - rewrite transformConstructor_fast_path by done. by intros [= _ <-].
  - rewrite transformConstructor_synthesized by (right; by rewrite Hfields).
    destruct (forallb _ _); [|done]. by intros [= _ <-].
  - rewrite transformConstructor_synthesized by (left; by rewrite Hparameters).
    destruct (forallb _ _); [|done]. by intros [= _ <-].
Qed.

Lemma transformNodeWorker_frame member context :
  match transformNodeWorker member context with
  | Ok (_, context') => sameBuffers context context'
  | DebugFail _ => True
  end.
Proof.
  unfold transformNodeWorker.
  destruct (hasFlag (ClassElement.flags member) NodeFlags.Ambient);
    [apply sameBuffers_refl|].
  destruct (ClassElement.kind member); try apply sameBuffers_refl.
  - unfold bind, transformMethodDeclaration.
    destruct (ClassElement.body member); [|apply sameBuffers_refl].
    unfold bind.
    pose proof (transformPropertyName_cases member false context) as H.
    destruct (transformPropertyName member false context) as [[name context']|]; [|done].
    apply H.
  - unfold bind, transformGetAccessor. unfold bind.
    pose proof (transformPropertyName_cases member false context) as H.
    destruct (transformPropertyName member false context) as [[name context']|]; [|done].
    apply H.
  - unfold bind, transformSetAccessor. unfold bind.
    pose proof (transformPropertyName_cases member false context) as H.
    destruct (transformPropertyName member false context) as [[name context']|]; [|done].
    apply H.
Qed.

Lemma mapM_transformNodeWorker_frame members context :
  match mapM transformNodeWorker members context with
  | Ok (_, context') => sameBuffers context context'
  | DebugFail _ => True
  end.
Proof.
  revert context. induction members as [|member members IH]; intros context; simpl.
  - apply sameBuffers_refl.
  - unfold bind at 1.
    pose proof (transformNodeWorker_frame member context) as Hmember.
    destruct (transformNodeWorker member context) as [[result context1]|]; [|done].
    unfold bind at 1. specialize (IH context1).
    destruct (mapM transformNodeWorker members context1) as [[results context2]|]; [|done].
    by eapply sameBuffers_trans.
Qed.

Lemma emitPropertyDeclarations_cases node properties context :
  match emitPropertyDeclarations node properties context with
  | Ok (_, context') =>
      ∃ out,
        statements context' = statements context ++ out
        ∧ enclosingStatements context' = enclosingStatements context
        ∧ Forall (λ statement, isExpressionStatement statement = true) out
  | DebugFail _ => True
  end.
Proof.
  unfold emitPropertyDeclarations. revert context.
  induction properties as [|property properties IH]; intros context; simpl.
  - exists []. rewrite app_nil_r. by repeat split.
  - unfold bind at 1. unfold bind at 1. unfold transformPropertyDeclaration.
    unfold bind at 1.
    assert (∃ target context1,
              (if hasFlag (ClassElement.flags property) NodeFlags.Static
               then getDeclarationNameOfClass node else ret createThisKeyword) context
              = Ok (target, context1) ∧ sameBuffers context context1)
      as (target & context1 & -> & (F1 & F2 & _)).
    { destruct (hasFlag _ _).
      - apply getDeclarationNameOfClass_frame.
      - eexists _, _. split; [reflexivity|]. apply sameBuffers_refl. }
    unfold bind at 1.
    pose proof (transformPropertyName_cases property
                  (negb (hasFlag (ClassElement.flags property) NodeFlags.Static)) context1)
      as Hname.
    destruct (transformPropertyName property _ context1) as [[name context2]|]; [|done].
    destruct Hname as [(G1 & G2 & _) _].
    unfold ret at 1. unfold emitStatement at 1, emitStatements at 1, modify at 1.
    match goal with |- match forEachM ?f properties ?c with _ => _ end => specialize (IH c) end.
    destruct (forEachM _ properties _) as [[[] context']|]; [|done].
    destruct IH as (out & Hout & Henclosing & Hkinds).
    simpl in Hout, Henclosing.
    eexists (_ :: out). rewrite Hout, Henclosing, G1, G2, F1, F2, <- app_assoc.
    repeat split. by constructor.
Qed.

(** The transform of an undecorated class declaration returns no node and,
    when it does not abort, appends nothing but expression statements to the
    current buffer: the class declaration it builds is not in the output. *)
Lemma undecorated_class_emits_no_class_declaration node context result context' :
  ClassLikeDeclaration.decorators node = None →
  transformClassDeclaration node context = Ok (result, context') →
  result = None
  ∧ ∃ out,
      statements context' = statements context ++ out
      ∧ Forall (λ statement, isExpressionStatement statement = true) out.
Proof.
  intros Hundecorated Hrun.
  split; [by eapply transformClassDeclaration_returns_nothing|].
  unfold transformClassDeclaration in Hrun. rewrite Hundecorated in Hrun.
  apply bind_inv in Hrun as (ctor & context1 & Hctor & Hrun).
  apply transformConstructor_context in Hctor as ->.
  apply bind_inv in Hrun as (members & context2 & Hmembers & Hrun).
  pose proof (mapM_transformNodeWorker_frame (ClassLikeDeclaration.members node) context)
    as Hframe.
  rewrite Hmembers in Hframe. destruct Hframe as (F1 & _ & _).
  apply bind_inv in Hrun as ([] & context3 & [= <-] & Hrun).
  apply bind_inv in Hrun as ([] & context4 & Hstatic & Hrun).
  assert (∃ out, statements context4 = statements context2 ++ out
                 ∧ Forall (λ statement, isExpressionStatement statement = true) out)
    as (out1 & Hout1 & Hkinds1).
  { destruct (getInitializedProperties node true) as [properties|].
    - pose proof (emitPropertyDeclarations_cases node properties context2) as H.
      rewrite Hstatic in H. destruct H as (out & ? & _ & ?). by exists out.
    - injection Hstatic as <-. exists []. by rewrite app_nil_r. }
  apply bind_inv in Hrun as ([] & context5 & Hdecorators & Hrun).
  injection Hrun as _ <-.
  pose proof (decorators_of_class_emitted node context4) as H.
  rewrite Hdecorators in H. destruct H as (out2 & Hout2 & Hkinds2).
  exists (out1 ++ out2). split.
  - by rewrite Hout2, Hout1, F1, <- app_assoc.
  - by apply Forall_app.
Qed.
End UndecoratedClass.

(** A class with an initialized static field whose name is a binding
    pattern: the hard failure of property-name resolution aborts the whole
    transform of the class. *)
Example pattern_name_aborts_class_transform :
  transformClassDeclaration (visitor := identityVisitor)
    (sampleClass 1 None "C" None
       [sampleMember SyntaxKind.PropertyDeclaration 2 NodeFlags.Static None
          (Some (ObjectBindingPattern 0)) [] None (Some (NumericLiteral "1"))])
    emptyContext
  = DebugFail bindingPatternMessage.
Proof. reflexivity. Qed.

(** * Further properties of the pass *)

(** ** The transform of a class member *)

Section MemberTransform.
Context {visitor : Visitor}.

Lemma transformPropertyName_result container isPerInstance context name context' :
  transformPropertyName container isPerInstance context = Ok (name, context') →
  isPropertyName name = true.
Proof.
  unfold transformPropertyName, getDeclarationName.
  destruct (ClassElement.name container) as [[text|text|text|nameId expression|tag|tag]|];
    simpl; try discriminate; try (by intros [= <- _]).
  unfold bind at 1. unfold nodeHasGeneratedName, gets.
  destruct (negb isPerInstance && _).
  - destruct (getGeneratedNameForNode_frame nameId context) as (t & c & Hrun & _).
    unfold bind. rewrite Hrun. by intros [= <- _].
  - destruct (negb isPerInstance && nodeCanBeDecorated container
              && nodeIsDecorated container).
    + destruct (getGeneratedNameForNode_frame nameId context) as (t & c & Hrun & _).
      unfold bind. rewrite Hrun. simpl. by intros [= <- _].
    + unfold bind. simpl. by intros [= <- _].
Qed.

(** X1.  A method or an accessor that the worker lowers comes back without
    decorators and without a type annotation.  A method with a body and an
    accessor keep their kind, identity and flags and get a resolved property
    name; a bodyless method becomes a placeholder that refers back to it. *)
Theorem lowered_member_has_no_decorators
    (node : ClassElement) (context : VisitorContext)
    (result : ClassElement) (context' : VisitorContext) :
  isMethodDeclaration node || isAccessor node = true →
  transformNodeWorker node context = Ok (Some result, context') →
  ClassElement.decorators result = None
  ∧ ClassElement.type result = None
  ∧ ((isLoweredFunction node = true
      ∧ ClassElement.kind result = ClassElement.kind node
      ∧ ClassElement.id result = ClassElement.id node
      ∧ ClassElement.flags result = ClassElement.flags node
      ∧ hasPropertyName result = true
      ∧ ClassElement.parameters result
        = visitNodeArrayOfParameter (ClassElement.parameters node)
      ∧ ClassElement.body result = visitBlock <$> ClassElement.body node)
     ∨ (isLoweredFunction node = false
        ∧ ClassElement.kind result = SyntaxKind.MissingDeclaration
        ∧ ClassElement.original result = Some (ClassElement.id node)
        ∧ ClassElement.body result = None
        ∧ context' = context)).
Proof.
  unfold transformNodeWorker, isLoweredFunction, isMethodDeclaration, isAccessor, hasBody.
  intros Hkind Hrun.
  destruct (hasFlag (ClassElement.flags node) NodeFlags.Ambient); [discriminate|].
  destruct (ClassElement.kind node) eqn:Hk; try discriminate; simpl in *.
  - unfold bind, transformMethodDeclaration in Hrun.
    destruct (ClassElement.body node) as [body|] eqn:Hbody.
    + unfold bind in Hrun.
      destruct (transformPropertyName node false context) as [[name context1]|] eqn:Hname;
        [|discriminate].
      apply transformPropertyName_result in Hname.
      injection Hrun as <- <-. simpl.
      split; [done|]. split; [done|]. left. by rewrite Hk, ?Hbody.
    + injection Hrun as <- <-. simpl. split; [done|]. split; [done|]. by right.
  - unfold bind, transformGetAccessor in Hrun. unfold bind in Hrun.
    destruct (transformPropertyName node false context) as [[name context1]|] eqn:Hname;
      [|discriminate].
    apply transformPropertyName_result in Hname.
    injection Hrun as <- <-. simpl.
    split; [done|]. split; [done|]. left. by rewrite Hk.
  - unfold bind, transformSetAccessor in Hrun. unfold bind in Hrun.
    destruct (transformPropertyName node false context) as [[name context1]|] eqn:Hname;
      [|discriminate].
    apply transformPropertyName_result in Hname.
    injection Hrun as <- <-. simpl.
    split; [done|]. split; [done|]. left. by rewrite Hk.
Qed.

(** X2.  The worker aborts at a class element exactly when the element is not
    ambient, is a method with a body or an accessor, and has no property
    name.  Ambient elements, constructors, fields, index signatures and
    bodyless methods never abort the pass, whatever their name. *)
Theorem member_transform_aborts_exactly (node : ClassElement) (context : VisitorContext) :
  (∃ message, transformNodeWorker node context = DebugFail message)
  ↔ hasFlag (ClassElement.flags node) NodeFlags.Ambient = false
    ∧ isLoweredFunction node = true
    ∧ hasPropertyName node = false.
Proof.
  unfold transformNodeWorker, isLoweredFunction, isMethodDeclaration, isAccessor, hasBody.
  destruct (hasFlag (ClassElement.flags node) NodeFlags.Ambient).
  { split; [by intros [? ?]|by intros [? _]]. }
  pose proof (transformPropertyName_cases node false context) as Hname.
  destruct (ClassElement.kind node) eqn:Hk; simpl;
    try (split; [by intros [? ?]|by intros (_ & ? & _)]).
  - unfold bind, transformMethodDeclaration.
    destruct (ClassElement.body node) as [body|] eqn:Hbody; simpl.
    + unfold bind.
      destruct (transformPropertyName node false context) as [[name context1]|].
      * destruct Hname as [_ Hname]. split; [by intros [? ?]|]. intros (_ & _ & ?). congruence.
      * split; [done|]. intros _. by eexists.
    + split; [by intros [? ?]|by intros (_ & ? & _)].
  - unfold bind, transformGetAccessor. unfold bind.
    destruct (transformPropertyName node false context) as [[name context1]|].
    + destruct Hname as [_ Hname]. split; [by intros [? ?]|]. intros (_ & _ & ?). congruence.
    + split; [done|]. intros _. by eexists.
  - unfold bind, transformSetAccessor. unfold bind.
    destruct (transformPropertyName node false context) as [[name context1]|].
    + destruct Hname as [_ Hname]. split; [by intros [? ?]|]. intros (_ & _ & ?). congruence.
    + split; [done|]. intros _. by eexists.
Qed.
End MemberTransform.

Lemma lowered_member_has_no_decorators_witness :
  ∃ result context',
    transformNodeWorker (visitor := identityVisitor) methodWithBody emptyContext
    = Ok (Some result, context')
    ∧ ClassElement.decorators methodWithBody = Some [decorator "m"]
    ∧ ClassElement.decorators result = None
    ∧ ClassElement.type result = None.
Proof.
  eexists _, _. split; [reflexivity|]. split; [reflexivity|].
  pose proof (lowered_member_has_no_decorators (visitor := identityVisitor)
                methodWithBody emptyContext _ _ eq_refl eq_refl) as (H1 & H2 & _).
  split; [exact H1 | exact H2].
Defined.

(** ** Constructor synthesis *)

Section ConstructorSynthesisProperties.
Context {visitor : Visitor}.

Lemma constructorIsSynthesized_lists node :
  constructorIsSynthesized node = true
  ↔ (match getFirstConstructorWithBody node with
     | Some ctor => List.filter isParameterProperty (ClassElement.parameters ctor)
     | None => []
     end ≠ [] ∨ initializedInstanceFields node ≠ []).
Proof.
  unfold constructorIsSynthesized.
  rewrite getInitializedProperties_filter. fold (initializedInstanceFields node).
  destruct (getFirstConstructorWithBody node) as [ctor|]; simpl.
  - rewrite getParametersWithPropertyAssignments_filter.
    destruct (List.filter isParameterProperty _), (initializedInstanceFields node);
      simpl; split; try done; try (intros _; by (left + right));
      by intros [?|?].
  - destruct (initializedInstanceFields node); simpl; split; try done.
    + by intros [?|?].
    + intros _. by right.
Qed.

(** X4.  A constructor that synthesis rewrites is a plain constructor:
    it has no decorators, no modifiers and no return type, it has a body, and
    it keeps the identity of the constructor it replaces, whatever that one
    carried. *)
Theorem synthesized_constructor_is_plain
    (node : ClassLikeDeclaration) (hasBaseType : bool) (context : VisitorContext)
    (result : option ClassElement) (context' : VisitorContext) :
  constructorIsSynthesized node = true →
  transformConstructor node hasBaseType context = Ok (result, context') →
  ∃ ctor,
    result = Some ctor
    ∧ ClassElement.kind ctor = SyntaxKind.Constructor
    ∧ ClassElement.decorators ctor = None
    ∧ ClassElement.modifiers ctor = None
    ∧ ClassElement.type ctor = None
    ∧ is_Some (ClassElement.body ctor)
    ∧ ∀ original,
        getFirstConstructorWithBody node = Some original →
        ClassElement.id ctor = ClassElement.id original
        ∧ ClassElement.parameters ctor
          = visitNodeArrayOfParameter (ClassElement.parameters original).
Proof.
  intros Hlists%constructorIsSynthesized_lists.
  rewrite transformConstructor_synthesized by done.
  destruct (forallb _ _); [|done]. intros [= <- <-].
  eexists. split; [done|].
  unfold synthesizedConstructor, synthesizedParameters.
  destruct (getFirstConstructorWithBody node) as [original|] eqn:Hctor; simpl.
  - apply getFirstConstructorWithBody_member in Hctor as [_ Hkind].
    unfold isConstructor in Hkind.
    split_and!; try done.
    + by destruct (ClassElement.kind original).
    + by intros ? [= <-].
  - by split_and!.
Qed.

(** X5.  A class without a base type and without a constructor with a body
    whose instance fields are initialized gets the constructor
    [constructor() { this.<field> = <initializer>; ... }]: no parameter, no
    base-constructor call, one assignment per initialized instance field in
    declaration order.  The pass aborts only if a field has no property
    name. *)
Theorem synthesized_constructor_without_base
    (node : ClassLikeDeclaration) (context : VisitorContext) :
  getFirstConstructorWithBody node = None →
  initializedInstanceFields node ≠ [] →
  match transformConstructor node false context with
  | Ok (result, context') =>
      ∃ ctor,
        result = Some ctor
        ∧ ClassElement.parameters ctor = []
        ∧ ClassElement.body ctor
          = Some (instanceFieldStatement <$> initializedInstanceFields node)
  | DebugFail _ => forallb hasPropertyName (initializedInstanceFields node) = false
  end.
Proof.
  intros Hctor Hfields.
  rewrite transformConstructor_synthesized by (by right).
  destruct (forallb hasPropertyName (initializedInstanceFields node)); [|done].
  eexists. split; [done|].
  unfold synthesizedConstructor, synthesizedParameters, synthesizedBody.
  by rewrite Hctor.
Qed.
End ConstructorSynthesisProperties.

Lemma synthesized_constructor_is_plain_witness :
  ∃ ctor context',
    transformConstructor (visitor := identityVisitor)
      classWithParameterProperty false emptyContext = Ok (Some ctor, context')
    ∧ ClassElement.decorators ctor = None
    ∧ ClassElement.modifiers ctor = None.
Proof.
  destruct (transformConstructor (visitor := identityVisitor)
              classWithParameterProperty false emptyContext)
    as [[result context']|] eqn:Hrun; [|discriminate Hrun].
  destruct (synthesized_constructor_is_plain (visitor := identityVisitor)
              classWithParameterProperty false emptyContext _ _ eq_refl Hrun)
    as (ctor & -> & _ & Hdecorators & Hmodifiers & _).
  by exists ctor, context'.
Defined.

Lemma synthesized_constructor_without_base_witness :
  match transformConstructor (visitor := identityVisitor) classWithField false emptyContext with
  | Ok (result, _) =>
      ∃ ctor,
        result = Some ctor
        ∧ ClassElement.parameters ctor = []
        ∧ ClassElement.body ctor
          = Some [ExpressionStatement
                    (AssignmentExpression
                       (PropertyAccessExpression ThisKeyword (Identifier "x"))
                       (NumericLiteral "1")) (Some 2%nat)]
  | DebugFail _ => False
  end.
Proof.
  pose proof (synthesized_constructor_without_base (visitor := identityVisitor)
                classWithField emptyContext eq_refl ltac:(discriminate)) as H.
  destruct (transformConstructor _ _ _) as [[result context']|]; [exact H|discriminate H].
Defined.

(** ** The collections of the pass *)

Lemma List_filter_sublist {A} (keep : A → bool) (l : list A) :
  List.filter keep l `sublist_of` l.
Proof.
  induction l as [|x l IH]; simpl; [constructor|].
  destruct (keep x); by constructor.
Qed.

Lemma StronglySorted_le_app (l1 l2 : list nat) :
  (∀ i j : nat, i ∈ l1 → j ∈ l2 → (i ≤ j)%nat) →
  StronglySorted le l1 → StronglySorted le l2 → StronglySorted le (l1 ++ l2).
Proof.
  intros Hle H1 H2. induction H1 as [|i l1 H1 IH Hi]; simpl; [done|].
  constructor.
  - apply IH. intros ? ? ? ?. apply Hle; [by right|done].
  - apply Forall_app. split; [done|].
    apply Forall_forall. intros j Hj. apply Hle; [by left|done].
Qed.

Lemma lazyArray_default {A} (l : list A) : default [] (lazyArray l) = l.
Proof. by destruct l. Qed.

Lemma lazyArray_nonempty {A} (l : list A) : lazyArray l ≠ Some [].
Proof. by destruct l. Qed.

(** X6.  The initialized properties of a group are never an empty array:
    the result is absent when no field qualifies.  Otherwise it lists, in
    declaration order, exactly the property declarations of the group that
    have an initializer; no field is in both the static and the instance
    group. *)
Theorem initialized_properties_partition (node : ClassLikeDeclaration) :
  (∀ isStatic, getInitializedProperties node isStatic ≠ Some [])
  ∧ (∀ isStatic,
       default [] (getInitializedProperties node isStatic)
       `sublist_of` ClassLikeDeclaration.members node)
  ∧ (∀ isStatic member,
       member ∈ default [] (getInitializedProperties node isStatic)
       ↔ member ∈ ClassLikeDeclaration.members node
         ∧ isPropertyDeclaration member = true
         ∧ hasFlag (ClassElement.flags member) NodeFlags.Static = isStatic
         ∧ is_Some (ClassElement.initializer member))
  ∧ (∀ member,
       member ∈ default [] (getInitializedProperties node true) →
       member ∉ default [] (getInitializedProperties node false)).
Proof.
  assert (∀ isStatic member,
            member ∈ default [] (getInitializedProperties node isStatic)
            ↔ member ∈ ClassLikeDeclaration.members node
              ∧ isPropertyDeclaration member = true
              ∧ hasFlag (ClassElement.flags member) NodeFlags.Static = isStatic
              ∧ is_Some (ClassElement.initializer member)) as Hmember.
  { intros isStatic member.
    rewrite getInitializedProperties_filter, lazyArray_default.
    rewrite !list_elem_of_In, filter_In. unfold isInitializedProperty.
    rewrite !andb_true_iff, bool_decide_eq_true.
    destruct isStatic, (hasFlag (ClassElement.flags member) NodeFlags.Static);
      simpl; intuition (auto; congruence). }
  split_and!.
  - intros isStatic. rewrite getInitializedProperties_filter. apply lazyArray_nonempty.
  - intros isStatic. rewrite getInitializedProperties_filter, lazyArray_default.
    apply List_filter_sublist.
  - exact Hmember.
  - intros member Hstatic Hinstance.
    apply Hmember in Hstatic as (_ & _ & Hs & _).
    apply Hmember in Hinstance as (_ & _ & Hi & _). congruence.
Qed.

(** X7.  The parameter properties of a constructor are never an empty array:
    the result is absent when no parameter qualifies.  Otherwise it lists,
    in parameter order, exactly the parameters that have an accessibility
    modifier and an identifier name; a parameter whose name is a binding
    pattern is never one of them. *)
Theorem parameter_properties_are_identifiers (ctor : ClassElement) :
  getParametersWithPropertyAssignments ctor ≠ Some []
  ∧ default [] (getParametersWithPropertyAssignments ctor)
    `sublist_of` ClassElement.parameters ctor
  ∧ (∀ parameter,
       parameter ∈ default [] (getParametersWithPropertyAssignments ctor)
       ↔ parameter ∈ ClassElement.parameters ctor
         ∧ (∃ text, ParameterDeclaration.name parameter = NameIdentifier text)
         ∧ Z.land (ParameterDeclaration.flags parameter) NodeFlags.AccessibilityModifier ≠ 0).
Proof.
  rewrite getParametersWithPropertyAssignments_filter, lazyArray_default.
  split_and!.
  - apply lazyArray_nonempty.
  - apply List_filter_sublist.
  - intros parameter. rewrite !list_elem_of_In, filter_In.
    unfold isParameterProperty, hasFlag. rewrite andb_true_iff, negb_true_iff, Z.eqb_neq.
    split.
    + intros (Hin & Hname & Hflag). split_and!; try done.
      destruct (ParameterDeclaration.name parameter); try done. by eexists.
    + intros (Hin & [text Hname] & Hflag). by rewrite Hname.
Qed.

(** ** The decorators of parameters and the metadata calls *)

Section ParameterDecorators.
Context {visitor : Visitor}.

Lemma emitDecoratorsOfParametersFrom_indexed start parameters expressions :
  emitDecoratorsOfParametersFrom start parameters expressions
  = expressions
    ++ ((λ entry,
           CallExpression (Identifier "__param")
             [NumericLiteral (pretty entry.1);
              visitExpression (Decorator.expression entry.2)])
          <$> indexedParameterDecoratorsFrom start parameters).
Proof.
  revert start expressions.
  induction parameters as [|parameter parameters IH]; intros start expressions; simpl.
  - by rewrite app_nil_r.
  - rewrite IH, fmap_app, app_assoc. f_equal.
    unfold nodeIsDecorated, parameterIsDecorated.
    destruct (ParameterDeclaration.decorators parameter) as [ds|]; simpl.
    + rewrite (fold_left_push (paramCall start)). f_equal.
      by rewrite <- list_fmap_compose.
    + by rewrite app_nil_r.
Qed.

Lemma indexedParameterDecoratorsFrom_spec start parameters index decorator :
  (index, decorator) ∈ indexedParameterDecoratorsFrom start parameters
  ↔ ∃ parameter decorators,
      (start ≤ index)%nat
      ∧ parameters !! (index - start)%nat = Some parameter
      ∧ ParameterDeclaration.decorators parameter = Some decorators
      ∧ decorator ∈ decorators.
Proof.
  revert start. induction parameters as [|parameter parameters IH]; intros start; simpl.
  - split; [by intros ?%elem_of_nil|]. by intros (? & ? & _ & ? & _).
  - rewrite elem_of_app, IH, list_elem_of_fmap. split.
    + intros [(d & [= -> ->] & Hd)|(p & ds & Hle & Hp & Hds & Hd)].
      * destruct (ParameterDeclaration.decorators parameter) as [ds|] eqn:Hds;
          [|by apply elem_of_nil in Hd].
        exists parameter, ds. rewrite Nat.sub_diag. by split_and!.
      * exists p, ds. split_and!; try done; [lia|].
        replace (index - start)%nat with (S (index - S start)) by lia. done.
    + intros (p & ds & Hle & Hp & Hds & Hd).
      destruct (decide (index = start)) as [->|Hne].
      * left. rewrite Nat.sub_diag in Hp. injection Hp as ->. rewrite Hds. by exists decorator.
      * right. exists p, ds. split_and!; try done; [lia|].
        replace (index - start)%nat with (S (index - S start)) in Hp by lia. done.
Qed.

Lemma indexedParameterDecoratorsFrom_sorted start parameters :
  StronglySorted le (indexedParameterDecoratorsFrom start parameters).*1.
Proof.
  revert start. induction parameters as [|parameter parameters IH]; intros start; simpl.
  - constructor.
  - rewrite fmap_app. apply StronglySorted_le_app; [| |apply IH].
    + intros i j Hi Hj.
      apply list_elem_of_fmap in Hi as ([i' d] & -> & Hi).
      apply list_elem_of_fmap in Hi as (d' & [= -> ->] & _).
      apply list_elem_of_fmap in Hj as ([j' e] & -> & Hj).
      apply indexedParameterDecoratorsFrom_spec in Hj as (_ & _ & Hle & _). simpl. lia.
    + rewrite <- list_fmap_compose.
      induction (default [] (ParameterDeclaration.decorators parameter)) as [|d ds IHds];
        simpl; constructor; [done|].
      apply Forall_forall. intros i Hi.
      by apply list_elem_of_fmap in Hi as (? & -> & _).
Qed.

(** X8.  The parameter decorators are pushed after the expressions that the
    array already holds, which stay as they are: one call [__param(index,
    decorator)] per decorator, whose arguments are the numeric literal of the
    index and the visited decorator expression, the indices never decreasing
    along the array, each index being the position of a parameter that
    carries the decorator.  A parameter without decorators contributes
    nothing. *)
Theorem parameter_decorators_ascend
    (parameters : list ParameterDeclaration) (expressions : list Expression) :
  emitDecoratorsOfParameters parameters expressions
  = expressions
    ++ ((λ entry,
           CallExpression (Identifier "__param")
             [NumericLiteral (pretty entry.1);
              visitExpression (Decorator.expression entry.2)])
          <$> indexedParameterDecorators parameters)
  ∧ StronglySorted le (indexedParameterDecorators parameters).*1
  ∧ (∀ index decorator,
       (index, decorator) ∈ indexedParameterDecorators parameters
       ↔ ∃ parameter decorators,
           parameters !! index = Some parameter
           ∧ ParameterDeclaration.decorators parameter = Some decorators
           ∧ decorator ∈ decorators).
Proof.
  split_and!.
  - apply emitDecoratorsOfParametersFrom_indexed.
  - apply indexedParameterDecoratorsFrom_sorted.
  - intros index decorator. unfold indexedParameterDecorators.
    rewrite indexedParameterDecoratorsFrom_spec. rewrite Nat.sub_0_r.
    split.
    + intros (p & ds & _ & ? & ? & ?). by exists p, ds.
    + intros (p & ds & ? & ? & ?). exists p, ds. split_and!; try done. lia.
Qed.

(** X9.  The metadata calls are pushed after the expressions that the array
    already holds: at most three, always in the order [design:type],
    [design:paramtypes], [design:returntype].  Whenever the return-type call
    is pushed the other two are pushed as well, and a node kind that none of
    the three tests names gets none. *)
Theorem metadata_calls_in_order (kind : SyntaxKind.t) (expressions : list Expression) :
  ∃ pushed,
    emitSerializedTypeMetadata kind expressions = expressions ++ pushed
    ∧ pushed `sublist_of` allMetadataCalls
    ∧ (shouldEmitReturnTypeMetadata kind = true → pushed = allMetadataCalls)
    ∧ (shouldEmitTypeMetadata kind = false → shouldEmitParamTypesMetadata kind = false →
       pushed = []).
Proof.
  exists (emitSerializedTypeMetadata kind []).
  split; [apply emitSerializedTypeMetadata_app|].
  destruct kind; simpl; split_and!; try done;
    unfold allMetadataCalls, metadataCall, createCallExpression2, createIdentifier,
      createStringLiteral;
    repeat first [apply sublist_nil | apply sublist_skip | apply sublist_cons | done].
Qed.
End ParameterDecorators.

(** ** Classes without decorators *)

Section MemberDecoratorLowering.
Context {visitor : Visitor}.

Lemma forEachM_skip {A} (f : A → M unit) (l : list A) context :
  (∀ x, In x l → f x = ret tt) → forEachM f l context = Ok (tt, context).
Proof.
  revert context. induction l as [|x l IH]; intros context Hskip; simpl; [done|].
  unfold bind. rewrite (Hskip x) by by left. simpl.
  apply IH. intros y Hy. apply Hskip. by right.
Qed.

(** X11.  When no member of a class is decoratable and decorated (itself or
    in a parameter), the class has no decorators and its constructor no
    decorated parameter, decorator lowering emits nothing and leaves the
    whole context as it is. *)
Theorem class_without_decorators_emits_nothing
    (node : ClassLikeDeclaration) (context : VisitorContext) :
  hasNoDecorators node = true →
  emitDecoratorsOfClass node context = Ok (tt, context).
Proof.
  unfold hasNoDecorators. rewrite !andb_true_iff, forallb_forall.
  intros [[Hmembers Hclass] Hparameters].
  assert (∀ isStatic context,
            emitDecoratorsOfMembers node isStatic context = Ok (tt, context)) as Hgroup.
  { intros isStatic context0. unfold emitDecoratorsOfMembers.
    apply forEachM_skip. intros member Hin. specialize (Hmembers member Hin).
    destruct (negb (Bool.eqb isStatic _)); [done|].
    rewrite <- negb_andb. by rewrite Hmembers. }
  unfold emitDecoratorsOfClass, bind. rewrite !Hgroup.
  unfold emitDecoratorsOfConstructor. rewrite Hclass.
  destruct (getFirstConstructorWithBody node); simpl in *; by rewrite ?Hparameters.
Qed.

End MemberDecoratorLowering.

Lemma class_without_decorators_emits_nothing_witness :
  hasNoDecorators classWithField = true
  ∧ emitDecoratorsOfClass (visitor := identityVisitor) classWithField emptyContext
    = Ok (tt, emptyContext).
Proof.
  split; [reflexivity|].
  apply (class_without_decorators_emits_nothing (visitor := identityVisitor)).
  reflexivity.
Defined.

(** ** The transform of a class declaration *)

Lemma forallb_false_exists {A} (f : A → bool) (l : list A) :
  forallb f l = false → ∃ x, In x l ∧ f x = false.
Proof.
  induction l as [|x l IH]; simpl; [done|].
  destruct (f x) eqn:Hx; simpl.
  - intros H. destruct (IH H) as (y & ? & ?). eauto.
  - eauto.
Qed.

Lemma append_ne (a b : string) : b ≠ EmptyString → a +:+ b ≠ a.
Proof.
  intros Hb. induction a as [|c a IH]; simpl; [done|].
  intros [= H]. by apply IH.
Qed.

Section ClassDeclarationProperties.
Context {visitor : Visitor}.

Lemma transformConstructor_cases node hasBaseType context :
  match transformConstructor node hasBaseType context with
  | Ok (_, context') => context' = context
  | DebugFail _ =>
      ∃ member, In member (ClassLikeDeclaration.members node)
                ∧ hasPropertyName member = false
  end.
Proof.
  assert (forallb hasPropertyName (initializedInstanceFields node) = false →
          ∃ member, In member (ClassLikeDeclaration.members node)
                    ∧ hasPropertyName member = false) as Habort.
  { intros H. apply forallb_false_exists in H as (member & Hin & Hname).
    apply filter_In in Hin as [Hin _]. eauto. }
  destruct (match getFirstConstructorWithBody node with
            | Some ctor => List.filter isParameterProperty (ClassElement.parameters ctor)
            | None => []
            end) as [|parameter parameters] eqn:Hparameters;
    [destruct (initializedInstanceFields node) as [|field fields] eqn:Hfields|].
  - by rewrite transformConstructor_fast_path.
  - rewrite transformConstructor_synthesized by (right; by rewrite Hfields).
    rewrite Hfields. destruct (forallb _ _) eqn:Hnames; [done|].
    rewrite <- Hfields in Hnames. by apply Habort.
  - rewrite transformConstructor_synthesized by (left; by rewrite Hparameters).
    destruct (forallb _ _) eqn:Hnames; [done|]. by apply Habort.
Qed.

Lemma transformNodeWorker_cases member context :
  match transformNodeWorker member context with
  | Ok (_, context') => sameBuffers context context'
  | DebugFail _ => hasPropertyName member = false
  end.
Proof.
  unfold transformNodeWorker.
  destruct (hasFlag (ClassElement.flags member) NodeFlags.Ambient);
    [apply sameBuffers_refl|].
  destruct (ClassElement.kind member); try apply sameBuffers_refl.
  - unfold bind, transformMethodDeclaration.
    destruct (ClassElement.body member); [|apply sameBuffers_refl].
    unfold bind.
    pose proof (transformPropertyName_cases member false context) as H.
    destruct (transformPropertyName member false context) as [[name context']|]; [|done].
    apply H.
  - unfold bind, transformGetAccessor. unfold bind.
    pose proof (transformPropertyName_cases member false context) as H.
    destruct (transformPropertyName member false context) as [[name context']|]; [|done].
    apply H.
  - unfold bind, transformSetAccessor. unfold bind.
    pose proof (transformPropertyName_cases member false context) as H.
    destruct (transformPropertyName member false context) as [[name context']|]; [|done].
    apply H.
Qed.

Lemma mapM_transformNodeWorker_cases members context :
  match mapM transformNodeWorker members context with
  | Ok (_, context') => sameBuffers context context'
  | DebugFail _ => ∃ member, In member members ∧ hasPropertyName member = false
  end.
Proof.
  revert context. induction members as [|member members IH]; intros context; simpl.
  - apply sameBuffers_refl.
  - unfold bind at 1.
    pose proof (transformNodeWorker_cases member context) as Hmember.
    destruct (transformNodeWorker member context) as [[result context1]|]; [|by eauto].
    unfold bind at 1. specialize (IH context1).
    destruct (mapM transformNodeWorker members context1) as [[results context2]|].
    + by eapply sameBuffers_trans.
    + destruct IH as (m & ? & ?). eauto.
Qed.

Lemma emitPropertyDeclarations_abort node properties context :
  match emitPropertyDeclarations node properties context with
  | Ok (_, context') =>
      ∃ out,
        statements context' = statements context ++ out
        ∧ enclosingStatements context' = enclosingStatements context
        ∧ Forall (λ statement, isExpressionStatement statement = true) out
  | DebugFail _ => ∃ property, In property properties ∧ hasPropertyName property = false
  end.
Proof.
  unfold emitPropertyDeclarations. revert context.
  induction properties as [|property properties IH]; intros context; simpl.
  - exists []. rewrite app_nil_r. by repeat split.
  - unfold bind at 1. unfold bind at 1. unfold transformPropertyDeclaration.
    unfold bind at 1.
    assert (∃ target context1,
              (if hasFlag (ClassElement.flags property) NodeFlags.Static
               then getDeclarationNameOfClass node else ret createThisKeyword) context
              = Ok (target, context1) ∧ sameBuffers context context1)
      as (target & context1 & -> & (F1 & F2 & _)).
    { destruct (hasFlag _ _).
      - apply getDeclarationNameOfClass_frame.
      - eexists _, _. split; [reflexivity|]. apply sameBuffers_refl. }
    unfold bind at 1.
    pose proof (transformPropertyName_cases property
                  (negb (hasFlag (ClassElement.flags property) NodeFlags.Static)) context1)
      as Hname.
    destruct (transformPropertyName property _ context1) as [[name context2]|];
      [|by eauto].
    destruct Hname as [(G1 & G2 & _) _].
    unfold ret at 1. unfold emitStatement at 1, emitStatements at 1, modify at 1.
    match goal with |- match forEachM ?f properties ?c with _ => _ end => specialize (IH c) end.
    destruct (forEachM _ properties _) as [[[] context']|].
    + destruct IH as (out & Hout & Henclosing & Hkinds).
      simpl in Hout, Henclosing.
      eexists (_ :: out). rewrite Hout, Henclosing, G1, G2, F1, F2, <- app_assoc.
      repeat split. by constructor.
    + destruct IH as (p & ? & ?). eauto.
Qed.

Lemma EmittedBy_frame node context trace context' :
  EmittedBy node context trace context' →
  enclosingStatements context' = enclosingStatements context.
Proof.
  induction 1 as [|context context1 context2 member out trace Hrun _ _ IH]; [done|].
  pose proof (emitDecoratorsOfMember_cases node member context) as H.
  rewrite Hrun in H. destruct H as (_ & _ & H & _). congruence.
Qed.

Lemma emitDecoratorsOfClass_cases node context :
  match emitDecoratorsOfClass node context with
  | Ok (_, context') =>
      ∃ out classStatements,
        statements context' = statements context ++ out ++ classStatements
        ∧ enclosingStatements context' = enclosingStatements context
        ∧ Forall (λ statement, isExpressionStatement statement = true) out
        ∧ match ClassLikeDeclaration.decorators node with
          | Some _ =>
              ∃ binding list,
                (∀ className,
                   ClassLikeDeclaration.name node = Some className →
                   binding = Identifier className)
                ∧ classStatements = [classDecoratorStatement binding list]
          | None =>
              (length classStatements ≤ 1)%nat
              ∧ Forall (λ statement, isExpressionStatement statement = true) classStatements
          end
  | DebugFail _ =>
      ∃ member, In member (ClassLikeDeclaration.members node)
                ∧ hasPropertyName member = false
  end.
Proof.
  unfold emitDecoratorsOfClass, emitDecoratorsOfMembers.
  unfold bind at 1.
  pose proof (emitDecoratorsOfMembers_loop node false (ClassLikeDeclaration.members node)
                context) as Hinstance.
  destruct (forEachM _ _ context) as [[[] context1]|]; [|done].
  destruct Hinstance as (instanceTrace & Hi0 & _ & Hi & _ & Hki).
  apply EmittedBy_frame in Hi0.
  unfold bind at 1.
  pose proof (emitDecoratorsOfMembers_loop node true (ClassLikeDeclaration.members node)
                context1) as Hstatic.
  destruct (forEachM _ _ context1) as [[[] context2]|]; [|done].
  destruct Hstatic as (staticTrace & Hs0 & _ & Hs & _ & Hks).
  apply EmittedBy_frame in Hs0.
  pose proof (emitDecoratorsOfConstructor_closed node context2) as Hclosed. simpl in Hclosed.
  destruct (getDeclarationNameOfClass node context2) as [[binding context3]|] eqn:Hbinding;
    [|done].
  assert (sameBuffers context2 context3) as (F1 & F2 & _).
  { destruct (getDeclarationNameOfClass_frame node context2) as (b & c & Hrun & Hframe).
    rewrite Hbinding in Hrun. by injection Hrun as -> ->. }
  assert (∀ className, ClassLikeDeclaration.name node = Some className →
                       binding = Identifier className) as Hnamed.
  { intros className Hname. unfold getDeclarationNameOfClass in Hbinding.
    rewrite Hname in Hbinding. by injection Hbinding as <- _. }
  rewrite Hclosed. clear Hclosed.
  destruct (ClassLikeDeclaration.decorators node) as [decorators|] eqn:Hdecorators.
  - rewrite bool_decide_is_Some_Some. simpl.
    eexists (concat instanceTrace.*2 ++ concat staticTrace.*2), [_]. simpl.
    rewrite F1, F2, Hs, Hs0, Hi, Hi0, <- !app_assoc. split_and!; try done.
    + by apply Forall_app.
    + eexists binding, _. split; [exact Hnamed|]. reflexivity.
  - rewrite (bool_decide_is_Some_None (A:=list Decorator)). simpl.
    destruct (negb _).
    + exists (concat instanceTrace.*2 ++ concat staticTrace.*2), []. simpl.
      rewrite Hs, Hs0, Hi, Hi0, <- !app_assoc, app_nil_r. split_and!; try done.
      * by apply Forall_app.
      * lia.
    + eexists (concat instanceTrace.*2 ++ concat staticTrace.*2), [_]. simpl.
      rewrite F1, F2, Hs, Hs0, Hi, Hi0, <- !app_assoc. split_and!; try done.
      * by apply Forall_app.
      * by repeat constructor.
Qed.

Lemma staticPropertyAssignments_cases node context :
  match
    match getInitializedProperties node true with
    | Some properties => emitPropertyDeclarations node properties
    | None => ret tt
    end context
  with
  | Ok (_, context') =>
      ∃ out,
        statements context' = statements context ++ out
        ∧ enclosingStatements context' = enclosingStatements context
        ∧ Forall (λ statement, isExpressionStatement statement = true) out
  | DebugFail _ =>
      ∃ member, In member (ClassLikeDeclaration.members node)
                ∧ hasPropertyName member = false
  end.
Proof.
  pose proof (emitPropertyDeclarations_abort node
                (List.filter (isInitializedProperty true) (ClassLikeDeclaration.members node))
                context) as H.
  unfold emitPropertyDeclarations in *.
  rewrite getInitializedProperties_filter, lazyArray_forEachM.
  destruct (forEachM _ _ context) as [[[] context']|]; [done|].
  destruct H as (property & Hin & Hname). apply filter_In in Hin as [Hin _]. eauto.
Qed.

(** X14.  A decorated class declaration [C] is lowered to the statement
    [let C = class C_k ...], followed by expression statements only, the
    last of which is [C = __decorate([...], C)].  The class expression has
    a generated name that differs from [C], no decorators and no modifiers,
    at most the first of the heritage clauses that survive, and as members
    the constructor that the pass returns, if any, followed by the members
    that survive their transform.  The pass aborts only when a member of the
    class has no property name. *)
Theorem decorated_class_becomes_let_binding
    (node : ClassLikeDeclaration) (context : VisitorContext)
    (decorators : list Decorator) (className : string) :
  ClassLikeDeclaration.decorators node = Some decorators →
  ClassLikeDeclaration.name node = Some className →
  match transformClassDeclaration node context with
  | Ok (result, context') =>
      ∃ classExpression between list ctor visited context1 k,
        statements context'
        = statements context
          ++ [VariableStatement (Identifier className) (ClassExpressionNode classExpression)
                NodeFlags.Let (Some (ClassLikeDeclaration.id node))]
          ++ between
          ++ [classDecoratorStatement (Identifier className) list]
        ∧ Forall (λ statement, isExpressionStatement statement = true) between
        ∧ ClassLikeDeclaration.kind classExpression = SyntaxKind.ClassExpression
        ∧ ClassLikeDeclaration.name classExpression = Some (className +:+ tempName k)
        ∧ ClassLikeDeclaration.name classExpression ≠ Some className
        ∧ ClassLikeDeclaration.decorators classExpression = None
        ∧ ClassLikeDeclaration.modifiers classExpression = None
        ∧ ClassLikeDeclaration.heritageClauses classExpression
          = (λ clause, [clause])
              <$> ((omap transformNodeWorkerOfHeritageClause
                      <$> ClassLikeDeclaration.heritageClauses node) ≫= head)
        ∧ transformConstructor node
            (bool_decide (is_Some (getClassExtendsHeritageClauseElement node))) context
          = Ok (ctor, context)
        ∧ mapM transformNodeWorker (ClassLikeDeclaration.members node) context
          = Ok (visited, context1)
        ∧ ClassLikeDeclaration.members classExpression
          = option_list ctor ++ omap id visited
  | DebugFail _ =>
      ∃ member, In member (ClassLikeDeclaration.members node)
                ∧ hasPropertyName member = false
  end.
Proof.
  intros Hdecorated Hnamed.
  unfold transformClassDeclaration. rewrite Hdecorated, Hnamed.
  unfold bind at 1.
  pose proof (transformConstructor_cases node
                (bool_decide (is_Some (getClassExtendsHeritageClauseElement node))) context)
    as Hctor.
  destruct (transformConstructor node _ context) as [[ctor context0]|] eqn:Hrunctor; [|done].
  subst context0. unfold bind at 1.
  pose proof (mapM_transformNodeWorker_cases (ClassLikeDeclaration.members node) context)
    as Hmembers.
  destruct (mapM transformNodeWorker _ context) as [[visited context1]|] eqn:Hrunmembers;
    [|done].
  destruct Hmembers as (F1 & F2 & _).
  unfold bind at 1. unfold bind at 1. unfold getDeclarationNameOfClass at 1.
  rewrite Hnamed. unfold ret at 1. unfold bind at 1. unfold bind at 1.
  unfold createUniqueIdentifier at 1. unfold ret at 1.
  unfold emitStatement at 1, emitStatements at 1, modify at 1.
  unfold bind at 1.
  match goal with
  | |- match match match _ with _ => _ end ?c with _ => _ end with _ => _ end =>
      pose proof (staticPropertyAssignments_cases node c) as Hstatic
  end.
  match type of Hstatic with
  | match ?run with _ => _ end => destruct run as [[[] context3]|]; [|done]
  end.
  destruct Hstatic as (out1 & I1 & I2 & Hkinds1). simpl in I1, I2.
  unfold bind at 1.
  pose proof (emitDecoratorsOfClass_cases node context3) as Hlowered.
  destruct (emitDecoratorsOfClass node context3) as [[[] context4]|]; [|done].
  rewrite Hdecorated in Hlowered.
  destruct Hlowered as (out2 & out3 & J1 & J2 & Hkinds2 & binding & list & Hbinding & ->).
  rewrite (Hbinding className Hnamed) in J1.
  simpl.
  eexists _, (out1 ++ out2), list, ctor, visited, context1, (tempCount context1).
  split.
  { rewrite J1, I1, F1. unfold createClassExpression2.
    rewrite <- !app_assoc. reflexivity. }
  simpl. split_and!; try done.
  - by apply Forall_app.
  - intros [= H]. by apply append_ne in H.
  - by destruct ctor.
Qed.
End ClassDeclarationProperties.

Lemma decorated_class_becomes_let_binding_witness :
  match transformClassDeclaration (visitor := identityVisitor)
          decoratedDerivedClass emptyContext with
  | Ok (_, context') =>
      ∃ classExpression,
        statements context'
        = [VariableStatement (Identifier "C") (ClassExpressionNode classExpression)
             NodeFlags.Let (Some 1%nat);
           classDecoratorStatement (Identifier "C") [Identifier "d"]]
        ∧ ClassLikeDeclaration.name classExpression = Some "C_0"
  | DebugFail _ => False
  end.
Proof.
  pose proof (decorated_class_becomes_let_binding (visitor := identityVisitor)
                decoratedDerivedClass emptyContext [decorator "d"] "C" eq_refl eq_refl)
    as H.
  destruct (transformClassDeclaration decoratedDerivedClass emptyContext)
    as [[result context']|message] eqn:Hrun.
  - vm_compute in Hrun. injection Hrun as _ <-. eexists. split; reflexivity.
  - destruct H as (member & [<-|[]] & Hname). discriminate Hname.
Defined.

(** ** The transform of a class expression *)

Section ClassExpressionProperties.
Context {visitor : Visitor}.

Lemma transformPropertyDeclaration_cases node property context :
  match transformPropertyDeclaration node property context with
  | Ok (_, context') => sameBuffers context context'
  | DebugFail _ => hasPropertyName property = false
  end.
Proof.
  unfold transformPropertyDeclaration. unfold bind at 1.
  assert (∃ target context1,
            (if hasFlag (ClassElement.flags property) NodeFlags.Static
             then getDeclarationNameOfClass node else ret createThisKeyword) context
            = Ok (target, context1) ∧ sameBuffers context context1)
    as (target & context1 & -> & Hframe).
  { destruct (hasFlag _ _).
    - apply getDeclarationNameOfClass_frame.
    - eexists _, _. split; [reflexivity|]. apply sameBuffers_refl. }
  unfold bind at 1.
  pose proof (transformPropertyName_cases property
                (negb (hasFlag (ClassElement.flags property) NodeFlags.Static)) context1)
    as Hname.
  destruct (transformPropertyName property _ context1) as [[name context2]|]; [|done].
  simpl. destruct Hname as [Hname _]. by eapply sameBuffers_trans.
Qed.

Lemma transformPropertyDeclarations_loop node properties expressions context :
  match
    foldM
      (λ expressions property,
         let* propertyAssignment := transformPropertyDeclaration node property in
         ret (expressions ++ [(propertyAssignment, Some (ClassElement.id property))]))
      properties expressions context
  with
  | Ok (_, context') => sameBuffers context context'
  | DebugFail _ => ∃ property, In property properties ∧ hasPropertyName property = false
  end.
Proof.
  revert expressions context.
  induction properties as [|property properties IH]; intros expressions context; simpl.
  - apply sameBuffers_refl.
  - unfold bind at 1. unfold bind at 1.
    pose proof (transformPropertyDeclaration_cases node property context) as Hproperty.
    destruct (transformPropertyDeclaration node property context)
      as [[assignment context1]|]; [|by eauto].
    unfold ret at 1.
    match goal with |- match foldM ?f properties ?e ?c with _ => _ end =>
      specialize (IH e c); destruct (foldM f properties e c) as [[result context2]|]
    end.
    + by eapply sameBuffers_trans.
    + destruct IH as (p & ? & ?). eauto.
Qed.

Lemma staticFields_static node :
  Forall (λ property, hasFlag (ClassElement.flags property) NodeFlags.Static = true)
    (List.filter (isInitializedProperty true) (ClassLikeDeclaration.members node)).
Proof.
  apply Forall_forall. intros property Hin.
  apply list_elem_of_In, filter_In in Hin as [_ Hin]. unfold isInitializedProperty in Hin.
  destruct (hasFlag (ClassElement.flags property) NodeFlags.Static); [done|].
  by rewrite andb_false_r in Hin.
Qed.

(** X15.  The transform of a class expression never emits a statement: the
    current buffer and the enclosing buffers are as before.  A decorated
    class expression is returned as it is, with the whole context
    untouched; an undecorated one without initialized static fields becomes
    a class expression of the same kind, identity and name without
    decorators and type parameters; one with initialized static fields
    becomes a parenthesized sequence.  The pass aborts only at an
    undecorated class expression one of whose members has no property
    name. *)
Theorem class_expression_emits_no_statement
    (node : ClassLikeDeclaration) (context : VisitorContext) :
  match transformClassExpression node context with
  | Ok (result, context') =>
      statements context' = statements context
      ∧ enclosingStatements context' = enclosingStatements context
      ∧ match ClassLikeDeclaration.decorators node,
              List.filter (isInitializedProperty true) (ClassLikeDeclaration.members node)
        with
        | Some _, _ => result = ClassExpressionOf node ∧ context' = context
        | None, [] =>
            ∃ newNode,
              result = ClassExpressionOf newNode
              ∧ ClassLikeDeclaration.kind newNode = ClassLikeDeclaration.kind node
              ∧ ClassLikeDeclaration.id newNode = ClassLikeDeclaration.id node
              ∧ ClassLikeDeclaration.name newNode = ClassLikeDeclaration.name node
              ∧ ClassLikeDeclaration.decorators newNode = None
              ∧ ClassLikeDeclaration.typeParameters newNode = None
        | None, _ :: _ => ∃ elements, result = ParenthesizedSequence elements
        end
  | DebugFail _ =>
      ClassLikeDeclaration.decorators node = None
      ∧ ∃ member, In member (ClassLikeDeclaration.members node)
                  ∧ hasPropertyName member = false
  end.
Proof.
  unfold transformClassExpression.
  destruct (ClassLikeDeclaration.decorators node) as [decorators|].
  { rewrite bool_decide_is_Some_Some. simpl. by repeat split. }
  rewrite (bool_decide_is_Some_None (A:=list Decorator)).
  unfold bind at 1.
  pose proof (transformConstructor_cases node
                (bool_decide (is_Some (getClassExtendsHeritageClauseElement node))) context)
    as Hctor.
  destruct (transformConstructor node _ context) as [[ctor context0]|]; [|done].
  subst context0. unfold bind at 1.
  pose proof (mapM_transformNodeWorker_cases (ClassLikeDeclaration.members node) context)
    as Hmembers.
  destruct (mapM transformNodeWorker _ context) as [[visited context1]|]; [|done].
  destruct Hmembers as (F1 & F2 & _).
  rewrite getInitializedProperties_filter.
  destruct (List.filter (isInitializedProperty true) (ClassLikeDeclaration.members node))
    as [|field fields] eqn:Hfields; simpl.
  - split_and!; try done. eexists. by split_and!.
  - unfold bind at 1. unfold declareLocal at 1. unfold bind at 1.
    unfold transformPropertyDeclarations.
    match goal with |- context [foldM ?f ?l ?e ?c] =>
      pose proof (transformPropertyDeclarations_loop node l e c) as Hloop;
      destruct (foldM f l e c) as [[result context2]|]
    end.
    + destruct Hloop as (G1 & G2 & _). simpl in G1, G2.
      split_and!; [congruence|congruence|by eexists].
    + split; [done|]. destruct Hloop as (property & Hin & Hname).
      exists property. split; [|done].
      rewrite <- Hfields in Hin. by apply filter_In in Hin as [Hin _].
Qed.

End ClassExpressionProperties.

(** ** Static fields *)

Section StaticFields.
Context {visitor : Visitor}.

Lemma transformPropertyDeclaration_static node className property context :
  ClassLikeDeclaration.name node = Some className →
  hasFlag (ClassElement.flags property) NodeFlags.Static = true →
  hasDynamicName property = false →
  transformPropertyDeclaration node property context
  = if hasPropertyName property
    then Ok (match staticFieldStatement className property with
             | ExpressionStatement assignment _ => assignment
             | _ => AbsentExpression
             end, context)
    else DebugFail bindingPatternMessage.
Proof.
  intros Hnamed Hstatic Hplain. unfold transformPropertyDeclaration.
  rewrite Hstatic. unfold bind at 1. unfold getDeclarationNameOfClass. rewrite Hnamed.
  unfold ret at 1. unfold bind, transformPropertyName, getDeclarationName.
  unfold hasDynamicName in Hplain. unfold hasPropertyName, staticFieldStatement.
  destruct (ClassElement.name property) as [[text|text|text|nameId expression|tag|tag]|];
    try done; simpl; unfold ret; by destruct (ClassElement.initializer property).
Qed.

Lemma emitPropertyDeclarations_static node className properties context :
  ClassLikeDeclaration.name node = Some className →
  Forall (λ property, hasFlag (ClassElement.flags property) NodeFlags.Static = true)
    properties →
  Forall (λ property, hasDynamicName property = false) properties →
  emitPropertyDeclarations node properties context
  = if forallb hasPropertyName properties
    then Ok (tt, withStatements context
                   (statements context ++ (staticFieldStatement className <$> properties))
                   (enclosingStatements context))
    else DebugFail bindingPatternMessage.
Proof.
  intros Hnamed Hstatic Hplain. revert context.
  induction properties as [|property properties IH]; intros context.
  - simpl. unfold ret. by rewrite app_nil_r, withStatements_same.
  - apply Forall_cons in Hstatic as [Hflag Hstatic].
    apply Forall_cons in Hplain as [Hname Hplain].
    specialize (IH Hstatic Hplain).
    unfold emitPropertyDeclarations in *. simpl. unfold bind at 1. unfold bind at 1.
    rewrite (transformPropertyDeclaration_static node className property context) by done.
    destruct (hasPropertyName property) eqn:Hproperty; simpl; [|done].
    unfold emitStatement at 1, emitStatements at 1, modify at 1.
    rewrite IH. destruct (forallb hasPropertyName properties); [|done].
    simpl. by rewrite <- app_assoc.
Qed.

(** X17.  The initialized static fields of a class named [C] whose names
    are not computed are emitted as one statement each, in declaration
    order: [C.<name> = <initializer>] for an identifier name and
    [C[<literal>] = <initializer>] for a string or numeric name, with the
    visited initializer of the field, marked with the field it comes from.
    The emission aborts exactly when one of the fields has no property
    name. *)
Theorem static_fields_emitted_in_order
    (node : ClassLikeDeclaration) (className : string) (context : VisitorContext) :
  ClassLikeDeclaration.name node = Some className →
  let fields :=
    List.filter (isInitializedProperty true) (ClassLikeDeclaration.members node) in
  Forall (λ field, hasDynamicName field = false) fields →
  match emitPropertyDeclarations node fields context with
  | Ok (_, context') =>
      forallb hasPropertyName fields = true
      ∧ statements context'
        = statements context ++ (staticFieldStatement className <$> fields)
  | DebugFail _ => forallb hasPropertyName fields = false
  end.
Proof.
  intros Hnamed fields Hplain.
  rewrite (emitPropertyDeclarations_static node className fields context Hnamed)
    by (done || apply staticFields_static).
  by destruct (forallb hasPropertyName fields).
Qed.
End StaticFields.

Lemma static_fields_emitted_in_order_witness :
  match emitPropertyDeclarations (visitor := identityVisitor) classWithStaticFields
          (List.filter (isInitializedProperty true)
             (ClassLikeDeclaration.members classWithStaticFields))
          emptyContext with
  | Ok (_, context') =>
      statements context'
      = [ExpressionStatement
           (AssignmentExpression
              (PropertyAccessExpression (Identifier "C") (Identifier "x"))
              (NumericLiteral "1"))
           (Some 2%nat);
         ExpressionStatement
           (AssignmentExpression
              (ElementAccessExpression (Identifier "C") (StringLiteral "y z"))
              (NumericLiteral "2"))
           (Some 4%nat)]
  | DebugFail _ => False
  end.
Proof.
  pose proof (static_fields_emitted_in_order (visitor := identityVisitor)
                classWithStaticFields "C" emptyContext eq_refl) as H.
  cbv zeta in H.
  assert (Forall (λ field, hasDynamicName field = false)
            (List.filter (isInitializedProperty true)
               (ClassLikeDeclaration.members classWithStaticFields))) as Hplain
    by (repeat constructor).
  specialize (H Hplain).
  destruct (emitPropertyDeclarations classWithStaticFields _ emptyContext)
    as [[[] context']|message].
  - destruct H as [_ H]. exact H.
  - discriminate H.
Defined.

(** ** Heritage clauses and modifiers *)

Section HeritageAndModifiers.
Context {visitor : Visitor}.

Lemma SyntaxKind_eqb_eq (a b : SyntaxKind.t) : SyntaxKind.eqb a b = true → a = b.
Proof. by destruct a, b. Qed.

Lemma omap_length_le {A B} (f : A → option B) (l : list A) :
  (length (omap f l) ≤ length l)%nat.
Proof.
  induction l as [|x l IH]; [done|].
  change (omap f (x :: l)) with (match f x with Some y => y :: omap f l | None => omap f l end).
  destruct (f x); simpl; lia.
Qed.


Lemma transformHeritageClause_types (clause : HeritageClause) :
  let lowered :=
    omap (transformNode ExpressionWithTypeArguments.transformFlags
            (λ n, Some (transformExpressionWithTypeArguments n))
            acceptExpressionWithTypeArguments)
      (HeritageClause.types clause) in
  (length lowered ≤ length (HeritageClause.types clause))%nat
  ∧ ∀ type,
      type ∈ HeritageClause.types clause →
      (needsTransform (ExpressionWithTypeArguments.transformFlags type)
         TransformFlags.ThisNodeNeedsTransformToES6 = true →
       withoutTypeArguments type ∈ lowered)
      ∧ (needsTransform (ExpressionWithTypeArguments.transformFlags type)
           TransformFlags.ThisNodeNeedsTransformToES6 = false →
         needsTransform (ExpressionWithTypeArguments.transformFlags type)
           TransformFlags.SubtreeNeedsTransformToES6 = false →
         type ∈ lowered).
Proof.
  simpl. split.
  - apply omap_length_le.
  - intros type Hin. split.
    + intros Hmarked. apply list_elem_of_omap. exists type. split; [done|].
      unfold transformNode. by rewrite Hmarked.
    + intros Hthis Hsubtree. apply list_elem_of_omap. exists type. split; [done|].
      unfold transformNode. by rewrite Hthis, Hsubtree.
Qed.

(** X19.  The heritage clauses of a lowered class are, in their order, the
    [extends] clauses that are not ambient: an [implements] clause never
    survives.  A surviving clause keeps its token and flags and has no more
    base types than before; a base type marked for lowering is there without
    its type arguments and with its expression, an unmarked one in an
    unmarked subtree as it was. *)
Theorem heritage_clauses_keep_extends_only (clauses : list HeritageClause) :
  Forall2
    (λ clause lowered,
       HeritageClause.token lowered = SyntaxKind.ExtendsKeyword
       ∧ HeritageClause.token lowered = HeritageClause.token clause
       ∧ HeritageClause.flags lowered = HeritageClause.flags clause
       ∧ (length (HeritageClause.types lowered) ≤ length (HeritageClause.types clause))%nat
       ∧ ∀ type,
           type ∈ HeritageClause.types clause →
           (needsTransform (ExpressionWithTypeArguments.transformFlags type)
              TransformFlags.ThisNodeNeedsTransformToES6 = true →
            withoutTypeArguments type ∈ HeritageClause.types lowered)
           ∧ (needsTransform (ExpressionWithTypeArguments.transformFlags type)
                TransformFlags.ThisNodeNeedsTransformToES6 = false →
              needsTransform (ExpressionWithTypeArguments.transformFlags type)
                TransformFlags.SubtreeNeedsTransformToES6 = false →
              type ∈ HeritageClause.types lowered))
    (List.filter isLoweredClause clauses)
    (omap transformNodeWorkerOfHeritageClause clauses).
Proof.
  induction clauses as [|clause clauses IH]; simpl; [constructor|].
  unfold isLoweredClause, transformNodeWorkerOfHeritageClause, transformHeritageClause.
  destruct (hasFlag (HeritageClause.flags clause) NodeFlags.Ambient);
    [by rewrite andb_false_r|].
  destruct (SyntaxKind.eqb (HeritageClause.token clause) SyntaxKind.ExtendsKeyword)
    eqn:Htoken; simpl; [|done].
  constructor; [|done]. apply SyntaxKind_eqb_eq in Htoken. simpl.
  destruct (transformHeritageClause_types clause) as [Hlength Htypes].
  by split_and!.
Qed.

End HeritageAndModifiers.

